(** * A relay between a debugger, Maya's command port and debugpy

    Shallow embedding of [adapter/__main__.py]: the handlers for messages
    of the debugger and of debugpy, the attach sequence, and the two loops
    that frame messages to and from debugpy.  Python values, the heap of
    dictionaries, exceptions and the effects on the outside world (sockets,
    threads, the log) are explicit. *)

From Stdlib Require Import ZArith NArith List Lia Ascii String Decimal DecimalNat.
From Stdlib.Strings Require Import Byte.
From stdpp Require Import base option list gmap.

Local Open Scope N_scope.
Set Warnings "-register-all".

(** ** Python strings *)

(** A Python [str] is a sequence of code points; a [bytes] object a
    sequence of bytes. *)
Module PyStr.

Definition pystr := list N.

Definition lit (s : string) : pystr := N_of_ascii <$> list_ascii_of_string s.
Arguments lit : simpl never.

(** A literal in which ['] stands for the double quote. *)
Definition quoted (s : string) : pystr :=
  (fun c => if c =? 39 then 34 else c) <$> lit s.
Arguments quoted : simpl never.

Definition LF : N := 10.
Definition CR : N := 13.
Definition DQUOTE : N := 34.
Definition BACKSLASH : N := 92.

Definition eqb (a b : pystr) : bool := bool_decide (a = b).

(** [bool(s)] of a string: the empty string is false. *)
Definition truthy (s : pystr) : bool :=
  match s with [] => false | _ => true end.

(** [str.isspace] on one code point, which is what [str.strip()] removes. *)
Definition is_space (c : N) : bool :=
  ((9 <=? c) && (c <=? 13)) || ((28 <=? c) && (c <=? 32))
  || (c =? 133) || (c =? 160) || (c =? 5760)
  || ((8192 <=? c) && (c <=? 8202))
  || (c =? 8232) || (c =? 8233) || (c =? 8239) || (c =? 8287) || (c =? 12288).

Fixpoint lstrip (s : pystr) : pystr :=
  match s with
  | c :: r => if is_space c then lstrip r else s
  | [] => []
  end.

Definition rstrip (s : pystr) : pystr := rev (lstrip (rev s)).

Definition strip (s : pystr) : pystr := rstrip (lstrip s).

Fixpoint startswith (p s : pystr) : bool :=
  match p, s with
  | [], _ => true
  | a :: p', b :: s' => (a =? b) && startswith p' s'
  | _ :: _, [] => false
  end.

(** [s.replace('\\', '\\' * k)]: every backslash becomes [k] backslashes. *)
Definition replace_backslash (k : nat) (s : pystr) : pystr :=
  s ≫= (fun c => if c =? BACKSLASH then replicate k BACKSLASH else [c]).

(** [s[:-3]] *)
Definition drop_last3 (s : pystr) : pystr := take (length s - 3)%nat s.

(** *** Decimal numerals: [str(n)] and [int(s)] *)

Fixpoint uint_chars (d : Decimal.uint) : pystr :=
  match d with
  | Nil => []
  | D0 d => 48 :: uint_chars d
  | D1 d => 49 :: uint_chars d
  | D2 d => 50 :: uint_chars d
  | D3 d => 51 :: uint_chars d
  | D4 d => 52 :: uint_chars d
  | D5 d => 53 :: uint_chars d
  | D6 d => 54 :: uint_chars d
  | D7 d => 55 :: uint_chars d
  | D8 d => 56 :: uint_chars d
  | D9 d => 57 :: uint_chars d
  end.

Definition str_of_nat (n : nat) : pystr := uint_chars (Nat.to_uint n).

Definition str_of_Z (z : Z) : pystr :=
  if (z <? 0)%Z then 45 :: str_of_nat (Z.to_nat (- z)) else str_of_nat (Z.to_nat z).

Definition is_digit (c : N) : bool := (48 <=? c) && (c <=? 57).

(** The digits of [int(s)]: ASCII digits, single underscores between
    them.  [after_us] tells that the previous character was an
    underscore. *)
Fixpoint parse_digits (acc : nat) (after_us : bool) (s : pystr) : option nat :=
  match s with
  | [] => if after_us then None else Some acc
  | c :: r =>
      if is_digit c then parse_digits (10 * acc + N.to_nat (c - 48))%nat false r
      else if (c =? 95) && negb after_us then parse_digits acc true r
      else None
  end.

Definition parse_unsigned (s : pystr) : option nat :=
  match s with
  | c :: _ => if is_digit c then parse_digits 0 false s else None
  | [] => None
  end.

(** The white space [int()] skips around a numeral: the white space of
    C in ASCII (tab, line feed, vertical tab, form feed, carriage return
    and the blank) and the white space of Unicode beyond ASCII.  The
    separators U+001C to U+001F, which [str.strip()] removes, are not
    among it: [int('\x1c1')] raises [ValueError]. *)
Definition is_int_space (c : N) : bool :=
  is_space c && negb ((28 <=? c) && (c <=? 31)).

Fixpoint int_lstrip (s : pystr) : pystr :=
  match s with
  | c :: r => if is_int_space c then int_lstrip r else s
  | [] => []
  end.

Definition int_strip (s : pystr) : pystr := rev (int_lstrip (rev (int_lstrip s))).

(** [int(s)] for a string: [None] stands for [ValueError].  The model
    covers numerals written with ASCII digits, of any length: the decimal
    digits of other scripts, which Python also reads, are rejected here,
    and the limit that recent interpreters put on the number of digits
    ([sys.set_int_max_str_digits]) is left out. *)
Definition int_of_str (s : pystr) : option Z :=
  match int_strip s with
  | c :: r =>
      if c =? 45 then (fun n => (- Z.of_nat n)%Z) <$> parse_unsigned r
      else if c =? 43 then Z.of_nat <$> parse_unsigned r
      else Z.of_nat <$> parse_unsigned (c :: r)
  | [] => None
  end.

(** *** UTF-8: [bytes(s, 'UTF-8')] *)

Definition byte_of (n : N) : byte := default x00 (Byte.of_N n).

(** One code point.  Surrogates cannot be encoded: [None] stands for
    [UnicodeEncodeError]. *)
Definition utf8_char (c : N) : option (list byte) :=
  if c <? 128 then Some [byte_of c]
  else if c <? 2048 then
    Some [byte_of (192 + c / 64); byte_of (128 + c mod 64)]
  else if c <? 65536 then
    if (55296 <=? c) && (c <=? 57343) then None
    else Some [byte_of (224 + c / 4096); byte_of (128 + (c / 64) mod 64);
               byte_of (128 + c mod 64)]
  else if c <? 1114112 then
    Some [byte_of (240 + c / 262144); byte_of (128 + (c / 4096) mod 64);
          byte_of (128 + (c / 64) mod 64); byte_of (128 + c mod 64)]
  else None.

Fixpoint utf8_encode (s : pystr) : option (list byte) :=
  match s with
  | [] => Some []
  | c :: r =>
      match utf8_char c, utf8_encode r with
      | Some bs, Some rest => Some (bs ++ rest)
      | _, _ => None
      end
  end.

Definition is_ascii (s : pystr) : Prop := Forall (fun c => c < 128) s.

(** *** Text streams *)

(** What a text-mode file with universal newlines (the default of
    [socket.makefile()]) hands to its reader: ["\r\n"] and a lone ["\r"]
    both arrive as ["\n"].  This is the translation of a text that is
    complete.  While more may follow, the reader holds back a carriage
    return at the very end of what has arrived, until it sees the next
    character; the function is used on texts that do not end in one,
    where the two agree. *)
Fixpoint universal_newlines (s : pystr) : pystr :=
  match s with
  | [] => []
  | c :: r =>
      if c =? CR then
        match r with
        | d :: r' => if d =? LF then LF :: universal_newlines r'
                     else LF :: universal_newlines r
        | [] => [LF]
        end
      else c :: universal_newlines r
  end.

End PyStr.

Import PyStr.

(** ** Python values, the heap and the state of the process *)

(** What [int(f)] makes of a float: the integer below its magnitude,
    [ValueError] for a NaN, [OverflowError] for an infinity. *)
Inductive float_int : Type :=
| FloatInt (z : Z)
| FloatNaN
| FloatInfinite.

(** ** Stand-ins to try the relay on

    [os.path] for POSIX paths without a trailing slash, [str.format] on
    the templates of a small session, and no floats. *)
Module Sample.

Fixpoint until_slash (s : pystr) : pystr :=
  match s with
  | [] => []
  | c :: r => if c =? 47 then [] else c :: until_slash r
  end.

Fixpoint drop_slashes (s : pystr) : pystr :=
  match s with
  | c :: r => if c =? 47 then drop_slashes r else s
  | [] => []
  end.

(** [posixpath.split]: the part after the last slash, and what comes
    before it without its trailing slashes (unless it is slashes only). *)
Definition split (p : pystr) : pystr * pystr :=
  let tail := rev (until_slash (rev p)) in
  let head := take (length p - length tail) p in
  (if forallb (fun c => c =? 47) head then head else rev (drop_slashes (rev head)),
   tail).
Definition dirname (p : pystr) : pystr := (split p).1.
Definition basename (p : pystr) : pystr := (split p).2.
Definition join (a b : pystr) : pystr := a ++ lit "/" ++ b.

Definition int_of_float (f : Empty_set) : float_int := match f with end.
Definition float_eqb_int (f : Empty_set) (n : Z) : bool := match f with end.
Definition str_of_float (f : Empty_set) : pystr := match f with end.

Definition content_header : pystr := lit "Content-Length: ".
Definition debugpy_path : pystr := lit "/adapter/python".
Definition gettempdir : pystr := lit "/tmp".

(** Text files in UTF-8, as in a UTF-8 locale. *)
Definition file_encode (s : pystr) : option (list byte) := utf8_encode s.

Definition attach_template (debugpy_path hostname : pystr) (port : Z) : pystr :=
  lit "import sys; sys.path.insert(0, r'" ++ debugpy_path
  ++ lit "'); import debugpy; debugpy.listen(('" ++ hostname ++ lit "', "
  ++ str_of_Z port ++ lit "))".

Definition run_template (dir file_name : pystr) : pystr :=
  lit "import sys; sys.path.insert(0, '" ++ dir ++ lit "'); import " ++ file_name.

Definition exec_command (tmp_file_path : pystr) : pystr :=
  quoted "python('exec(open(\'" ++ tmp_file_path ++ quoted "\').read())')".

End Sample.

(** Addresses of heap objects. *)
Abbreviation loc := nat (only parsing).

Section Relay.

Set Default Proof Using "Type".

(** Python floats stay abstract: the relay only converts them with
    [int(..)], compares them with an [int] and prints them. *)
Context {F : Type}.
Variable int_of_float : F -> float_int.
Variable float_eqb_int : F -> Z -> bool.
Variable str_of_float : F -> pystr.

(** What [json.loads] returns, as a tree.  A JSON object becomes a
    [dict], which keeps the order of its keys. *)
Inductive json : Type :=
| JNull
| JBool (b : bool)
| JInt (z : Z)
| JFloat (f : F)
| JStr (s : pystr)
| JArr (elems : list json)
| JObj (items : list (pystr * json)).

(** The module [json] of the Python library. *)
Variable json_loads : pystr -> option json.
Variable json_dumps : json -> pystr.

(** Lists and dicts are objects on the heap, named by their address
    ([loc]); a variable or a dict entry holds a scalar or such an address. *)

Inductive pyval : Type :=
| VNone
| VBool (b : bool)
| VInt (z : Z)
| VFloat (f : F)
| VStr (s : pystr)
| VRef (l : loc).

Inductive pyobj : Type :=
| OList (elems : list pyval)
| ODict (items : list (pystr * pyval)).

Abbreviation heap := (list pyobj) (only parsing).

Fixpoint dict_get {V : Type} (k : pystr) (items : list (pystr * V)) : option V :=
  match items with
  | [] => None
  | (k', v) :: r => if PyStr.eqb k' k then Some v else dict_get k r
  end.

(** [d[k] = v]: an existing key keeps its place, a new one goes last. *)
Fixpoint dict_set {V : Type} (k : pystr) (v : V) (items : list (pystr * V))
  : list (pystr * V) :=
  match items with
  | [] => [(k, v)]
  | (k', v') :: r =>
      if PyStr.eqb k' k then (k, v) :: r else (k', v') :: dict_set k v r
  end.

(** [json.loads] builds its result bottom-up: the children of a list or a
    dict are allocated before the object that holds them. *)
Fixpoint alloc (j : json) (h : heap) : pyval * heap :=
  match j with
  | JNull => (VNone, h)
  | JBool b => (VBool b, h)
  | JInt z => (VInt z, h)
  | JFloat f => (VFloat f, h)
  | JStr s => (VStr s, h)
  | JArr elems =>
      let '(vs, h1) :=
        (fix go (js : list json) (h : heap) : list pyval * heap :=
           match js with
           | [] => ([], h)
           | x :: r =>
               let '(v, h1) := alloc x h in
               let '(vs, h2) := go r h1 in (v :: vs, h2)
           end) elems h in
      (VRef (length h1), h1 ++ [OList vs])
  | JObj items =>
      let '(vs, h1) :=
        (fix go (js : list (pystr * json)) (h : heap)
           : list (pystr * pyval) * heap :=
           match js with
           | [] => ([], h)
           | (k, x) :: r =>
               let '(v, h1) := alloc x h in
               let '(vs, h2) := go r h1 in ((k, v) :: vs, h2)
           end) items h in
      (VRef (length h1), h1 ++ [ODict vs])
  end.

(** The tree that [json.dumps] walks from a value.  The fuel bounds the
    nesting; a cyclic structure exhausts any fuel. *)
Fixpoint reify (fuel : nat) (h : heap) (v : pyval) : option json :=
  match v with
  | VNone => Some JNull
  | VBool b => Some (JBool b)
  | VInt z => Some (JInt z)
  | VFloat f => Some (JFloat f)
  | VStr s => Some (JStr s)
  | VRef l =>
      match fuel with
      | O => None
      | S fuel' =>
          match h !! l with
          | Some (OList elems) => JArr <$> mapM (reify fuel' h) elems
          | Some (ODict items) =>
              JObj <$> mapM (fun kv => pair kv.1 <$> reify fuel' h kv.2) items
          | None => None
          end
      end
  end.

Inductive exn : Type :=
| JSONDecodeError
| KeyError (k : pystr)
| TypeError
| AttributeError
| ValueError
| OverflowError
| OSError
| UnicodeEncodeError
| Exception (msg : pystr).

(** The activities handed to [run_in_new_thread]. *)
Inductive task : Type :=
| TAttachToMaya (contents : pyval)
| TStartDebugging (host : pyval) (port : Z)
| TSendLoop
| TExit (code : Z).

(** What the process does to the outside world, in the order it does it. *)
Inductive event : Type :=
| ELog (parts : list pystr)
| ESendDebugger (text : pystr)
| ESpawn (t : task) (delay : option Z)
| EMayaSetTimeout (seconds : Z)
| EMayaConnect (host : pyval) (port : Z)
| EFileWrite (path code : pystr)
| EMayaSend (data : list byte)
| EEngineConnect (host : pyval) (port : Z)
| EEngineSend (data : list byte)
| EEngineClose.

(** The text reader over debugpy's socket: the characters that have
    arrived and are not read yet, whether the end of the stream follows
    them, and how many characters the transport hands over per [read]
    (one more than each number; no number means no limit). *)
Record stream : Type := Stream {
  buf : pystr;
  eof : bool;
  caps : list nat
}.

(** The globals of the module, the heap, the trace of effects and the
    outside world: whether Maya's command port and debugpy accept a
    connection, whether the temporary file and Maya's socket can be
    written, the outcome of each write to debugpy's socket in turn (none
    left means success), and what debugpy sends. *)
Record state : Type := State {
  processed_seqs : list pyval;
  run_code : pystr;
  debugpy_send_queue : list (option pystr);
  debugpy_socket : bool;
  py_heap : heap;
  trace : list event;
  maya_accepts : bool;
  tempfile_writable : bool;
  maya_writable : bool;
  engine_accepts : bool;
  engine_writes : list bool;
  engine_in : stream
}.

Definition set_processed_seqs (x : list pyval) (st : state) : state :=
  State x (run_code st) (debugpy_send_queue st) (debugpy_socket st) (py_heap st)
        (trace st) (maya_accepts st) (tempfile_writable st) (maya_writable st)
        (engine_accepts st) (engine_writes st) (engine_in st).
Definition set_run_code (x : pystr) (st : state) : state :=
  State (processed_seqs st) x (debugpy_send_queue st) (debugpy_socket st) (py_heap st)
        (trace st) (maya_accepts st) (tempfile_writable st) (maya_writable st)
        (engine_accepts st) (engine_writes st) (engine_in st).
Definition set_queue (x : list (option pystr)) (st : state) : state :=
  State (processed_seqs st) (run_code st) x (debugpy_socket st) (py_heap st)
        (trace st) (maya_accepts st) (tempfile_writable st) (maya_writable st)
        (engine_accepts st) (engine_writes st) (engine_in st).
Definition set_socket (x : bool) (st : state) : state :=
  State (processed_seqs st) (run_code st) (debugpy_send_queue st) x (py_heap st)
        (trace st) (maya_accepts st) (tempfile_writable st) (maya_writable st)
        (engine_accepts st) (engine_writes st) (engine_in st).
Definition set_heap (x : heap) (st : state) : state :=
  State (processed_seqs st) (run_code st) (debugpy_send_queue st) (debugpy_socket st) x
        (trace st) (maya_accepts st) (tempfile_writable st) (maya_writable st)
        (engine_accepts st) (engine_writes st) (engine_in st).
Definition set_trace (x : list event) (st : state) : state :=
  State (processed_seqs st) (run_code st) (debugpy_send_queue st) (debugpy_socket st)
        (py_heap st) x (maya_accepts st) (tempfile_writable st) (maya_writable st)
        (engine_accepts st) (engine_writes st) (engine_in st).
Definition set_engine_writes (x : list bool) (st : state) : state :=
  State (processed_seqs st) (run_code st) (debugpy_send_queue st) (debugpy_socket st)
        (py_heap st) (trace st) (maya_accepts st) (tempfile_writable st)
        (maya_writable st) (engine_accepts st) x (engine_in st).
Definition set_engine_in (x : stream) (st : state) : state :=
  State (processed_seqs st) (run_code st) (debugpy_send_queue st) (debugpy_socket st)
        (py_heap st) (trace st) (maya_accepts st) (tempfile_writable st)
        (maya_writable st) (engine_accepts st) (engine_writes st) x.

(** ** A monad for state and exceptions *)

Inductive result (A : Type) : Type :=
| Ok (a : A) (st : state)
| Raise (e : exn) (st : state).
Arguments Ok {A} a st.
Arguments Raise {A} e st.

Definition M (A : Type) : Type := state -> result A.

Definition ret {A} (a : A) : M A := fun st => Ok a st.
Definition raise {A} (e : exn) : M A := fun st => Raise e st.
Definition bind {A B} (c : M A) (k : A -> M B) : M B :=
  fun st => match c st with
            | Ok a st' => k a st'
            | Raise e st' => Raise e st'
            end.
(** [try: c  except: h] *)
Definition try_except {A} (c : M A) (h : exn -> M A) : M A :=
  fun st => match c st with
            | Ok a st' => Ok a st'
            | Raise e st' => h e st'
            end.
Definition get_state : M state := fun st => Ok st st.
Definition modify (f : state -> state) : M unit := fun st => Ok tt (f st).
Definition lift_option {A} (e : exn) (o : option A) : M A :=
  match o with Some a => ret a | None => raise e end.
Definition emit (e : event) : M unit :=
  modify (fun st => set_trace (trace st ++ [e]) st).

Notation "x <- c ;; k" := (bind c (fun x => k))
  (at level 100, c at next level, right associativity).
Notation "c ;;; k" := (bind c (fun _ : unit => k))
  (at level 100, right associativity).

(** ** The primitives of Python the relay uses *)

(** [v[k]] *)
Definition getitem (v : pyval) (k : pystr) : M pyval :=
  fun st =>
    match v with
    | VRef l =>
        match py_heap st !! l with
        | Some (ODict items) =>
            match dict_get k items with
            | Some x => Ok x st
            | None => Raise (KeyError k) st
            end
        | _ => Raise TypeError st
        end
    | _ => Raise TypeError st
    end.

(** [v.get(k, d)] *)
Definition dict_get_default (v : pyval) (k : pystr) (d : pyval) : M pyval :=
  fun st =>
    match v with
    | VRef l =>
        match py_heap st !! l with
        | Some (ODict items) => Ok (default d (dict_get k items)) st
        | _ => Raise AttributeError st
        end
    | _ => Raise AttributeError st
    end.

(** [int(v)] *)
Definition py_int (v : pyval) : M Z :=
  match v with
  | VInt z => ret z
  | VBool b => ret (if b then 1 else 0)%Z
  | VFloat f =>
      match int_of_float f with
      | FloatInt z => ret z
      | FloatNaN => raise ValueError
      | FloatInfinite => raise OverflowError
      end
  | VStr s => lift_option ValueError (int_of_str s)
  | VNone | VRef _ => raise TypeError
  end.

(** [v == s] for a string [s] *)
Definition py_eq_str (v : pyval) (s : pystr) : bool :=
  match v with VStr s' => PyStr.eqb s' s | _ => false end.

(** [n == v] for an integer [n] *)
Definition py_eq_int (n : Z) (v : pyval) : bool :=
  match v with
  | VInt z => (n =? z)%Z
  | VBool b => (n =? (if b then 1 else 0))%Z
  | VFloat f => float_eqb_int f n
  | _ => false
  end.

(** [n in l] *)
Definition py_in (n : Z) (l : list pyval) : bool := existsb (py_eq_int n) l.

(** A string where the code needs one ([os.path] functions, [+] with a
    string). *)
Definition expect_str (v : pyval) : M pystr :=
  match v with VStr s => ret s | _ => raise TypeError end.

(** [v.replace('\\', ..)], a method of strings only. *)
Definition py_replace_backslash (k : nat) (v : pyval) : M pystr :=
  match v with
  | VStr s => ret (replace_backslash k s)
  | _ => raise AttributeError
  end.

(** [str(v)], as [str.format] prints a value; the text of a list or
    dict is the library's. *)
Variable repr_obj : heap -> loc -> pystr.

Definition str_of_value (h : heap) (v : pyval) : pystr :=
  match v with
  | VNone => lit "None"
  | VBool b => if b then lit "True" else lit "False"
  | VInt z => str_of_Z z
  | VFloat f => str_of_float f
  | VStr s => s
  | VRef l => repr_obj h l
  end.

(** [json.loads(text)]: the objects of the result are new on the heap. *)
Definition py_json_loads (text : pystr) : M pyval :=
  fun st =>
    match json_loads text with
    | Some j => let '(v, h) := alloc j (py_heap st) in Ok v (set_heap h st)
    | None => Raise JSONDecodeError st
    end.

(** [json.dumps(v)]; a circular structure raises [ValueError]. *)
Definition py_json_dumps (v : pyval) : M pystr :=
  fun st =>
    match reify (length (py_heap st)) (py_heap st) v with
    | Some j => Ok (json_dumps j) st
    | None => Raise ValueError st
    end.

(** [d.copy()]: a new dict with the same entries (a shallow copy). *)
Definition dict_copy (v : pyval) : M pyval :=
  fun st =>
    match v with
    | VRef l =>
        match py_heap st !! l with
        | Some (ODict items) =>
            Ok (VRef (length (py_heap st))) (set_heap (py_heap st ++ [ODict items]) st)
        | _ => Raise AttributeError st
        end
    | _ => Raise AttributeError st
    end.

(** [d[k] = x] *)
Definition setitem (v : pyval) (k : pystr) (x : pyval) : M unit :=
  fun st =>
    match v with
    | VRef l =>
        match py_heap st !! l with
        | Some (ODict items) =>
            Ok tt (set_heap (<[l := ODict (dict_set k x items)]> (py_heap st)) st)
        | _ => Raise TypeError st
        end
    | _ => Raise TypeError st
    end.

(** [bytes(s, 'UTF-8')] and [s.encode('UTF-8')] *)
Definition py_encode (s : pystr) : M (list byte) :=
  lift_option UnicodeEncodeError (utf8_encode s).

(** ** What [util] and [interface] provide *)

(** The constants and templates of [util], which is not part of the
    sources at hand: each template stands for its [.format(..)] with the
    keyword arguments the relay passes. *)
Variable INITIALIZE_RESPONSE : pystr.
Variable CONTENT_HEADER : pystr.
Variable debugpy_path : pystr.
Variable ATTACH_ARGS_format : forall (dir hostname : pystr) (port : Z) (filepath : pystr), pystr.
Variable ATTACH_TEMPLATE_format : forall (debugpy_path hostname : pystr) (port : Z), pystr.
Variable RUN_TEMPLATE_format : forall (dir file_name : pystr), pystr.
Variable EXEC_COMMAND_format : forall (tmp_file_path : pystr), pystr.

(** The functions of [os.path] that [util] passes on, [gettempdir()] and
    the text of an exception. *)
Variable dirname : pystr -> pystr.
Variable basename : pystr -> pystr.
Variable split : pystr -> pystr * pystr.
Variable join : pystr -> pystr -> pystr.
Variable gettempdir : pystr.
Variable str_of_exn : exn -> pystr.

(** The encoding of text files, which [open(path, "w")] takes from the
    locale: the bytes of a text, or nothing where [file.write] raises
    [UnicodeEncodeError]. *)
Variable file_encode : pystr -> option (list byte).

(** Modelled from the spec: [util.log] is not under src/; errors are
    "logged", which here leaves a record in the trace and changes nothing
    else. *)
Definition log (parts : list pystr) : M unit := emit (ELog parts).

(** Modelled from the spec: [util.run_in_new_thread] is not under src/;
    it starts an "independently scheduled activity".  The trace records
    the activity and the optional third argument. *)
Definition run_in_new_thread (t : task) (delay : option Z) : M unit :=
  emit (ESpawn t delay).

(** Modelled from the spec: [interface.DebuggerInterface] is not under
    src/; its [send(text)] is "used for every outbound message to the
    debugger" and keeps the message as passed in. *)
Definition interface_send (text : pystr) : M unit := emit (ESendDebugger text).

(** [debugpy_send_queue.put(x)] *)
Definition queue_put (x : option pystr) : M unit :=
  modify (fun st => set_queue (debugpy_send_queue st ++ [x]) st).

(** ** The relay: messages of the debugger *)

(** [on_receive_from_debugger(message)] *)
Definition on_receive_from_debugger (message : pystr) : M unit :=
  contents <- py_json_loads message ;;
  log [lit "Received from Debugger:"; message] ;;;
  cmd <- getitem contents (lit "command") ;;
  message <-
    (if py_eq_str cmd (lit "initialize") then
       response <- py_json_loads INITIALIZE_RESPONSE ;;
       text <- py_json_dumps response ;;
       interface_send text ;;;
       seq <- getitem contents (lit "seq") ;;
       modify (fun st => set_processed_seqs (processed_seqs st ++ [seq]) st) ;;;
       ret message
     else if py_eq_str cmd (lit "attach") then
       run_in_new_thread (TAttachToMaya contents) None ;;;
       config <- getitem contents (lit "arguments") ;;
       program <- getitem config (lit "program") ;;
       program_path <- expect_str program ;;
       dir <- ret (replace_backslash 2 (dirname program_path)) ;;
       debugpy <- getitem config (lit "debugpy") ;;
       host <- getitem debugpy (lit "host") ;;
       debugpy <- getitem config (lit "debugpy") ;;
       port <- getitem debugpy (lit "port") ;;
       port <- py_int port ;;
       program <- getitem config (lit "program") ;;
       filepath <- py_replace_backslash 2 program ;;
       st <- get_state ;;
       new_args <- ret (ATTACH_ARGS_format dir (str_of_value (py_heap st) host)
                                           port filepath) ;;
       contents <- dict_copy contents ;;
       args <- py_json_loads new_args ;;
       setitem contents (lit "arguments") args ;;;
       message <- py_json_dumps contents ;;
       log [lit "New attach arguments loaded:"; new_args] ;;;
       ret message
     else ret message) ;;
  queue_put (Some message).

(** ** The attach sequence *)

(** [send_code_to_maya(code)].  [open(filepath, "w")] raises [OSError]
    when the file cannot be written; [file.write(code)] raises
    [UnicodeEncodeError] when the encoding of the file cannot take the
    code, and leaves the file empty. *)
Definition send_code_to_maya (code : pystr) : M unit :=
  filepath <- ret (join gettempdir (lit "temp.py")) ;;
  st <- get_state ;;
  (if tempfile_writable st then
     match file_encode code with
     | Some _ => emit (EFileWrite filepath code)
     | None => emit (EFileWrite filepath []) ;;; raise UnicodeEncodeError
     end
   else raise OSError) ;;;
  cmd <- ret (EXEC_COMMAND_format (replace_backslash 4 filepath)) ;;
  log [lit "Sending " ++ cmd ++ lit " to Maya"] ;;;
  data <- py_encode cmd ;;
  st <- get_state ;;
  if maya_writable st then emit (EMayaSend data) else raise OSError.

(** The text of the exception raised when Maya's command port cannot be
    reached. *)
Definition remediation (host : pystr) (port : Z) : pystr :=
  [LF] ++ replicate 12 32 ++ [LF] ++ replicate 12 32 ++ [LF] ++ replicate 12 32 ++ [LF]
  ++ replicate 16 32 ++ lit "Please run the following command in Maya and try again:"
  ++ [LF] ++ replicate 16 32 ++ lit "cmds.commandPort(name=" ++ [DQUOTE]
  ++ host ++ lit ":" ++ str_of_Z port ++ [DQUOTE] ++ lit ", sourceType="
  ++ [DQUOTE] ++ lit "mel" ++ [DQUOTE] ++ lit ")" ++ [LF] ++ replicate 12 32.

(** [maya_cmd_socket.connect((host, port))]: the address of a TCP socket
    needs a string for its host. *)
Definition maya_connect (host : pyval) (port : Z) : M unit :=
  emit (EMayaConnect host port) ;;;
  st <- get_state ;;
  match host with
  | VStr _ => if maya_accepts st then ret tt else raise OSError
  | _ => raise TypeError
  end.

(** [attach_to_maya(contents)] *)
Definition attach_to_maya (contents : pyval) : M unit :=
  config <- getitem contents (lit "arguments") ;;
  debugpy <- getitem config (lit "debugpy") ;;
  host <- getitem debugpy (lit "host") ;;
  debugpy <- getitem config (lit "debugpy") ;;
  port <- getitem debugpy (lit "port") ;;
  port <- py_int port ;;
  st <- get_state ;;
  attach_code <- ret (ATTACH_TEMPLATE_format debugpy_path
                        (str_of_value (py_heap st) host) port) ;;
  program <- getitem config (lit "program") ;;
  program <- expect_str program ;;
  dir <- ret (dirname program) ;;
  program <- getitem config (lit "program") ;;
  program <- expect_str program ;;
  stem <- ret (drop_last3 (split program).2) ;;
  file_name <-
    (if truthy stem then ret stem
     else
       program <- getitem config (lit "program") ;;
       program <- expect_str program ;;
       ret (drop_last3 (basename (split program).1))) ;;
  modify (set_run_code (RUN_TEMPLATE_format dir file_name)) ;;;
  st <- get_state ;;
  log [lit "RUN: " ++ [LF] ++ run_code st] ;;;
  maya <- getitem config (lit "maya") ;;
  maya_host <- getitem maya (lit "host") ;;
  maya <- getitem config (lit "maya") ;;
  maya_port <- getitem maya (lit "port") ;;
  maya_port <- py_int maya_port ;;
  try_except
    (emit (EMayaSetTimeout 3) ;;; maya_connect maya_host maya_port)
    (fun _ =>
       run_in_new_thread (TExit 0) (Some 1%Z) ;;;
       st <- get_state ;;
       raise (Exception (remediation (str_of_value (py_heap st) maya_host) maya_port))) ;;;
  log [lit "Sending attach code to Maya"] ;;;
  send_code_to_maya attach_code ;;;
  log [lit "Successfully attached to Maya"] ;;;
  debugpy <- getitem config (lit "debugpy") ;;
  host <- getitem debugpy (lit "host") ;;
  debugpy <- getitem config (lit "debugpy") ;;
  port <- getitem debugpy (lit "port") ;;
  port <- py_int port ;;
  run_in_new_thread (TStartDebugging host port) None.

(** ** Messages of debugpy *)

(** [on_receive_from_debugpy(message)] *)
Definition on_receive_from_debugpy (message : pystr) : M unit :=
  c <- py_json_loads message ;;
  request_seq <- dict_get_default c (lit "request_seq") (VInt (-1)) ;;
  seq <- py_int request_seq ;;
  cmd <- dict_get_default c (lit "command") (VStr []) ;;
  (if py_eq_str cmd (lit "configurationDone") then
     st <- get_state ;;
     send_code_to_maya (run_code st)
   else ret tt) ;;;
  st <- get_state ;;
  if py_in seq (processed_seqs st) then
    log [lit "Already processed, debugpy response is:"; message]
  else
    log [lit "Received from debugpy:"; message] ;;;
    interface_send message.

(** ** Frames from debugpy: the receiving loop of [start_debugging] *)

Inductive read_result : Type :=
| Got (text : pystr) (s : stream)
| WouldBlock.

(** The first line of a text, with its newline, and what follows it. *)
Fixpoint split_line (text : pystr) : option (pystr * pystr) :=
  match text with
  | [] => None
  | c :: r =>
      if c =? LF then Some ([c], r)
      else match split_line r with
           | Some (line, rest) => Some (c :: line, rest)
           | None => None
           end
  end.

(** [fstream.readline()]: a line with its newline; at the end of the
    stream what is left, which may be the empty string; otherwise the
    reader waits. *)
Definition readline (s : stream) : read_result :=
  match split_line (buf s) with
  | Some (line, rest) => Got line (Stream rest (eof s) (caps s))
  | None => if eof s then Got (buf s) (Stream [] true (caps s)) else WouldBlock
  end.

(** [fstream.read(n)]: at most [n] characters, at least one unless the
    stream has ended; with nothing to read before the end, the reader
    waits. *)
Definition read (n : nat) (s : stream) : read_result :=
  match buf s with
  | [] => if eof s then Got [] s else WouldBlock
  | _ :: _ =>
      let k := match caps s with [] => n | c :: _ => Nat.min n (S c) end in
      Got (take k (buf s)) (Stream (drop k (buf s)) (eof s) (tail (caps s)))
  end.

Inductive headers_result : Type :=
| HeadersEnd (content_length : Z) (s : stream)
| HeadersBlocked
| HeadersRaise (e : exn)
| HeadersFuel.

(** The inner [while True] that reads header lines up to an empty one.
    Every turn that goes on has read a line of at least one character,
    so as many turns as the buffer has characters, and one, suffice. *)
Fixpoint read_headers (fuel : nat) (content_length : Z) (s : stream) : headers_result :=
  match fuel with
  | O => HeadersFuel
  | S fuel' =>
      match readline s with
      | WouldBlock => HeadersBlocked
      | Got header s' =>
          let header := if truthy header then strip header else header in
          if negb (truthy header) then HeadersEnd content_length s'
          else if startswith CONTENT_HEADER header then
            match int_of_str (drop (length CONTENT_HEADER) header) with
            | Some n => read_headers fuel' n s'
            | None => HeadersRaise ValueError
            end
          else read_headers fuel' content_length s'
      end
  end.

Inductive body_result : Type :=
| BodyEnd (content_length : Z) (total_content : pystr) (s : stream)
| BodyBlocked
| BodySpin
| BodyFuel.

(** [while content_length > 0]: a read of no character at all (the end of
    the stream) leaves [content_length], [total_content] and the stream as
    they were, so the loop goes round for ever: [BodySpin]. *)
Fixpoint read_body (fuel : nat) (content_length : Z) (total_content : pystr)
  (s : stream) : body_result :=
  if (content_length >? 0)%Z then
    match fuel with
    | O => BodyFuel
    | S fuel' =>
        match read (Z.to_nat content_length) s with
        | WouldBlock => BodyBlocked
        | Got [] _ => BodySpin
        | Got content s' =>
            read_body fuel' (content_length - Z.of_nat (length content))
                      (total_content ++ content) s'
        end
    end
  else BodyEnd content_length total_content s.

Inductive frame_result : Type :=
| FrameMessage (message : pystr) (s : stream)
| FrameNone (s : stream)
| FrameBlocked
| FrameSpin
| FrameRaise (e : exn)
| FrameFuel.

(** One turn of the outer [while True], up to the call of
    [on_receive_from_debugpy]. *)
Definition read_frame (s : stream) : frame_result :=
  match read_headers (S (length (buf s))) 0 s with
  | HeadersBlocked => FrameBlocked
  | HeadersRaise e => FrameRaise e
  | HeadersFuel => FrameFuel
  | HeadersEnd content_length s' =>
      if (content_length >? 0)%Z then
        match read_body (Z.to_nat content_length) content_length [] s' with
        | BodyBlocked => FrameBlocked
        | BodySpin => FrameSpin
        | BodyFuel => FrameFuel
        | BodyEnd content_length total_content s'' =>
            if (content_length =? 0)%Z then FrameMessage total_content s''
            else FrameNone s''
        end
      else FrameNone s'
  end.

(** How the receiving loop stands after some turns. *)
Inductive loop_status : Type :=
| Running      (* the next turn is about to start *)
| Waiting      (* suspended in a read, no data has arrived *)
| Spinning     (* the body loop turns for ever without reading anything *)
| Stopped      (* left by [break] *)
| Undetermined.  (* the decoder ran out of fuel, see [read_frame_fuel] *)

(** [except Exception as e]: log, close the socket, leave the loop. *)
Definition receive_failed (e : exn) : M unit :=
  log [lit "Failure reading maya's debugpy output: " ++ [LF] ++ str_of_exn e] ;;;
  emit EEngineClose.

(** [turns] turns of the outer [while True] of [start_debugging]. *)
Fixpoint receive_loop (turns : nat) : M loop_status :=
  match turns with
  | O => ret Running
  | S turns' =>
      st <- get_state ;;
      match read_frame (engine_in st) with
      | FrameBlocked => ret Waiting
      | FrameSpin => ret Spinning
      | FrameFuel => ret Undetermined
      | FrameRaise e => receive_failed e ;;; ret Stopped
      | FrameNone s => modify (set_engine_in s) ;;; receive_loop turns'
      | FrameMessage message s =>
          modify (set_engine_in s) ;;;
          failed <- try_except (on_receive_from_debugpy message ;;; ret false)
                               (fun e => receive_failed e ;;; ret true) ;;
          if failed : bool then ret Stopped else receive_loop turns'
      end
  end.

(** ** Frames to debugpy: [debugpy_send_loop] *)

(** [debugpy_socket.send(data)]; the global is [None] until
    [start_debugging] has connected. *)
Definition engine_send (data : list byte) : M unit :=
  st <- get_state ;;
  (if debugpy_socket st then ret tt else raise AttributeError) ;;;
  match engine_writes st with
  | false :: rest => modify (set_engine_writes rest) ;;; raise OSError
  | _ => modify (set_engine_writes (tail (engine_writes st))) ;;;
         emit (EEngineSend data)
  end.

Inductive send_status : Type :=
| Returned       (* the loop has ended *)
| WaitingOnQueue.   (* [get()] waits on the empty queue *)

(** The header line and the empty line that precede a message. *)
Definition frame_header (msg : pystr) : pystr :=
  CONTENT_HEADER ++ str_of_nat (length msg) ++ [CR; LF; CR; LF].

(** The body of [debugpy_send_loop], turn after turn over the items of
    the queue. *)
Fixpoint send_loop_on (queue : list (option pystr)) : M send_status :=
  match queue with
  | [] => ret WaitingOnQueue
  | item :: queue' =>
      modify (set_queue queue') ;;;
      match item with
      | None => ret Returned
      | Some msg =>
          closed <- try_except
            (header <- py_encode (frame_header msg) ;;
             engine_send header ;;;
             body <- py_encode msg ;;
             engine_send body ;;;
             log [lit "Sent to debugpy:"; msg] ;;;
             ret false)
            (fun e => match e with
                      | OSError => log [lit "Debug socket closed."] ;;; ret true
                      | _ => raise e
                      end) ;;
          if closed : bool then ret Returned else send_loop_on queue'
      end
  end.

(** [debugpy_send_loop()] *)
Definition debugpy_send_loop : M send_status :=
  st <- get_state ;;
  send_loop_on (debugpy_send_queue st).

(** [start_debugging(address)], with [turns] turns of its receiving loop. *)
Definition start_debugging (host : pyval) (port : Z) (turns : nat) : M loop_status :=
  name <- expect_str host ;;
  log [lit "Connecting to " ++ name ++ lit ":" ++ str_of_Z port] ;;;
  emit (EEngineConnect host port) ;;;
  st <- get_state ;;
  (if engine_accepts st then modify (set_socket true) else raise OSError) ;;;
  log [lit "Successfully connected to Maya for debugging. Starting..."] ;;;
  run_in_new_thread TSendLoop None ;;;
  receive_loop turns.

(** ** The frame as it travels *)

(** The characters [debugpy_send_loop] writes for one message: the
    header, then the message. *)
Definition framed (msg : pystr) : pystr := frame_header msg ++ msg.

(** What the decoder relies on in the header token: it holds no line
    break, and [strip()] leaves its first character in place. *)
Definition header_token_ok (token : pystr) : bool :=
  forallb (fun c => negb (c =? LF) && negb (c =? CR)) token
  && match token with c :: _ => negb (is_space c) | [] => true end.

(** No carriage return in a text. *)
Definition cr_free (s : pystr) : bool := forallb (fun c => negb (c =? CR)) s.

(** ** Trees and the heap *)

(** The nesting of a tree and the number of lists and dicts in it, which
    is the number of objects [json.loads] allocates for it. *)
Fixpoint depth (j : json) : nat :=
  match j with
  | JArr elems => S (foldr (fun x m => Nat.max (depth x) m) 0%nat elems)
  | JObj items => S (foldr (fun kv m => Nat.max (depth kv.2) m) 0%nat items)
  | _ => 0%nat
  end.

Fixpoint nodes (j : json) : nat :=
  match j with
  | JArr elems => S (foldr (fun x m => (nodes x + m)%nat) 0%nat elems)
  | JObj items => S (foldr (fun kv m => (nodes kv.2 + m)%nat) 0%nat items)
  | _ => 0%nat
  end.

(** The entry of a JSON object. *)
Definition jget (j : json) (k : pystr) : option json :=
  match j with JObj items => dict_get k items | _ => None end.

(** [alloc] on the elements of a list and on the entries of a dict. *)
Definition alloc_list : list json -> heap -> list pyval * heap :=
  fix go (js : list json) (h : heap) : list pyval * heap :=
    match js with
    | [] => ([], h)
    | x :: r =>
        let '(v, h1) := alloc x h in
        let '(vs, h2) := go r h1 in (v :: vs, h2)
    end.

Definition alloc_items : list (pystr * json) -> heap -> list (pystr * pyval) * heap :=
  fix go (js : list (pystr * json)) (h : heap) : list (pystr * pyval) * heap :=
    match js with
    | [] => ([], h)
    | (k, x) :: r =>
        let '(v, h1) := alloc x h in
        let '(vs, h2) := go r h1 in ((k, v) :: vs, h2)
    end.

(** Two heaps hold the same objects at the addresses from [lo] up to
    [hi]. *)
Definition agree (lo hi : nat) (h h' : heap) : Prop :=
  forall l, (lo <= l < hi)%nat -> h' !! l = h !! l.

(** [int(..)] of a JSON scalar. *)
Definition json_int (j : json) : option Z :=
  match j with
  | JInt z => Some z
  | JBool b => Some (if b then 1 else 0)%Z
  | JFloat f => match int_of_float f with FloatInt z => Some z | _ => None end
  | JStr s => int_of_str s
  | _ => None
  end.

(** ** Reading the trace and the messages *)

(** The texts handed to the debugger, in order. *)
Definition to_debugger (tr : list event) : list pystr :=
  omap (fun e => match e with ESendDebugger t => Some t | _ => None end) tr.

(** What was written to Maya's command port, in order. *)
Definition to_maya (tr : list event) : list (list byte) :=
  omap (fun e => match e with EMayaSend d => Some d | _ => None end) tr.

(** What was written to debugpy's socket, in order. *)
Definition to_engine (tr : list event) : list (list byte) :=
  omap (fun e => match e with EEngineSend d => Some d | _ => None end) tr.

(** The connections to debugpy that were tried. *)
Definition engine_connects (tr : list event) : list (pyval * Z) :=
  omap (fun e => match e with EEngineConnect h p => Some (h, p) | _ => None end) tr.

(** The activities that were started, in order. *)
Definition spawned (tr : list event) : list task :=
  omap (fun e => match e with ESpawn t _ => Some t | _ => None end) tr.

(** The sequence number [on_receive_from_debugpy] works with:
    [int(c.get('request_seq', -1))]. *)
Definition effective_request_seq (c : json) : option Z :=
  match jget c (lit "request_seq") with
  | Some j => json_int j
  | None => Some (-1)%Z
  end.

(** [c.get('command', '') == name] *)
Definition has_command (c : json) (name : pystr) : bool :=
  match jget c (lit "command") with
  | Some (JStr s) => PyStr.eqb s name
  | _ => false
  end.

Definition is_object (j : json) : bool :=
  match j with JObj _ => true | _ => false end.

(** The command that makes Maya run the temporary file, and the effects
    of one [send_code_to_maya(code)] that goes through. *)
Definition temp_py : pystr := join gettempdir (lit "temp.py").

Definition exec_command : pystr :=
  EXEC_COMMAND_format (replace_backslash 4 temp_py).

Definition submission (code : pystr) (data : list byte) : list event :=
  [EFileWrite temp_py code;
   ELog [lit "Sending " ++ exec_command ++ lit " to Maya"];
   EMayaSend data].

(** The temporary file and Maya's socket can be written, and the command
    has an encoding. *)
Definition host_channel_ready (st : state) (data : list byte) : Prop :=
  tempfile_writable st = true /\ maya_writable st = true
  /\ utf8_encode exec_command = Some data.

(** The text of the new arguments of an attach request for the program
    [P] and debugpy at [H], [p]: the template [ATTACH_ARGS] with the
    directory and the path of the program (backslashes doubled, as JSON
    wants them) and debugpy's address. *)
Definition attach_args_text (P H : pystr) (p : Z) : pystr :=
  ATTACH_ARGS_format (replace_backslash 2 (dirname P)) H p (replace_backslash 2 P).

(** ** Invariants of the handlers and the run of the whole process *)

(** The state a computation leaves, whether it returns or raises. *)
Definition final {A} (r : result A) : state :=
  match r with Ok _ st => st | Raise _ st => st end.

(** [c] keeps the property [I] of the state, on both ways out. *)
Definition inv (I : state -> Prop) {A} (c : M A) : Prop :=
  forall st, I st -> I (final (c st)).

(** A property that no change of the heap, the queue, the run directive,
    the socket global or the streams can break. *)
Record stable (I : state -> Prop) : Prop := Stable {
  stable_heap : forall x st, I st -> I (set_heap x st);
  stable_queue : forall x st, I st -> I (set_queue x st);
  stable_run_code : forall x st, I st -> I (set_run_code x st);
  stable_socket : forall x st, I st -> I (set_socket x st);
  stable_engine_writes : forall x st, I st -> I (set_engine_writes x st);
  stable_engine_in : forall x st, I st -> I (set_engine_in x st)
}.

(** The event [e] may be added to the trace, the value [v] to the
    answered sequence numbers. *)
Definition emit_ok (I : state -> Prop) (e : event) : Prop :=
  forall st, I st -> I (set_trace (trace st ++ [e]) st).

Definition answer_ok (I : state -> Prop) (v : pyval) : Prop :=
  forall st, I st -> I (set_processed_seqs (processed_seqs st ++ [v]) st).

(** The activities of the process.  A step is one message of the debugger
    handled, or one activity that [run_in_new_thread] was asked to start,
    run as far as it goes ([turns] bounds the turns of the receiving loop
    that are looked at).  [accepted] says which messages the debugger may
    send. *)
Inductive step (accepted : pystr -> Prop) : state -> state -> Prop :=
| step_debugger message st :
    accepted message ->
    step accepted st (final (on_receive_from_debugger message st))
| step_attach_to_maya contents delay st :
    In (ESpawn (TAttachToMaya contents) delay) (trace st) ->
    step accepted st (final (attach_to_maya contents st))
| step_start_debugging host port delay turns st :
    In (ESpawn (TStartDebugging host port) delay) (trace st) ->
    step accepted st (final (start_debugging host port turns st))
| step_send_loop delay st :
    In (ESpawn TSendLoop delay) (trace st) ->
    step accepted st (final (debugpy_send_loop st)).

Inductive reachable (accepted : pystr -> Prop) (st0 : state) : state -> Prop :=
| reachable_start : reachable accepted st0 st0
| reachable_step st st' :
    reachable accepted st0 st -> step accepted st st' -> reachable accepted st0 st'.

(** [c] takes a state with [P] to one with [Q], on both ways out. *)
Definition inv2 (P Q : state -> Prop) {A} (c : M A) : Prop :=
  forall st, P st -> Q (final (c st)).

(** An event that neither connects to debugpy nor starts an activity that
    would: only [start_debugging] connects, and it starts the send loop. *)
Definition quiet (e : event) : bool :=
  match e with
  | EEngineConnect _ _ => false
  | ESpawn (TStartDebugging _ _) _ => false
  | ESpawn TSendLoop _ => false
  | _ => true
  end.

(** Maya's command port refuses connections, and so far nothing has
    connected to debugpy or is about to. *)
Definition engine_untouched (st : state) : Prop :=
  maya_accepts st = false /\ forallb quiet (trace st) = true.

(** The run directive [attach_to_maya] stores for the program [P]. *)
Definition run_directive (P : pystr) : pystr :=
  RUN_TEMPLATE_format (dirname P)
    (if truthy (drop_last3 (split P).2) then drop_last3 (split P).2
     else drop_last3 (basename (split P).1)).

(** ** What the send loop writes *)

(** The two writes for one message: the encoded header, the encoded
    message. *)
Definition frame_bytes (msg : pystr) : option (list (list byte)) :=
  match utf8_encode (frame_header msg), utf8_encode msg with
  | Some header, Some body => Some [header; body]
  | _, _ => None
  end.

(** All the writes for a run of messages, in order. *)
Fixpoint wire (msgs : list pystr) : option (list (list byte)) :=
  match msgs with
  | [] => Some []
  | msg :: rest =>
      match frame_bytes msg, wire rest with
      | Some f, Some w => Some (f ++ w)
      | _, _ => None
      end
  end.

(** How many of the next [n] writes to debugpy's socket go through before
    one fails. *)
Fixpoint ok_writes (n : nat) (outcomes : list bool) : nat :=
  match n with
  | O => O
  | S n' =>
      match outcomes with
      | false :: _ => O
      | _ :: rest => S (ok_writes n' rest)
      | [] => S (ok_writes n' [])
      end
  end.

(** ** The answered sequence numbers *)

Definition nonneg_int (v : pyval) : bool :=
  match v with VInt z => (0 <=? z)%Z | _ => false end.

(** Every sequence number recorded as answered is a non-negative
    integer. *)
Definition answered_nonneg (st : state) : Prop :=
  forallb nonneg_int (processed_seqs st) = true.

(** What the protocol asks of the debugger: the [seq] of an initialize
    request is a non-negative integer. *)
Definition seq_conformant (message : pystr) : bool :=
  match json_loads message with
  | Some c =>
      match jget c (lit "command") with
      | Some (JStr s) =>
          if PyStr.eqb s (lit "initialize") then
            match jget c (lit "seq") with
            | Some (JInt n) => (0 <=? n)%Z
            | Some _ => false
            | None => true
            end
          else true
      | _ => true
      end
  | None => true
  end.

(** ** A session to try the relay on *)

(** The messages of a small session, as the library parses them.  In the
    texts, ['] stands for the double quote. *)
Definition sample_initialize : pystr :=
  quoted "{'command': 'initialize', 'seq': 1, 'type': 'request'}".

Definition sample_initialize_tree : json :=
  JObj [(lit "command", JStr (lit "initialize")); (lit "seq", JInt 1);
        (lit "type", JStr (lit "request"))].

Definition sample_initialize_minus_one : pystr :=
  quoted "{'command': 'initialize', 'seq': -1, 'type': 'request'}".

Definition sample_initialize_minus_one_tree : json :=
  JObj [(lit "command", JStr (lit "initialize")); (lit "seq", JInt (-1));
        (lit "type", JStr (lit "request"))].

Definition sample_initialize_response : pystr :=
  quoted "{'request_seq': 1, 'success': true, 'command': 'initialize', 'type': 'response'}".

Definition sample_initialize_response_tree : json :=
  JObj [(lit "request_seq", JInt 1); (lit "success", JBool true);
        (lit "command", JStr (lit "initialize")); (lit "type", JStr (lit "response"))].

Definition sample_attach : pystr :=
  quoted ("{'command': 'attach', 'seq': 2, 'type': 'request', 'arguments': "
          ++ "{'program': '/home/u/scene.py', "
          ++ "'debugpy': {'host': 'localhost', 'port': 5678}, "
          ++ "'maya': {'host': 'localhost', 'port': 7001}}}").

Definition sample_config : json :=
  JObj [(lit "program", JStr (lit "/home/u/scene.py"));
        (lit "debugpy", JObj [(lit "host", JStr (lit "localhost")); (lit "port", JInt 5678)]);
        (lit "maya", JObj [(lit "host", JStr (lit "localhost")); (lit "port", JInt 7001)])].

Definition sample_attach_items : list (pystr * json) :=
  [(lit "command", JStr (lit "attach")); (lit "seq", JInt 2);
   (lit "type", JStr (lit "request")); (lit "arguments", sample_config)].

(** A template for the new attach arguments, to try the rewrite on. *)
Definition sample_attach_args (dir hostname : pystr) (port : Z) (filepath : pystr) : pystr :=
  quoted "{'host': '" ++ hostname ++ quoted "', 'port': " ++ str_of_Z port
  ++ quoted ", 'localRoot': '" ++ dir ++ quoted "', 'file': '" ++ filepath
  ++ quoted "'}".

Definition sample_new_arguments : json :=
  JObj [(lit "host", JStr (lit "localhost")); (lit "port", JInt 5678);
        (lit "localRoot", JStr (lit "/home/u")); (lit "file", JStr (lit "/home/u/scene.py"))].

Definition sample_output_event : pystr :=
  quoted "{'type': 'event', 'event': 'output', 'seq': 5}".

Definition sample_output_event_tree : json :=
  JObj [(lit "type", JStr (lit "event")); (lit "event", JStr (lit "output"));
        (lit "seq", JInt 5)].

Definition sample_engine_initialized : pystr :=
  quoted "{'type': 'response', 'request_seq': 1, 'command': 'initialize', 'seq': 3}".

Definition sample_engine_initialized_tree : json :=
  JObj [(lit "type", JStr (lit "response")); (lit "request_seq", JInt 1);
        (lit "command", JStr (lit "initialize")); (lit "seq", JInt 3)].

Definition sample_configuration_done : pystr :=
  quoted "{'type': 'response', 'request_seq': 4, 'command': 'configurationDone', 'seq': 6}".

Definition sample_configuration_done_tree : json :=
  JObj [(lit "type", JStr (lit "response")); (lit "request_seq", JInt 4);
        (lit "command", JStr (lit "configurationDone")); (lit "seq", JInt 6)].

(** [json.loads] on the texts of the session. *)
Definition sample_json_loads (text : pystr) : option json :=
  if PyStr.eqb text sample_initialize then Some sample_initialize_tree
  else if PyStr.eqb text sample_initialize_minus_one then
    Some sample_initialize_minus_one_tree
  else if PyStr.eqb text sample_initialize_response then
    Some sample_initialize_response_tree
  else if PyStr.eqb text sample_attach then Some (JObj sample_attach_items)
  else if PyStr.eqb text
            (sample_attach_args (lit "/home/u") (lit "localhost") 5678
                                (lit "/home/u/scene.py"))
  then Some sample_new_arguments
  else if PyStr.eqb text sample_output_event then Some sample_output_event_tree
  else if PyStr.eqb text sample_engine_initialized then
    Some sample_engine_initialized_tree
  else if PyStr.eqb text sample_configuration_done then
    Some sample_configuration_done_tree
  else None.

(** A serializer to stand for [json.dumps] in the session: the separators
    of [json.dumps]; the strings of the session need no escapes. *)
Fixpoint sample_json_dumps (j : json) : pystr :=
  match j with
  | JNull => lit "null"
  | JBool b => if b then lit "true" else lit "false"
  | JInt z => str_of_Z z
  | JFloat f => str_of_float f
  | JStr s => [DQUOTE] ++ s ++ [DQUOTE]
  | JArr elems =>
      lit "["
      ++ (fix go (l : list json) : pystr :=
            match l with
            | [] => []
            | [x] => sample_json_dumps x
            | x :: r => sample_json_dumps x ++ lit ", " ++ go r
            end) elems
      ++ lit "]"
  | JObj items =>
      lit "{"
      ++ (fix go (l : list (pystr * json)) : pystr :=
            match l with
            | [] => []
            | [kv] => [DQUOTE] ++ kv.1 ++ [DQUOTE] ++ lit ": " ++ sample_json_dumps kv.2
            | kv :: r =>
                [DQUOTE] ++ kv.1 ++ [DQUOTE] ++ lit ": " ++ sample_json_dumps kv.2
                ++ lit ", " ++ go r
            end) items
      ++ lit "}"
  end.

Definition sample_repr_obj (h : heap) (l : loc) : pystr := lit "{...}".

Definition sample_str_of_exn (e : exn) : pystr := lit "error".

(** The process at its start: nothing answered, no run directive, an
    empty queue, no socket, an empty heap and trace; whether Maya and
    debugpy accept connections is given, every write succeeds, and
    debugpy has sent nothing yet. *)
Definition start_state (maya_up engine_up : bool) : state :=
  State [] [] [] false [] [] maya_up true true engine_up [] (Stream [] false []).

(** ** The queue, the sentinel and the socket *)

(** No [None], the sentinel that ends [debugpy_send_loop], in a queue. *)
Definition no_sentinel (queue : list (option pystr)) : bool :=
  forallb (fun item => match item with Some _ => true | None => false end) queue.

(** [run_in_new_thread(debugpy_send_loop)] has been called. *)
Definition send_loop_started (tr : list event) : bool :=
  existsb (fun e => match e with ESpawn TSendLoop _ => true | _ => false end) tr.

(** The send loop is started only with debugpy's socket in place. *)
Definition started_connected (st : state) : Prop :=
  send_loop_started (trace st) = true -> debugpy_socket st = true.

(** The debugger's messages [messages], handled one after the other. *)
Definition handle_all (messages : list pystr) (st : state) : state :=
  foldl (fun s message => final (on_receive_from_debugger message s)) st messages.

(** A request that the handler passes on as it is: it parses to an object
    that has a command, which is neither "initialize" nor "attach". *)
Definition passed_on (message : pystr) : bool :=
  match json_loads message with
  | Some c =>
      match jget c (lit "command") with
      | Some (JStr s) => negb (PyStr.eqb s (lit "initialize"))
                         && negb (PyStr.eqb s (lit "attach"))
      | Some _ => true
      | None => false
      end
  | None => false
  end.

(** The [try] block of [debugpy_send_loop] for one message: header and
    message are written and the message is logged; the result says that
    the socket is still open. *)
Definition send_frame (msg : pystr) : M bool :=
  header <- py_encode (frame_header msg) ;;
  engine_send header ;;;
  body <- py_encode msg ;;
  engine_send body ;;;
  log [lit "Sent to debugpy:"; msg] ;;;
  ret false.

(** The queue holds no sentinel. *)
Definition sentinel_free (st : state) : Prop :=
  no_sentinel (debugpy_send_queue st) = true.

(** The global [debugpy_socket] is set. *)
Definition connected (st : state) : Prop := debugpy_socket st = true.

(** ** Header lines and runs of frames *)

(** A header line (given without its newline) that is neither blank nor
    the length header. *)
Definition foreign_header (line : pystr) : bool :=
  forallb (fun c => negb (c =? LF)) line
  && truthy (strip (line ++ [LF]))
  && negb (startswith CONTENT_HEADER (strip (line ++ [LF]))).

(** The lines, each with its newline. *)
Definition header_lines (lines : list pystr) : pystr :=
  lines ≫= (fun line => line ++ [LF]).

(** The frames of [msgs], one after the other, as the text reader
    delivers them. *)
Definition wire_text (msgs : list pystr) : pystr :=
  msgs ≫= (fun msg => universal_newlines (framed msg)).

(** A message of debugpy that the handler takes without an error and
    without a submission to Maya: it is not empty, has no carriage
    return, parses to an object whose [request_seq], if any, [int()]
    accepts, and is not a "configurationDone". *)
Definition relayable (msg : pystr) : bool :=
  truthy msg && cr_free msg
  && match json_loads msg with
     | Some c =>
         is_object c
         && match effective_request_seq c with Some _ => true | None => false end
         && negb (has_command c (lit "configurationDone"))
     | None => false
     end.

(** The message answers a request that is among [seqs]. *)
Definition suppressed (seqs : list pyval) (msg : pystr) : bool :=
  match json_loads msg with
  | Some c =>
      match effective_request_seq c with
      | Some seq => py_in seq seqs
      | None => false
      end
  | None => false
  end.

(** debugpy refuses connections, and so far the process has neither
    a socket to it nor a send loop, and has written nothing to it. *)
Definition engine_down (st : state) : Prop :=
  engine_accepts st = false /\ send_loop_started (trace st) = false
  /\ to_engine (trace st) = [] /\ debugpy_socket st = false.

(** ** More messages for the session *)

Definition sample_threads : pystr :=
  quoted "{'command': 'threads', 'seq': 3, 'type': 'request'}".

Definition sample_threads_tree : json :=
  JObj [(lit "command", JStr (lit "threads")); (lit "seq", JInt 3);
        (lit "type", JStr (lit "request"))].

Definition sample_disconnect : pystr :=
  quoted "{'command': 'disconnect', 'seq': 7, 'type': 'request'}".

Definition sample_disconnect_tree : json :=
  JObj [(lit "command", JStr (lit "disconnect")); (lit "seq", JInt 7);
        (lit "type", JStr (lit "request"))].

Definition sample_initialize_no_seq : pystr :=
  quoted "{'command': 'initialize', 'type': 'request'}".

Definition sample_initialize_no_seq_items : list (pystr * json) :=
  [(lit "command", JStr (lit "initialize")); (lit "type", JStr (lit "request"))].

Definition sample_attach_no_arguments : pystr :=
  quoted "{'command': 'attach', 'seq': 2, 'type': 'request'}".

Definition sample_attach_no_arguments_items : list (pystr * json) :=
  [(lit "command", JStr (lit "attach")); (lit "seq", JInt 2);
   (lit "type", JStr (lit "request"))].

(** [json.loads] on these texts and on those of the session. *)
Definition session_json_loads (text : pystr) : option json :=
  if PyStr.eqb text sample_threads then Some sample_threads_tree
  else if PyStr.eqb text sample_disconnect then Some sample_disconnect_tree
  else if PyStr.eqb text sample_initialize_no_seq then
    Some (JObj sample_initialize_no_seq_items)
  else if PyStr.eqb text sample_attach_no_arguments then
    Some (JObj sample_attach_no_arguments_items)
  else sample_json_loads text.

(** [send_code_to_maya(code)] goes through: the temporary file can be
    written and its encoding takes the code, the command has an encoding,
    and Maya's socket can be written. *)
Definition submits (st : state) (code : pystr) : bool :=
  tempfile_writable st && maya_writable st
  && match file_encode code with Some _ => true | None => false end
  && match utf8_encode exec_command with Some _ => true | None => false end.

(** What ends a run of messages that can be written: the end of the
    queue, the sentinel, or a message for which [bytes(..., 'UTF-8')]
    raises. *)
Definition run_ends (rest : list (option pystr)) : bool :=
  match rest with
  | Some msg :: _ => match frame_bytes msg with Some _ => false | None => true end
  | _ => true
  end.

(** The write that the loop tries for the message at the head of [rest]
    before it encodes the message itself: its header, when the header has
    an encoding. *)
Definition pending_header (rest : list (option pystr)) : list (list byte) :=
  match rest with
  | Some msg :: _ =>
      match utf8_encode (frame_header msg) with Some header => [header] | None => [] end
  | _ => []
  end.

(** ** The end of the process *)

(** The process as a whole: it is alive, or [os._exit(code)] has ended
    it. *)
Inductive life : Type :=
| Alive (st : state)
| Exited (code : Z) (st : state).

Definition life_state (l : life) : state :=
  match l with Alive st | Exited _ st => st end.

(** A step of the process: a step of one of its activities, or, once
    [os._exit(code)] has been handed to a thread, the end of the process.
    Nothing follows the end. *)
Inductive process_step (accepted : pystr -> Prop) : life -> life -> Prop :=
| process_runs st st' :
    step accepted st st' ->
    process_step accepted (Alive st) (Alive st')
| process_exits code delay st :
    In (ESpawn (TExit code) delay) (trace st) ->
    process_step accepted (Alive st) (Exited code st).

Inductive process_reaches (accepted : pystr -> Prop) (l0 : life) : life -> Prop :=
| process_reaches_start : process_reaches accepted l0 l0
| process_reaches_step l l' :
    process_reaches accepted l0 l -> process_step accepted l l' ->
    process_reaches accepted l0 l'.

(** Spaces and newlines only. *)
Definition blank (s : pystr) : bool :=
  forallb (fun c => (c =? 32) || (c =? LF)) s.

(** ** JSON strings *)

(** A character that stands for itself between the quotes of a JSON
    string unless it is a backslash: no double quote, no control
    character. *)
Definition json_plain (s : pystr) : bool :=
  forallb (fun c => negb (c =? DQUOTE) && (32 <=? c)) s.

Definition hex_digit (d : N) : N := if d <? 10 then 48 + d else 87 + d.

(** The JSON escape of a text: what stands between the quotes of a JSON
    string that [json.loads] reads as [s].  The backslash and the double
    quote are escaped with a backslash, a control character is written
    [\u00XX]. *)
Definition json_escape (s : pystr) : pystr :=
  s ≫= (fun c =>
          if c =? BACKSLASH then [BACKSLASH; BACKSLASH]
          else if c =? DQUOTE then [BACKSLASH; DQUOTE]
          else if c <? 32 then [BACKSLASH; 117; 48; 48; hex_digit (c / 16);
                                hex_digit (c mod 16)]
          else [c]).

(** ** Attach requests for programs with unusual names *)

(** An attach request for a program in a directory whose name has a
    backslash. *)
Definition sample_attach_backslash : pystr :=
  quoted ("{'command': 'attach', 'seq': 2, 'type': 'request', 'arguments': "
          ++ "{'program': '/home/u\\x/scene.py', "
          ++ "'debugpy': {'host': 'localhost', 'port': 5678}, "
          ++ "'maya': {'host': 'localhost', 'port': 7001}}}").

Definition sample_config_backslash : json :=
  JObj [(lit "program", JStr (lit "/home/u\x/scene.py"));
        (lit "debugpy", JObj [(lit "host", JStr (lit "localhost")); (lit "port", JInt 5678)]);
        (lit "maya", JObj [(lit "host", JStr (lit "localhost")); (lit "port", JInt 7001)])].

Definition sample_attach_backslash_items : list (pystr * json) :=
  [(lit "command", JStr (lit "attach")); (lit "seq", JInt 2);
   (lit "type", JStr (lit "request")); (lit "arguments", sample_config_backslash)].

Definition sample_new_arguments_backslash : json :=
  JObj [(lit "host", JStr (lit "localhost")); (lit "port", JInt 5678);
        (lit "localRoot", JStr (lit "/home/u\x"));
        (lit "file", JStr (lit "/home/u\x/scene.py"))].

(** An attach request for a program whose name has a double quote. *)
Definition sample_attach_quote : pystr :=
  quoted ("{'command': 'attach', 'seq': 2, 'type': 'request', 'arguments': "
          ++ "{'program': '/home/u/a\'b.py', "
          ++ "'debugpy': {'host': 'localhost', 'port': 5678}, "
          ++ "'maya': {'host': 'localhost', 'port': 7001}}}").

Definition sample_config_quote : json :=
  JObj [(lit "program", JStr (quoted "/home/u/a'b.py"));
        (lit "debugpy", JObj [(lit "host", JStr (lit "localhost")); (lit "port", JInt 5678)]);
        (lit "maya", JObj [(lit "host", JStr (lit "localhost")); (lit "port", JInt 7001)])].

Definition sample_attach_quote_items : list (pystr * json) :=
  [(lit "command", JStr (lit "attach")); (lit "seq", JInt 2);
   (lit "type", JStr (lit "request")); (lit "arguments", sample_config_quote)].

(** [json.loads] on these texts and on those of the session.  The
    template filled for the program with the backslash has the
    backslashes doubled, and is read as the arguments with the path as
    it is.  The template filled for the program with the double quote
    is not JSON, since the quote in the name ends the string of the file
    too early: it has no value. *)
Definition attach_json_loads (text : pystr) : option json :=
  if PyStr.eqb text sample_attach_backslash then
    Some (JObj sample_attach_backslash_items)
  else if PyStr.eqb text
            (sample_attach_args (lit "/home/u\\x") (lit "localhost") 5678
                                (lit "/home/u\\x/scene.py"))
  then Some sample_new_arguments_backslash
  else if PyStr.eqb text sample_attach_quote then Some (JObj sample_attach_quote_items)
  else session_json_loads text.

(** ** Facts about strings *)

Ltac ncmp :=
  repeat match goal with
    | |- context [(?a <=? ?b)%N] =>
        first [ rewrite (proj2 (N.leb_le a b)) by lia
              | rewrite (proj2 (N.leb_gt a b)) by lia ]
    | |- context [(?a <? ?b)%N] =>
        first [ rewrite (proj2 (N.ltb_lt a b)) by lia
              | rewrite (proj2 (N.ltb_ge a b)) by lia ]
    | |- context [(?a =? ?b)%N] =>
        first [ rewrite (proj2 (N.eqb_eq a b)) by lia
              | rewrite (proj2 (N.eqb_neq a b)) by lia ]
    end.

Lemma digit_range c : is_digit c = true -> 48 <= c <= 57.
Proof.
  unfold is_digit. intros H. apply andb_true_iff in H. destruct H as [H1 H2].
  apply N.leb_le in H1, H2. lia.
Qed.

Lemma digit_not_space c : is_digit c = true -> is_space c = false.
Proof. intros H. apply digit_range in H. unfold is_space. ncmp. reflexivity. Qed.

Lemma digit_not_sign c : is_digit c = true -> c <> 45 /\ c <> 43.
Proof. intros H. apply digit_range in H. lia. Qed.

Lemma uint_chars_digits d : Forall (fun c => is_digit c = true) (uint_chars d).
Proof. induction d; simpl; constructor; auto. Qed.

Lemma parse_digits_uint d acc :
  parse_digits acc false (uint_chars d) = Some (Nat.of_uint_acc d acc).
Proof.
  revert acc. induction d; intros acc; simpl; auto;
    rewrite IHd; f_equal; f_equal; rewrite Nat.tail_mul_spec; simpl; lia.
Qed.

Lemma to_uint_not_nil n : Nat.to_uint n <> Nil.
Proof.
  intros H. pose proof (Unsigned.of_to n) as E. rewrite H in E.
  simpl in E. subst n. discriminate H.
Qed.

Lemma str_of_nat_digits n : Forall (fun c => is_digit c = true) (str_of_nat n).
Proof. apply uint_chars_digits. Qed.

Lemma str_of_nat_cons n : exists c r, str_of_nat n = c :: r /\ is_digit c = true.
Proof.
  pose proof (str_of_nat_digits n) as D. unfold str_of_nat in *.
  destruct (Nat.to_uint n) eqn:E; try (now apply to_uint_not_nil in E);
    simpl in *; inversion D; subst; eauto.
Qed.

Lemma lstrip_no_space c r : is_space c = false -> lstrip (c :: r) = c :: r.
Proof. intros H. simpl. now rewrite H. Qed.

Lemma rstrip_snoc_space s c : is_space c = true -> rstrip (s ++ [c]) = rstrip s.
Proof. intros H. unfold rstrip. rewrite rev_app_distr. simpl. now rewrite H. Qed.

Lemma rstrip_snoc_no_space s c : is_space c = false -> rstrip (s ++ [c]) = s ++ [c].
Proof.
  intros H. unfold rstrip. rewrite rev_app_distr. simpl. rewrite H.
  simpl. now rewrite rev_involutive.
Qed.

Lemma rstrip_digits s n : rstrip (s ++ str_of_nat n) = s ++ str_of_nat n.
Proof.
  pose proof (str_of_nat_digits n) as D.
  destruct (str_of_nat_cons n) as (c & r & E & _).
  destruct (exists_last (l := str_of_nat n)) as (pre & d & E').
  { rewrite E. discriminate. }
  rewrite E' in *. rewrite app_assoc.
  apply rstrip_snoc_no_space, digit_not_space.
  rewrite Forall_app in D. destruct D as [_ D]. now inversion D.
Qed.

Lemma strip_digits n : strip (str_of_nat n) = str_of_nat n.
Proof.
  unfold strip. destruct (str_of_nat_cons n) as (c & r & E & Hc).
  rewrite E at 1. rewrite lstrip_no_space by now apply digit_not_space.
  rewrite <- E. apply (rstrip_digits []).
Qed.

Lemma digit_not_int_space c : is_digit c = true -> is_int_space c = false.
Proof. intros H. unfold is_int_space. now rewrite (digit_not_space c H). Qed.

Lemma int_strip_digits n : int_strip (str_of_nat n) = str_of_nat n.
Proof.
  unfold int_strip. destruct (str_of_nat_cons n) as (c & r & E & Hc).
  assert (L : int_lstrip (str_of_nat n) = str_of_nat n).
  { rewrite E. simpl. now rewrite (digit_not_int_space c Hc). }
  rewrite L.
  destruct (exists_last (l := str_of_nat n)) as (pre & d & E').
  { rewrite E. discriminate. }
  pose proof (str_of_nat_digits n) as D. rewrite E' in *.
  rewrite Forall_app in D. destruct D as [_ D]. inversion D; subst.
  rewrite rev_app_distr. simpl. rewrite (digit_not_int_space d) by assumption.
  simpl. now rewrite rev_involutive.
Qed.

(** [int(str(n)) == n] *)
Lemma int_of_str_of_nat n : int_of_str (str_of_nat n) = Some (Z.of_nat n).
Proof.
  unfold int_of_str. rewrite int_strip_digits.
  destruct (str_of_nat_cons n) as (c & r & E & Hc).
  destruct (digit_not_sign c Hc) as [H1 H2].
  assert (P : parse_unsigned (str_of_nat n) = Some n).
  { unfold parse_unsigned. rewrite E, Hc, <- E. unfold str_of_nat.
    rewrite parse_digits_uint. f_equal. apply Unsigned.of_to. }
  rewrite E in *. ncmp. now rewrite P.
Qed.

(** ** Facts about the decoder *)

Lemma split_line_app line rest :
  forallb (fun c => negb (c =? LF)) line = true ->
  split_line (line ++ LF :: rest) = Some (line ++ [LF], rest).
Proof.
  induction line as [|c line IH]; simpl; intros H; [reflexivity|].
  apply andb_true_iff in H. destruct H as [Hc H].
  apply negb_true_iff in Hc. rewrite Hc, IH by assumption. reflexivity.
Qed.

Lemma universal_newlines_app a b :
  cr_free a = true -> universal_newlines (a ++ b) = a ++ universal_newlines b.
Proof.
  induction a as [|c a IH]; simpl; intros H; [reflexivity|].
  apply andb_true_iff in H. destruct H as [Hc H].
  apply negb_true_iff in Hc. rewrite Hc, IH by assumption. reflexivity.
Qed.

Lemma universal_newlines_id a : cr_free a = true -> universal_newlines a = a.
Proof.
  intros H. rewrite <- (app_nil_r a) at 1.
  rewrite universal_newlines_app by assumption. simpl. apply app_nil_r.
Qed.

Lemma digits_no_break n :
  forallb (fun c => negb (c =? LF) && negb (c =? CR)) (str_of_nat n) = true.
Proof.
  apply forallb_forall. intros c Hc.
  pose proof (str_of_nat_digits n) as D. rewrite List.Forall_forall in D.
  apply D, digit_range in Hc. unfold LF, CR. ncmp. reflexivity.
Qed.

Lemma no_break_split s :
  forallb (fun c => negb (c =? LF) && negb (c =? CR)) s = true ->
  forallb (fun c => negb (c =? LF)) s = true /\ cr_free s = true.
Proof.
  unfold cr_free. induction s as [|c s IH]; simpl; [auto|].
  intros H. apply andb_true_iff in H. destruct H as [Hc H].
  apply andb_true_iff in Hc. destruct Hc as [H1 H2].
  destruct (IH H) as [I1 I2]. now rewrite H1, H2, I1, I2.
Qed.

Lemma startswith_app p s : startswith p (p ++ s) = true.
Proof. induction p as [|c p IH]; simpl; [reflexivity|]. now rewrite N.eqb_refl. Qed.

Lemma header_token_ok_spec :
  header_token_ok CONTENT_HEADER = true ->
  forallb (fun c => negb (c =? LF) && negb (c =? CR)) CONTENT_HEADER = true
  /\ forall n, lstrip (CONTENT_HEADER ++ str_of_nat n) = CONTENT_HEADER ++ str_of_nat n.
Proof.
  unfold header_token_ok. intros H. apply andb_true_iff in H. destruct H as [H1 H2].
  split; [assumption|]. intros n.
  destruct CONTENT_HEADER as [|c r].
  - destruct (str_of_nat_cons n) as (d & r & E & Hd). simpl. rewrite E.
    apply lstrip_no_space. now apply digit_not_space.
  - apply negb_true_iff in H2. simpl app. now apply lstrip_no_space.
Qed.

(** The header block of a frame, as the text reader delivers it, gives
    back the length that was written into it. *)
Lemma read_headers_frame fuel n rest e cp cl0 :
  header_token_ok CONTENT_HEADER = true ->
  read_headers (S (S fuel)) cl0
    (Stream (CONTENT_HEADER ++ str_of_nat n ++ LF :: LF :: rest) e cp)
  = HeadersEnd (Z.of_nat n) (Stream rest e cp).
Proof.
  intros Hok. destruct (header_token_ok_spec Hok) as [Hnb Hls].
  destruct (no_break_split _ Hnb) as [HLF _].
  destruct (no_break_split _ (digits_no_break n)) as [DLF _].
  assert (L : forallb (fun c => negb (c =? LF)) (CONTENT_HEADER ++ str_of_nat n) = true).
  { rewrite forallb_app. now rewrite HLF, DLF. }
  cbn [read_headers]. unfold readline. cbn [buf eof caps].
  rewrite app_assoc, (split_line_app _ _ L).
  assert (T : truthy ((CONTENT_HEADER ++ str_of_nat n) ++ [LF]) = true).
  { destruct (CONTENT_HEADER ++ str_of_nat n); reflexivity. }
  rewrite T.
  assert (S1 : strip ((CONTENT_HEADER ++ str_of_nat n) ++ [LF])
               = CONTENT_HEADER ++ str_of_nat n).
  { unfold strip.
    assert (E : lstrip ((CONTENT_HEADER ++ str_of_nat n) ++ [LF])
                = (CONTENT_HEADER ++ str_of_nat n) ++ [LF]).
    { specialize (Hls n). destruct (CONTENT_HEADER ++ str_of_nat n) as [|c r] eqn:Q.
      - destruct (str_of_nat_cons n) as (d & r & E & _). rewrite E in Q.
        now destruct CONTENT_HEADER.
      - simpl in *. destruct (is_space c); [|reflexivity].
        exfalso. assert (length (lstrip r) <= length r)%nat.
        { clear. induction r as [|x r IH]; simpl; [lia|].
          destruct (is_space x); simpl; lia. }
        rewrite Hls in H. simpl in H. lia. }
    rewrite E, rstrip_snoc_space by reflexivity. apply rstrip_digits. }
  rewrite S1.
  assert (T2 : truthy (CONTENT_HEADER ++ str_of_nat n) = true).
  { destruct (str_of_nat_cons n) as (d & r & E & _). rewrite E.
    now destruct CONTENT_HEADER. }
  rewrite T2. cbn [negb]. rewrite startswith_app, drop_app_length, int_of_str_of_nat.
  cbn [read_headers]. unfold readline. cbn [buf eof caps split_line].
  rewrite N.eqb_refl. reflexivity.
Qed.

(** The body loop gathers exactly the announced characters, however the
    transport cuts them up. *)
Lemma read_body_exact fuel : forall B total rest e cp,
  (length B <= fuel)%nat ->
  exists cp', read_body fuel (Z.of_nat (length B)) total (Stream (B ++ rest) e cp)
              = BodyEnd 0 (total ++ B) (Stream rest e cp').
Proof.
  induction fuel as [|fuel IH]; intros B total rest e cp Hlen.
  - destruct B; simpl in Hlen; [|lia]. exists cp. simpl. now rewrite app_nil_r.
  - destruct B as [|c B].
    { exists cp. simpl. now rewrite app_nil_r. }
    cbn [read_body].
    replace (Z.of_nat (length (c :: B)) >? 0)%Z with true
      by (symmetry; apply Z.gtb_lt; simpl; lia).
    rewrite Nat2Z.id. unfold read. cbn [buf eof caps app].
    set (k := match cp with [] => length (c :: B) | c0 :: _ => Nat.min (length (c :: B)) (S c0) end).
    assert (Hk : exists k', k = S k' /\ (k' <= length B)%nat).
    { subst k. destruct cp as [|c0 cp]; simpl length.
      - exists (length B). split; [reflexivity|lia].
      - exists (Nat.min (length B) c0). split; [reflexivity|lia]. }
    destruct Hk as (k' & Ek & Hk'). clearbody k. subst k.
    cbn [take drop]. rewrite take_app_le, drop_app_le by assumption.
    destruct (IH (drop k' B) (total ++ c :: take k' B) rest e (tail cp)) as [cp' E].
    { rewrite length_drop. simpl in Hlen. lia. }
    exists cp'.
    replace (Z.of_nat (length (c :: B)) - Z.of_nat (length (c :: take k' B)))%Z
      with (Z.of_nat (length (drop k' B))).
    2:{ simpl length. rewrite length_take_le, length_drop by assumption. lia. }
    rewrite E. rewrite <- app_assoc. simpl. now rewrite take_drop.
Qed.

Lemma split_line_length text line rest :
  split_line text = Some (line, rest) ->
  length text = (length line + length rest)%nat /\ line <> [].
Proof.
  revert line. induction text as [|c text IH]; simpl; intros line H; [discriminate|].
  destruct (c =? LF).
  - inversion H; subst. simpl. split; [lia|discriminate].
  - destruct (split_line text) as [[l r]|]; [|discriminate].
    inversion H; subst. destruct (IH l eq_refl) as [E _].
    simpl. split; [lia|discriminate].
Qed.

Lemma readline_length s header s' :
  readline s = Got header s' ->
  length (buf s) = (length header + length (buf s'))%nat.
Proof.
  unfold readline. destruct (split_line (buf s)) as [[l r]|] eqn:E.
  - intros H. inversion H; subst. simpl. now apply split_line_length in E.
  - destruct (eof s); [|discriminate]. intros H. inversion H; subst. simpl. lia.
Qed.

(** The fuel given by [read_frame] is never used up. *)
Lemma read_headers_fuel fuel : forall cl s,
  (length (buf s) < fuel)%nat -> read_headers fuel cl s <> HeadersFuel.
Proof.
  induction fuel as [|fuel IH]; intros cl s Hlen; [lia|].
  cbn [read_headers]. destruct (readline s) as [header s'|] eqn:R; [|discriminate].
  apply readline_length in R.
  destruct header as [|c header]; [discriminate|].
  assert (L : (length (buf s') < fuel)%nat) by (simpl in R; lia).
  cbn [truthy]. destruct (truthy (strip (c :: header))); [|discriminate].
  cbn [negb]. destruct (startswith _ _).
  - destruct (int_of_str _); [now apply IH|discriminate].
  - now apply IH.
Qed.

Lemma read_body_fuel fuel : forall cl total s,
  (Z.to_nat cl <= fuel)%nat -> read_body fuel cl total s <> BodyFuel.
Proof.
  induction fuel as [|fuel IH]; intros cl total s Hlen.
  - simpl. destruct (cl >? 0)%Z eqn:E; [|discriminate].
    apply Z.gtb_lt in E. lia.
  - cbn [read_body]. destruct (cl >? 0)%Z eqn:E; [|discriminate].
    apply Z.gtb_lt in E.
    destruct (read (Z.to_nat cl) s) as [content s'|]; [|discriminate].
    destruct content as [|c content]; [discriminate|].
    apply IH. simpl length. lia.
Qed.

Lemma read_frame_fuel s : read_frame s <> FrameFuel.
Proof.
  unfold read_frame.
  pose proof (read_headers_fuel (S (length (buf s))) 0 s (Nat.lt_succ_diag_r _)) as H.
  destruct (read_headers _ _ _) as [cl s'| | |]; try discriminate; [|congruence].
  destruct (cl >? 0)%Z; [|discriminate].
  pose proof (read_body_fuel (Z.to_nat cl) cl [] s' (Nat.le_refl _)) as B.
  destruct (read_body _ _ _ _) as [cl' t s''| | |]; try discriminate; [|congruence].
  destruct (cl' =? 0)%Z; discriminate.
Qed.

Lemma universal_newlines_framed B :
  header_token_ok CONTENT_HEADER = true -> cr_free B = true ->
  universal_newlines (framed B)
  = CONTENT_HEADER ++ str_of_nat (length B) ++ LF :: LF :: B.
Proof.
  intros Hok HB. destruct (header_token_ok_spec Hok) as [Hnb _].
  destruct (no_break_split _ Hnb) as [_ HCR].
  destruct (no_break_split _ (digits_no_break (length B))) as [_ DCR].
  unfold framed, frame_header. rewrite <- !app_assoc.
  rewrite universal_newlines_app by assumption.
  rewrite universal_newlines_app by assumption.
  simpl. now rewrite universal_newlines_id.
Qed.

(** *** UTF-8 *)

Lemma utf8_ascii s :
  is_ascii s -> exists bs, utf8_encode s = Some bs /\ length bs = length s.
Proof.
  induction 1 as [|c s Hc _ (bs & E & L)]; simpl; [now exists []|].
  unfold utf8_char. rewrite (proj2 (N.ltb_lt c 128)) by assumption.
  rewrite E. eexists; split; [reflexivity|]. simpl. now rewrite L.
Qed.

(** An encoded text has at least as many bytes as characters. *)
Lemma utf8_length s bs : utf8_encode s = Some bs -> (length s <= length bs)%nat.
Proof.
  revert bs. induction s as [|c s IH]; simpl; intros bs H; [lia|].
  destruct (utf8_char c) as [cs|] eqn:C; [|discriminate].
  destruct (utf8_encode s) as [rest|]; [|discriminate].
  inversion H; subst. specialize (IH rest eq_refl). rewrite length_app.
  assert (1 <= length cs)%nat; [|lia].
  unfold utf8_char in C.
  repeat match type of C with
         | (if ?b then _ else _) = _ => destruct b
         end; inversion C; subst; simpl; lia.
Qed.

(** ** Facts about the heap *)

Fixpoint json_ind' (P : json -> Prop)
  (HNull : P JNull) (HBool : forall b, P (JBool b)) (HInt : forall z, P (JInt z))
  (HFloat : forall f, P (JFloat f)) (HStr : forall s, P (JStr s))
  (HArr : forall elems, Forall P elems -> P (JArr elems))
  (HObj : forall items, Forall (fun kv => P kv.2) items -> P (JObj items))
  (j : json) {struct j} : P j :=
  match j with
  | JNull => HNull
  | JBool b => HBool b
  | JInt z => HInt z
  | JFloat f => HFloat f
  | JStr s => HStr s
  | JArr elems =>
      HArr elems
        ((fix go (l : list json) : Forall P l :=
            match l with
            | [] => @List.Forall_nil _ P
            | x :: r =>
                @List.Forall_cons _ P x r
                 
                  (json_ind' P HNull HBool HInt HFloat HStr HArr HObj x) (go r)
            end) elems)
  | JObj items =>
      HObj items
        ((fix go (l : list (pystr * json)) : Forall (fun kv => P kv.2) l :=
            match l with
            | [] => @List.Forall_nil _ _
            | kv :: r =>
                @List.Forall_cons _ (fun kv => P kv.2) kv r
                 
                  (json_ind' P HNull HBool HInt HFloat HStr HArr HObj kv.2) (go r)
            end) items)
  end.

Lemma alloc_JArr elems h :
  alloc (JArr elems) h
  = let '(vs, h1) := alloc_list elems h in (VRef (length h1), h1 ++ [OList vs]).
Proof. reflexivity. Qed.

Lemma alloc_JObj items h :
  alloc (JObj items) h
  = let '(vs, h1) := alloc_items items h in (VRef (length h1), h1 ++ [ODict vs]).
Proof. reflexivity. Qed.

Lemma reify_mono_fuel n : forall m h v j,
  reify n h v = Some j -> (n <= m)%nat -> reify m h v = Some j.
Proof.
  induction n as [|n IH]; intros m h v j H Hle.
  - destruct v; cbn [reify] in H; try discriminate; destruct m; exact H.
  - destruct m as [|m]; [lia|].
    destruct v; cbn [reify] in *; try exact H.
    destruct (h !! l) as [[elems|items]|]; [| |discriminate].
    + destruct (mapM (reify n h) elems) as [js|] eqn:E; [|discriminate].
      apply mapM_Some in E.
      assert (E' : mapM (reify m h) elems = Some js).
      { apply mapM_Some. eapply Forall2_impl; [exact E|].
        intros x y Hxy. apply (IH m h x y Hxy). lia. }
      now rewrite E'.
    + destruct (mapM _ items) as [js|] eqn:E; [|discriminate].
      apply mapM_Some in E.
      assert (E' : mapM (fun kv => pair kv.1 <$> reify m h kv.2) items = Some js).
      { apply mapM_Some. eapply Forall2_impl; [exact E|].
        intros x y Hxy. cbv beta in *.
        destruct (reify n h x.2) as [jx|] eqn:R; [|discriminate].
        rewrite (IH m h x.2 jx R) by lia. exact Hxy. }
      now rewrite E'.
Qed.

(** [reify] reads only the objects it reaches: it gives the same tree in
    any heap that still holds the objects of [h]. *)
Lemma reify_agree n : forall h h' v j,
  reify n h v = Some j ->
  (forall l o, h !! l = Some o -> h' !! l = Some o) ->
  reify n h' v = Some j.
Proof.
  induction n as [|n IH]; intros h h' v j H Hag.
  - destruct v; cbn [reify] in *; try discriminate; exact H.
  - destruct v; cbn [reify] in *; try exact H.
    destruct (h !! l) as [o|] eqn:L; [|discriminate].
    rewrite (Hag l o L). destruct o as [elems|items].
    + destruct (mapM (reify n h) elems) as [js|] eqn:E; [|discriminate].
      apply mapM_Some in E.
      assert (E' : mapM (reify n h') elems = Some js).
      { apply mapM_Some. eapply Forall2_impl; [exact E|].
        intros x y Hxy. now apply (IH h h' x y Hxy). }
      now rewrite E'.
    + destruct (mapM _ items) as [js|] eqn:E; [|discriminate].
      apply mapM_Some in E.
      assert (E' : mapM (fun kv => pair kv.1 <$> reify n h' kv.2) items = Some js).
      { apply mapM_Some. eapply Forall2_impl; [exact E|].
        intros x y Hxy. cbv beta in *.
        destruct (reify n h x.2) as [jx|] eqn:R; [|discriminate].
        rewrite (IH h h' x.2 jx R Hag). exact Hxy. }
      now rewrite E'.
Qed.

Lemma lookup_app_Some (h ext : heap) l o :
  h !! l = Some o -> (h ++ ext) !! l = Some o.
Proof. intros H. rewrite lookup_app_l; [exact H|]. now apply lookup_lt_Some in H. Qed.

Lemma depth_le_nodes j : (depth j <= nodes j)%nat.
Proof.
  induction j as [| | | | |elems IH|items IH] using json_ind'; simpl; try lia.
  - apply le_n_S. induction IH as [|x l Hx _ IHl]; simpl; lia.
  - apply le_n_S. induction IH as [|x l Hx _ IHl]; simpl; lia.
Qed.

Lemma foldr_max_le {A} (f : A -> nat) (l : list A) x :
  In x l -> (f x <= foldr (fun y m => Nat.max (f y) m) 0%nat l)%nat.
Proof.
  induction l as [|y l IH]; simpl; [intros []|]. intros [->|H]; [lia|].
  specialize (IH H). lia.
Qed.

Lemma alloc_list_spec elems :
  Forall (fun j => forall h v h', alloc j h = (v, h') ->
            exists ext, h' = h ++ ext /\ length ext = nodes j /\
              forall h'', agree (length h) (length h') h' h'' ->
                          reify (depth j) h'' v = Some j) elems ->
  forall h vs h1, alloc_list elems h = (vs, h1) ->
    exists ext, h1 = h ++ ext
      /\ length ext = foldr (fun x m => (nodes x + m)%nat) 0%nat elems
      /\ forall h'' d, agree (length h) (length h1) h1 h'' ->
           (forall x, In x elems -> depth x <= d)%nat ->
           Forall2 (fun v j => reify d h'' v = Some j) vs elems.
Proof.
  induction 1 as [|x elems Hx _ IH]; intros h vs h1 A; simpl in A.
  - inversion A; subst. exists []. rewrite app_nil_r. repeat split; auto.
  - destruct (alloc x h) as [v ha] eqn:Ax.
    destruct (alloc_list elems ha) as [vs' hb] eqn:Al.
    inversion A; subst. clear A.
    destruct (Hx _ _ _ Ax) as (e1 & -> & L1 & R1).
    destruct (IH _ _ _ Al) as (e2 & -> & L2 & R2).
    exists (e1 ++ e2). rewrite app_assoc. split; [reflexivity|].
    split; [rewrite length_app; simpl; lia|].
    intros h'' d Hag Hd. constructor.
    + apply (reify_mono_fuel (depth x)); [|apply Hd; now left].
      apply R1. intros l Hl. rewrite Hag.
      * apply lookup_app_l. lia.
      * rewrite !length_app in *. lia.
    + apply R2.
      * intros l Hl. apply Hag. rewrite !length_app in *. lia.
      * intros y Hy. apply Hd. now right.
Qed.

Lemma alloc_items_spec items :
  Forall (fun kv => forall h v h', alloc kv.2 h = (v, h') ->
            exists ext, h' = h ++ ext /\ length ext = nodes kv.2 /\
              forall h'', agree (length h) (length h') h' h'' ->
                          reify (depth kv.2) h'' v = Some kv.2) items ->
  forall h vs h1, alloc_items items h = (vs, h1) ->
    exists ext, h1 = h ++ ext
      /\ length ext = foldr (fun kv m => (nodes kv.2 + m)%nat) 0%nat items
      /\ forall h'' d, agree (length h) (length h1) h1 h'' ->
           (forall kv, In kv items -> depth kv.2 <= d)%nat ->
           Forall2 (fun kv kj => pair kv.1 <$> reify d h'' kv.2 = Some kj) vs items.
Proof.
  induction 1 as [|[k x] items Hx _ IH]; intros h vs h1 A; simpl in A.
  - inversion A; subst. exists []. rewrite app_nil_r. repeat split; auto.
  - destruct (alloc x h) as [v ha] eqn:Ax.
    destruct (alloc_items items ha) as [vs' hb] eqn:Al.
    inversion A; subst. clear A. simpl in Hx.
    destruct (Hx _ _ _ Ax) as (e1 & -> & L1 & R1).
    destruct (IH _ _ _ Al) as (e2 & -> & L2 & R2).
    exists (e1 ++ e2). rewrite app_assoc. split; [reflexivity|].
    split; [rewrite length_app; simpl; lia|].
    intros h'' d Hag Hd. constructor.
    + simpl. rewrite (reify_mono_fuel (depth x) d h'' v x); [reflexivity| |].
      * apply R1. intros l Hl. rewrite Hag.
        -- apply lookup_app_l. lia.
        -- rewrite !length_app in *. lia.
      * apply (Hd (k, x)). now left.
    + apply R2.
      * intros l Hl. apply Hag. rewrite !length_app in *. lia.
      * intros y Hy. apply Hd. now right.
Qed.

(** [json.loads] only adds objects to the heap, one for each list and
    dict of the tree, and the value it returns stands for the tree in
    every heap that keeps these new objects. *)
Lemma alloc_spec j : forall h v h',
  alloc j h = (v, h') ->
  exists ext, h' = h ++ ext /\ length ext = nodes j /\
    forall h'', agree (length h) (length h') h' h'' ->
                reify (depth j) h'' v = Some j.
Proof.
  induction j as [| | | | |elems IH|items IH] using json_ind'; intros h v h' A;
    try (simpl in A; inversion A; subst; exists []; rewrite app_nil_r;
         repeat split; auto; fail).
  - rewrite alloc_JArr in A. destruct (alloc_list elems h) as [vs h1] eqn:Al.
    inversion A; subst. clear A.
    destruct (alloc_list_spec elems IH _ _ _ Al) as (e & -> & L & R).
    exists (e ++ [OList vs]). rewrite app_assoc. split; [reflexivity|].
    split; [rewrite length_app; simpl; lia|].
    intros h'' Hag. cbn [depth reify]. rewrite Hag.
    2:{ rewrite !length_app. simpl. lia. }
    rewrite list_lookup_middle by reflexivity.
    assert (E : mapM (reify (foldr (fun x m => Nat.max (depth x) m) 0%nat elems) h'') vs
                = Some elems).
    { apply mapM_Some, R.
      - intros l Hl. rewrite Hag.
        + apply lookup_app_l. lia.
        + rewrite !length_app in *. simpl. lia.
      - intros x Hx. now apply (foldr_max_le depth). }
    now rewrite E.
  - rewrite alloc_JObj in A. destruct (alloc_items items h) as [vs h1] eqn:Al.
    inversion A; subst. clear A.
    destruct (alloc_items_spec items IH _ _ _ Al) as (e & -> & L & R).
    exists (e ++ [ODict vs]). rewrite app_assoc. split; [reflexivity|].
    split; [rewrite length_app; simpl; lia|].
    intros h'' Hag. cbn [depth reify]. rewrite Hag.
    2:{ rewrite !length_app. simpl. lia. }
    rewrite list_lookup_middle by reflexivity.
    assert (E : mapM (fun kv => pair kv.1 <$>
                        reify (foldr (fun kv m => Nat.max (depth kv.2) m) 0%nat items)
                              h'' kv.2) vs
                = Some items).
    { apply mapM_Some, R.
      - intros l Hl. rewrite Hag.
        + apply lookup_app_l. lia.
        + rewrite !length_app in *. simpl. lia.
      - intros x Hx. now apply (foldr_max_le (fun kv => depth kv.2)). }
    now rewrite E.
Qed.

Lemma agree_refl lo hi h : agree lo hi h h.
Proof. intros l _. reflexivity. Qed.

(** The value [json.loads] returns can be dumped again, in the heap it
    leaves and in any heap that keeps the objects of that heap. *)
Lemma alloc_reify j h v h' :
  alloc j h = (v, h') ->
  (length h <= length h')%nat /\
  forall h'' n, (forall l o, h' !! l = Some o -> h'' !! l = Some o) ->
                (nodes j <= n)%nat -> reify n h'' v = Some j.
Proof.
  intros A. destruct (alloc_spec j _ _ _ A) as (e & -> & L & R).
  split; [rewrite length_app; lia|].
  intros h'' n Hag Hn. pose proof (depth_le_nodes j).
  apply (reify_mono_fuel (depth j)); [|lia].
  apply (reify_agree _ (h ++ e)); [|exact Hag].
  apply R, agree_refl.
Qed.

(** ** Reading a parsed message through the heap *)

Lemma mapM_items_get (f : pyval -> option json) its items k :
  mapM (fun kv => pair kv.1 <$> f kv.2) its = Some items ->
  match dict_get k items with
  | Some j => exists x, dict_get k its = Some x /\ f x = Some j
  | None => dict_get k its = None
  end.
Proof.
  intros H. apply mapM_Some in H.
  induction H as [|[k1 x] [k2 j] its items Hxy _ IH]; simpl; [reflexivity|].
  simpl in Hxy. destruct (f x) as [jx|] eqn:E; [|discriminate].
  inversion Hxy; subst. destruct (PyStr.eqb k2 k); [|exact IH].
  exists x. split; [reflexivity|exact E].
Qed.

Lemma reify_obj n h v items :
  reify n h v = Some (JObj items) ->
  exists l its m, v = VRef l /\ n = S m /\ h !! l = Some (ODict its) /\
    mapM (fun kv => pair kv.1 <$> reify m h kv.2) its = Some items.
Proof.
  destruct v; destruct n as [|m]; cbn [reify]; try discriminate.
  destruct (h !! l) as [[elems|its]|] eqn:L; [| |discriminate].
  - destruct (mapM _ elems); discriminate.
  - destruct (mapM _ its) as [js|] eqn:E; [|discriminate].
    intros H. inversion H; subst. exists l, its, m. auto.
Qed.

Lemma reify_scalar n h x j :
  reify n h x = Some j ->
  match j with
  | JNull => x = VNone
  | JBool b => x = VBool b
  | JInt z => x = VInt z
  | JFloat f => x = VFloat f
  | JStr s => x = VStr s
  | JArr _ | JObj _ => exists l, x = VRef l
  end.
Proof.
  destruct x; destruct n; cbn [reify]; intros H; try discriminate;
    try (inversion H; subst; reflexivity).
  destruct (h !! l) as [[elems|its]|]; [| |discriminate].
  - destruct (mapM _ elems); inversion H; subst. eauto.
  - destruct (mapM _ its); inversion H; subst. eauto.
Qed.

(** [v[k]] finds the entry of the tree that [v] stands for. *)
Lemma getitem_tree n st v j k jk :
  reify n (py_heap st) v = Some j -> jget j k = Some jk ->
  exists x, getitem v k st = Ok x st /\ reify n (py_heap st) x = Some jk.
Proof.
  intros R G. destruct j; try discriminate. simpl in G.
  destruct (reify_obj _ _ _ _ R) as (l & its & m & -> & -> & L & E).
  pose proof (mapM_items_get _ _ _ k E) as D. rewrite G in D.
  destruct D as (x & Dx & Rx). exists x. unfold getitem. rewrite L, Dx.
  split; [reflexivity|]. apply (reify_mono_fuel m); [exact Rx|lia].
Qed.

Lemma getitem_missing n st v items k :
  reify n (py_heap st) v = Some (JObj items) -> dict_get k items = None ->
  getitem v k st = Raise (KeyError k) st.
Proof.
  intros R G.
  destruct (reify_obj _ _ _ _ R) as (l & its & m & -> & -> & L & E).
  pose proof (mapM_items_get _ _ _ k E) as D. rewrite G in D.
  unfold getitem. now rewrite L, D.
Qed.

(** [v.get(k, d)] on a tree that is an object. *)
Lemma dict_get_default_tree n st v j k d :
  reify n (py_heap st) v = Some j -> is_object j = true ->
  exists x, dict_get_default v k d st = Ok x st /\
    match jget j k with
    | Some jk => reify n (py_heap st) x = Some jk
    | None => x = d
    end.
Proof.
  intros R O. destruct j; try discriminate. simpl.
  destruct (reify_obj _ _ _ _ R) as (l & its & m & -> & -> & L & E).
  pose proof (mapM_items_get _ _ _ k E) as D.
  unfold dict_get_default. rewrite L.
  destruct (dict_get k items) as [jk|].
  - destruct D as (x & Dx & Rx). exists x. rewrite Dx. split; [reflexivity|].
    apply (reify_mono_fuel m); [exact Rx|lia].
  - exists d. now rewrite D.
Qed.

Lemma py_int_tree n st x j z :
  reify n (py_heap st) x = Some j -> json_int j = Some z -> py_int x st = Ok z st.
Proof.
  intros R J. pose proof (reify_scalar _ _ _ _ R) as S.
  destruct j; simpl in J; try discriminate; subst x; simpl.
  - inversion J; subst. reflexivity.
  - inversion J; subst. reflexivity.
  - destruct (int_of_float f); try discriminate. inversion J; subst. reflexivity.
  - rewrite J. reflexivity.
Qed.

Lemma py_eq_str_tree n h x j name :
  reify n h x = Some j ->
  py_eq_str x name = match j with JStr s => PyStr.eqb s name | _ => false end.
Proof.
  intros R. pose proof (reify_scalar _ _ _ _ R) as S.
  destruct j; try (subst x; reflexivity). destruct S as [l ->]. reflexivity.
  destruct S as [l ->]. reflexivity.
Qed.

(** [json.loads] in the monad. *)
Lemma py_json_loads_ok text j st :
  json_loads text = Some j ->
  exists v h, py_json_loads text st = Ok v (set_heap h st)
    /\ alloc j (py_heap st) = (v, h)
    /\ length h = (length (py_heap st) + nodes j)%nat
    /\ (forall l o, py_heap st !! l = Some o -> h !! l = Some o)
    /\ forall h' n, (forall l o, h !! l = Some o -> h' !! l = Some o) ->
                    (nodes j <= n)%nat -> reify n h' v = Some j.
Proof.
  intros E. unfold py_json_loads. rewrite E.
  destruct (alloc j (py_heap st)) as [v h] eqn:A. exists v, h.
  split; [reflexivity|]. split; [reflexivity|].
  destruct (alloc_spec j _ _ _ A) as (e & -> & L & _).
  split; [rewrite length_app; lia|].
  split; [intros l o; apply lookup_app_Some|].
  apply (alloc_reify _ _ _ _ A).
Qed.

Lemma send_code_to_maya_ok code data st :
  host_channel_ready st data ->
  file_encode code <> None ->
  send_code_to_maya code st = Ok tt (set_trace (trace st ++ submission code data) st).
Proof.
  intros (Hf & Hm & He) Hc. destruct st. simpl in *. subst.
  unfold send_code_to_maya, bind, ret, get_state, emit, modify, log, py_encode,
    lift_option. simpl. destruct (file_encode code); [|congruence].
  fold temp_py. fold exec_command. rewrite He. simpl.
  unfold set_trace. simpl. rewrite <- !app_assoc. reflexivity.
Qed.

Lemma submits_ready st code :
  submits st code = true ->
  exists data, host_channel_ready st data /\ file_encode code <> None.
Proof.
  unfold submits, host_channel_ready. intros H.
  apply andb_true_iff in H. destruct H as [H He].
  apply andb_true_iff in H. destruct H as [H Hc].
  apply andb_true_iff in H. destruct H as [Hf Hm].
  destruct (utf8_encode exec_command) as [data|]; [|discriminate].
  exists data. repeat split; try assumption.
  destruct (file_encode code); [discriminate|discriminate Hc].
Qed.

Lemma ready_submits st code data :
  host_channel_ready st data -> file_encode code <> None -> submits st code = true.
Proof.
  unfold submits. intros (Hf & Hm & He) Hc. rewrite Hf, Hm, He.
  destruct (file_encode code); [reflexivity|congruence].
Qed.



(** ** Messages of debugpy *)

Ltac run_cbv :=
  cbv [bind ret raise get_state log interface_send run_in_new_thread queue_put
       emit modify try_except
       set_trace set_heap set_queue set_processed_seqs set_run_code set_socket
       set_engine_writes set_engine_in
       processed_seqs run_code debugpy_send_queue debugpy_socket py_heap trace
       maya_accepts tempfile_writable maya_writable engine_accepts engine_writes
       engine_in].

Ltac run_done :=
  run_cbv;
  rewrite <- ?app_assoc; cbn [app]; rewrite ?app_nil_r; try reflexivity.

Lemma bind_ok {A B} (c : M A) (k : A -> M B) st a st' :
  c st = Ok a st' -> bind c k st = k a st'.
Proof. unfold bind. now intros ->. Qed.

Lemma bind_raise {A B} (c : M A) (k : A -> M B) st e st' :
  c st = Raise e st' -> bind c k st = Raise e st'.
Proof. unfold bind. now intros ->. Qed.

(** A submission that does not go through raises, and has sent nothing
    to Maya. *)
Lemma send_code_to_maya_fails code st :
  submits st code = false ->
  exists e tr,
    send_code_to_maya code st = Raise e (set_trace (trace st ++ tr) st)
    /\ (e = OSError \/ e = UnicodeEncodeError)
    /\ to_maya tr = [] /\ to_debugger tr = [].
Proof.
  unfold submits, exec_command, temp_py. intros H. destruct st.
  cbn [tempfile_writable maya_writable] in H.
  unfold send_code_to_maya, py_encode, lift_option.
  destruct tempfile_writable0.
  2:{ exists OSError, []. run_done. auto. }
  destruct (file_encode code).
  2:{ exists UnicodeEncodeError. eexists. run_cbv. split; [reflexivity|]. auto. }
  destruct (utf8_encode _) eqn:Ee.
  2:{ exists UnicodeEncodeError. eexists. run_cbv. rewrite Ee. run_cbv.
      rewrite <- !app_assoc. split; [reflexivity|]. auto. }
  destruct maya_writable0; [discriminate H|].
  exists OSError. eexists. run_cbv. rewrite Ee. run_cbv.
  rewrite <- !app_assoc. split; [reflexivity|]. auto.
Qed.

(** What [on_receive_from_debugpy] does with a message that is a JSON
    object whose [request_seq], if any, [int()] accepts. *)
Lemma on_receive_from_debugpy_ok message c seq st data :
  json_loads message = Some c ->
  is_object c = true ->
  effective_request_seq c = Some seq ->
  (has_command c (lit "configurationDone") = true ->
   host_channel_ready st data /\ file_encode (run_code st) <> None) ->
  exists h,
    on_receive_from_debugpy message st
    = Ok tt (set_trace
               (trace st
                ++ (if has_command c (lit "configurationDone")
                    then submission (run_code st) data else [])
                ++ (if py_in seq (processed_seqs st)
                    then [ELog [lit "Already processed, debugpy response is:"; message]]
                    else [ELog [lit "Received from debugpy:"; message];
                          ESendDebugger message]))
               (set_heap h st)).
Proof.
  intros L O S C.
  destruct (py_json_loads_ok message c st L) as (v & h & PL & _ & Len & _ & R).
  specialize (R h (length h) (fun _ _ H => H) ltac:(lia)).
  exists h. unfold on_receive_from_debugpy.
  rewrite (bind_ok _ _ _ _ _ PL).
  set (st1 := set_heap h st) in *.
  change h with (py_heap st1) in R.
  destruct (dict_get_default_tree _ st1 v c (lit "request_seq") (VInt (-1)) R O)
    as (x & Dx & Jx).
  rewrite (bind_ok _ _ _ _ _ Dx).
  assert (Ix : py_int x st1 = Ok seq st1).
  { unfold effective_request_seq in S.
    destruct (jget c (lit "request_seq")) as [jk|].
    - now apply (py_int_tree _ _ _ _ _ Jx).
    - subst x. inversion S; subst. reflexivity. }
  rewrite (bind_ok _ _ _ _ _ Ix).
  destruct (dict_get_default_tree _ st1 v c (lit "command") (VStr []) R O)
    as (y & Dy & Jy).
  rewrite (bind_ok _ _ _ _ _ Dy).
  assert (Ey : py_eq_str y (lit "configurationDone")
               = has_command c (lit "configurationDone")).
  { unfold has_command. destruct (jget c (lit "command")) as [jk|].
    - apply (py_eq_str_tree _ _ _ _ _ Jy).
    - subst y. reflexivity. }
  rewrite Ey. destruct (has_command c (lit "configurationDone")).
  - assert (Rdy : host_channel_ready st1 data) by (apply C; reflexivity).
    assert (Enc : file_encode (run_code st1) <> None) by (apply C; reflexivity).
    unfold bind at 1. unfold bind at 1. unfold get_state at 1.
    rewrite (send_code_to_maya_ok _ _ _ Rdy Enc).
    subst st1. destruct st.
    destruct (py_in seq processed_seqs0) eqn:I; run_done; rewrite I; run_done.
  - subst st1. destruct st.
    destruct (py_in seq processed_seqs0) eqn:I; run_done; rewrite I; run_done.
Qed.

(** A "configurationDone" whose submission to Maya does not go through:
    the handler raises before it comes to the debugger. *)
Lemma on_receive_from_debugpy_fails message c seq st :
  json_loads message = Some c ->
  is_object c = true ->
  effective_request_seq c = Some seq ->
  has_command c (lit "configurationDone") = true ->
  submits st (run_code st) = false ->
  exists e h tr,
    on_receive_from_debugpy message st
    = Raise e (set_trace (trace st ++ tr) (set_heap h st))
    /\ (e = OSError \/ e = UnicodeEncodeError)
    /\ to_maya tr = [] /\ to_debugger tr = [].
Proof.
  intros L O S C Hs.
  destruct (py_json_loads_ok message c st L) as (v & h & PL & _ & Len & _ & R).
  specialize (R h (length h) (fun _ _ H => H) ltac:(lia)).
  unfold on_receive_from_debugpy.
  rewrite (bind_ok _ _ _ _ _ PL).
  set (st1 := set_heap h st) in *.
  change h with (py_heap st1) in R.
  destruct (dict_get_default_tree _ st1 v c (lit "request_seq") (VInt (-1)) R O)
    as (x & Dx & Jx).
  rewrite (bind_ok _ _ _ _ _ Dx).
  assert (Ix : py_int x st1 = Ok seq st1).
  { unfold effective_request_seq in S.
    destruct (jget c (lit "request_seq")) as [jk|].
    - now apply (py_int_tree _ _ _ _ _ Jx).
    - subst x. inversion S; subst. reflexivity. }
  rewrite (bind_ok _ _ _ _ _ Ix).
  destruct (dict_get_default_tree _ st1 v c (lit "command") (VStr []) R O)
    as (y & Dy & Jy).
  rewrite (bind_ok _ _ _ _ _ Dy).
  assert (Ey : py_eq_str y (lit "configurationDone")
               = has_command c (lit "configurationDone")).
  { unfold has_command. destruct (jget c (lit "command")) as [jk|].
    - apply (py_eq_str_tree _ _ _ _ _ Jy).
    - subst y. reflexivity. }
  rewrite Ey, C.
  assert (Hs1 : submits st1 (run_code st1) = false) by (destruct st; exact Hs).
  destruct (send_code_to_maya_fails (run_code st1) st1 Hs1) as (e & tr & E & He & Tm & Td).
  unfold bind at 1. unfold bind at 1. unfold get_state at 1. rewrite E.
  exists e, h, tr. repeat split; assumption.
Qed.

Lemma to_debugger_app a b : to_debugger (a ++ b) = to_debugger a ++ to_debugger b.
Proof. apply omap_app. Qed.

Lemma to_maya_app a b : to_maya (a ++ b) = to_maya a ++ to_maya b.
Proof. apply omap_app. Qed.

Lemma eqb_refl (s : pystr) : PyStr.eqb s s = true.
Proof. unfold PyStr.eqb. now apply bool_decide_eq_true. Qed.

Lemma eqb_eq (a b : pystr) : PyStr.eqb a b = true -> a = b.
Proof. unfold PyStr.eqb. now intros H%bool_decide_eq_true. Qed.

Lemma py_json_dumps_ok st v j :
  reify (length (py_heap st)) (py_heap st) v = Some j ->
  py_json_dumps v st = Ok (json_dumps j) st.
Proof. unfold py_json_dumps. now intros ->. Qed.

(** ** Messages of the debugger: [initialize] *)

(** C2: for an inbound message whose command is "initialize" and whose
    sequence number is [s], the handler sends exactly one response to the
    debugger, the canned one, without any connection to debugpy (it makes
    none and needs none: the socket global is left as it was), records [s]
    among the answered sequence numbers and puts the original message on
    the queue for debugpy. *)
Theorem initialize_short_circuit message c s resp st :
  json_loads message = Some c ->
  jget c (lit "command") = Some (JStr (lit "initialize")) ->
  jget c (lit "seq") = Some (JInt s) ->
  json_loads INITIALIZE_RESPONSE = Some resp ->
  exists st',
    on_receive_from_debugger message st = Ok tt st'
    /\ trace st' = trace st ++ [ELog [lit "Received from Debugger:"; message];
                                ESendDebugger (json_dumps resp)]
    /\ processed_seqs st' = processed_seqs st ++ [VInt s]
    /\ debugpy_send_queue st' = debugpy_send_queue st ++ [Some message]
    /\ debugpy_socket st' = debugpy_socket st.
Proof.
  intros L Gc Gs Lr.
  destruct (py_json_loads_ok message c st L) as (v & h1 & PL & _ & Len1 & _ & R).
  unfold on_receive_from_debugger. rewrite (bind_ok _ _ _ _ _ PL).
  unfold bind at 1. unfold log at 1, emit at 1, modify at 1.
  set (st2 := set_trace _ (set_heap h1 st)).
  assert (R2 : reify (length h1) (py_heap st2) v = Some c)
    by (apply R; [auto|lia]).
  destruct (getitem_tree _ st2 v c _ _ R2 Gc) as (x & Gx & Rx).
  rewrite (bind_ok _ _ _ _ _ Gx).
  apply reify_scalar in Rx. subst x. cbn [py_eq_str]. rewrite eqb_refl.
  destruct (py_json_loads_ok _ resp st2 Lr) as (v2 & h2 & PL2 & _ & Len2 & Ext2 & Rr).
  unfold bind at 1. unfold bind at 1. rewrite PL2.
  set (st3 := set_heap h2 st2).
  assert (Rd : reify (length (py_heap st3)) (py_heap st3) v2 = Some resp).
  { apply Rr; [auto|]. simpl. lia. }
  rewrite (bind_ok _ _ _ _ _ (py_json_dumps_ok _ _ _ Rd)).
  unfold bind at 1. unfold interface_send at 1, emit at 1, modify at 1.
  set (st4 := set_trace _ st3).
  assert (R4 : reify (length h1) (py_heap st4) v = Some c)
    by (apply R; [exact Ext2|lia]).
  destruct (getitem_tree _ st4 v c _ _ R4 Gs) as (y & Gy & Ry).
  rewrite (bind_ok _ _ _ _ _ Gy).
  apply reify_scalar in Ry. subst y.
  subst st4 st3 st2. destruct st. eexists. split; [run_done|].
  run_done. auto.
Qed.



(** ** Messages of the debugger: [attach] *)

Lemma dict_get_set {V} k (v : V) items : dict_get k (dict_set k v items) = Some v.
Proof.
  induction items as [|[k' v'] items IH]; simpl.
  - now rewrite eqb_refl.
  - destruct (PyStr.eqb k' k) eqn:E; simpl.
    + now rewrite eqb_refl.
    + now rewrite E.
Qed.

Lemma dict_set_items (f : pyval -> option json) k x j its items :
  Forall2 (fun kv kj => pair kv.1 <$> f kv.2 = Some kj) its items ->
  f x = Some j ->
  Forall2 (fun kv kj => pair kv.1 <$> f kv.2 = Some kj)
          (dict_set k x its) (dict_set k j items).
Proof.
  intros H Hx. induction H as [|[k1 x1] [k2 j1] its items Hxy Hr IH]; simpl.
  - constructor; [|constructor]. simpl. now rewrite Hx.
  - simpl in Hxy. destruct (f x1) as [jx|] eqn:E; [|discriminate].
    inversion Hxy; subst. destruct (PyStr.eqb k2 k).
    + constructor; [|assumption]. simpl. now rewrite Hx.
    + constructor; [|exact IH]. simpl. now rewrite E.
Qed.

(** Dumping the copy of a dict after one of its keys was bound to a newly
    loaded value: the tree of the original with that entry replaced. *)
Lemma reify_copy_set l h1 its items k new vn h3 :
  h1 !! l = Some (ODict its) ->
  reify (length h1) h1 (VRef l) = Some (JObj items) ->
  alloc new (h1 ++ [ODict its]) = (vn, h3) ->
  let h4 := <[length h1 := ODict (dict_set k vn its)]> h3 in
  reify (length h4) h4 (VRef (length h1)) = Some (JObj (dict_set k new items)).
Proof.
  intros Hl R A h4.
  destruct (alloc_spec new _ _ _ A) as (e & E3 & Le & Rn).
  assert (Len4 : length h4 = S (length h1 + nodes new)).
  { unfold h4. rewrite length_insert, E3, !length_app. simpl. lia. }
  assert (Old : forall i o, h1 !! i = Some o -> h4 !! i = Some o).
  { intros i o Hi. pose proof (lookup_lt_Some _ _ _ Hi). unfold h4.
    rewrite list_lookup_insert_ne by lia. rewrite E3.
    now apply lookup_app_Some, lookup_app_Some. }
  rewrite Len4. cbn [reify]. unfold h4 at 1.
  rewrite list_lookup_insert_eq by (rewrite E3, !length_app; simpl; lia).
  destruct (reify_obj _ _ _ _ R) as (l' & its' & m & El & Em & Hl' & Mits).
  inversion El; subst l'. rewrite Hl in Hl'. inversion Hl'; subst its'.
  apply mapM_Some in Mits.
  assert (M : mapM (fun kv => pair kv.1 <$> reify (length h1 + nodes new) h4 kv.2)
                   (dict_set k vn its)
              = Some (dict_set k new items)).
  { apply mapM_Some, dict_set_items.
    - eapply Forall2_impl; [exact Mits|]. intros kv kj Hkv. cbv beta in *.
      destruct (reify m h1 kv.2) as [jx|] eqn:Rx; [|discriminate].
      rewrite (reify_mono_fuel m (length h1 + nodes new) h4 kv.2 jx); [exact Hkv| |lia].
      now apply (reify_agree _ h1).
    - apply (reify_mono_fuel (depth new)); [|pose proof (depth_le_nodes new); lia].
      apply Rn. intros i Hi. unfold h4. rewrite list_lookup_insert_ne; [reflexivity|].
      rewrite length_app in Hi. simpl in Hi. lia. }
  now rewrite M.
Qed.

(** What [on_receive_from_debugger] does with an attach request, step by
    step: [l] is the dict parsed from the message, which goes to the
    attach thread; its copy lives at the next free address
    [length h1]. *)
Lemma on_receive_attach message items config dbg jport P H p new st :
  json_loads message = Some (JObj items) ->
  dict_get (lit "command") items = Some (JStr (lit "attach")) ->
  dict_get (lit "arguments") items = Some config ->
  jget config (lit "program") = Some (JStr P) ->
  jget config (lit "debugpy") = Some dbg ->
  jget dbg (lit "host") = Some (JStr H) ->
  jget dbg (lit "port") = Some jport ->
  json_int jport = Some p ->
  json_loads (attach_args_text P H p) = Some new ->
  exists l h1 its vn h3,
    alloc (JObj items) (py_heap st) = (VRef l, h1)
    /\ h1 !! l = Some (ODict its)
    /\ alloc new (h1 ++ [ODict its]) = (vn, h3)
    /\ on_receive_from_debugger message st
       = Ok tt
           (set_queue
              (debugpy_send_queue st
               ++ [Some (json_dumps (JObj (dict_set (lit "arguments") new items)))])
              (set_trace
                 (trace st
                  ++ [ELog [lit "Received from Debugger:"; message];
                      ESpawn (TAttachToMaya (VRef l)) None;
                      ELog [lit "New attach arguments loaded:";
                            attach_args_text P H p]])
                 (set_heap
                    (<[length h1 := ODict (dict_set (lit "arguments") vn its)]> h3)
                    st))).
Proof.
  intros L Gc Ga Gp Gd Gh Gpo Ji Ln.
  destruct (py_json_loads_ok message _ st L) as (v & h1 & PL & A & Len1 & _ & R).
  specialize (R h1 (length h1) (fun _ _ H => H) ltac:(lia)).
  destruct (reify_obj _ _ _ _ R) as (l & its & m & -> & Em & Hl & _).
  destruct (alloc new (h1 ++ [ODict its])) as [vn h3] eqn:An.
  exists l, h1, its, vn, h3. repeat (split; [assumption|]).
  unfold on_receive_from_debugger. rewrite (bind_ok _ _ _ _ _ PL).
  unfold bind at 1. unfold log at 1, emit at 1, modify at 1.
  set (st2 := set_trace _ (set_heap h1 st)).
  destruct (getitem_tree _ st2 _ _ _ _ R Gc) as (x & Gx & Rx).
  rewrite (bind_ok _ _ _ _ _ Gx).
  apply reify_scalar in Rx. subst x. cbn [py_eq_str].
  replace (PyStr.eqb (lit "attach") (lit "initialize")) with false by reflexivity.
  rewrite eqb_refl.
  unfold bind at 1. unfold bind at 1.
  unfold run_in_new_thread at 1, emit at 1, modify at 1.
  set (st3 := set_trace _ st2).
  destruct (getitem_tree _ st3 _ _ _ _ R Ga) as (xa & Gxa & Rxa).
  rewrite (bind_ok _ _ _ _ _ Gxa).
  destruct (getitem_tree _ st3 _ _ _ _ Rxa Gp) as (xp & Gxp & Rxp).
  rewrite (bind_ok _ _ _ _ _ Gxp).
  apply reify_scalar in Rxp. subst xp.
  unfold bind at 1. cbn [expect_str]. unfold ret at 1.
  unfold bind at 1. unfold ret at 1.
  destruct (getitem_tree _ st3 _ _ _ _ Rxa Gd) as (xd & Gxd & Rxd).
  rewrite (bind_ok _ _ _ _ _ Gxd).
  destruct (getitem_tree _ st3 _ _ _ _ Rxd Gh) as (xh & Gxh & Rxh).
  rewrite (bind_ok _ _ _ _ _ Gxh).
  apply reify_scalar in Rxh. subst xh.
  rewrite (bind_ok _ _ _ _ _ Gxd).
  destruct (getitem_tree _ st3 _ _ _ _ Rxd Gpo) as (xo & Gxo & Rxo).
  rewrite (bind_ok _ _ _ _ _ Gxo).
  rewrite (bind_ok _ _ _ _ _ (py_int_tree _ _ _ _ _ Rxo Ji)).
  rewrite (bind_ok _ _ _ _ _ Gxp).
  unfold bind at 1. cbn [py_replace_backslash]. unfold ret at 1.
  unfold bind at 1. unfold get_state at 1.
  unfold bind at 1. unfold ret at 1. cbn [str_of_value].
  fold (attach_args_text P H p).
  unfold bind at 1. unfold dict_copy at 1.
  change (py_heap st3) with h1. rewrite Hl.
  set (st4 := set_heap (h1 ++ [ODict its]) st3).
  unfold bind at 1. unfold py_json_loads at 1. rewrite Ln.
  change (py_heap st4) with (h1 ++ [ODict its]). rewrite An.
  set (st5 := set_heap h3 st4).
  destruct (alloc_spec new _ _ _ An) as (e & E3 & _ & _).
  assert (Hc : h3 !! length h1 = Some (ODict its)).
  { rewrite E3. apply lookup_app_Some. now apply list_lookup_middle. }
  unfold bind at 1. unfold setitem at 1.
  change (py_heap st5) with h3. rewrite Hc.
  set (h4 := <[length h1 := ODict (dict_set (lit "arguments") vn its)]> h3).
  set (st6 := set_heap h4 st5).
  pose proof (reify_copy_set l h1 its items (lit "arguments") new vn h3 Hl R An) as Rc.
  cbv zeta in Rc. fold h4 in Rc.
  rewrite (bind_ok _ _ _ _ _ (py_json_dumps_ok st6 _ _ Rc)).
  subst st6 st5 st4 st3 st2. destruct st. run_done.
Qed.

(** ** Keeping an invariant *)

Section Invariants.

Variable I : state -> Prop.

Lemma inv_bind {A B} (c : M A) (k : A -> M B) :
  inv I c -> (forall a, inv I (k a)) -> inv I (bind c k).
Proof.
  intros Hc Hk st Hi. unfold bind. specialize (Hc st Hi).
  destruct (c st); simpl in *; [now apply Hk|assumption].
Qed.

Lemma inv_try_except {A} (c : M A) (h : exn -> M A) :
  inv I c -> (forall e, inv I (h e)) -> inv I (try_except c h).
Proof.
  intros Hc Hh st Hi. unfold try_except. specialize (Hc st Hi).
  destruct (c st); simpl in *; [assumption|now apply Hh].
Qed.

Lemma inv_ret {A} (a : A) : inv I (ret a).
Proof. intros st Hi. exact Hi. Qed.

Lemma inv_raise {A} e : inv I (raise e : M A).
Proof. intros st Hi. exact Hi. Qed.

Lemma inv_get_state : inv I get_state.
Proof. intros st Hi. exact Hi. Qed.

Lemma inv_lift_option {A} e (o : option A) : inv I (lift_option e o).
Proof. destruct o; [apply inv_ret|apply inv_raise]. Qed.

Lemma inv_getitem v k : inv I (getitem v k).
Proof.
  intros st Hi. unfold getitem.
  destruct v; try exact Hi. destruct (py_heap st !! l) as [[?|its]|]; try exact Hi.
  destruct (dict_get k its); exact Hi.
Qed.

Lemma inv_dict_get_default v k d : inv I (dict_get_default v k d).
Proof.
  intros st Hi. unfold dict_get_default.
  destruct v; try exact Hi. destruct (py_heap st !! l) as [[?|its]|]; exact Hi.
Qed.

Lemma inv_py_int v : inv I (py_int v).
Proof.
  destruct v; simpl; try destruct (int_of_float f);
    auto using inv_ret, inv_raise, inv_lift_option.
Qed.

Lemma inv_expect_str v : inv I (expect_str v).
Proof. destruct v; simpl; auto using inv_ret, inv_raise. Qed.

Lemma inv_py_replace_backslash k v : inv I (py_replace_backslash k v).
Proof. destruct v; simpl; auto using inv_ret, inv_raise. Qed.

Lemma inv_py_encode s : inv I (py_encode s).
Proof. apply inv_lift_option. Qed.

Lemma inv_py_json_dumps v : inv I (py_json_dumps v).
Proof. intros st Hi. unfold py_json_dumps. destruct (reify _ _ _); exact Hi. Qed.

Lemma inv_emit e : emit_ok I e -> inv I (emit e).
Proof. intros He st Hi. now apply He. Qed.

Hypothesis I_stable : stable I.
Set Default Proof Using "Type I_stable".

Lemma inv_py_json_loads text : inv I (py_json_loads text).
Proof.
  intros st Hi. unfold py_json_loads. destruct (json_loads text); [|exact Hi].
  destruct (alloc _ _). now apply stable_heap.
Qed.

Lemma inv_dict_copy v : inv I (dict_copy v).
Proof.
  intros st Hi. unfold dict_copy.
  destruct v; try exact Hi. destruct (py_heap st !! l) as [[?|its]|]; try exact Hi.
  now apply stable_heap.
Qed.

Lemma inv_setitem v k x : inv I (setitem v k x).
Proof.
  intros st Hi. unfold setitem.
  destruct v; try exact Hi. destruct (py_heap st !! l) as [[?|its]|]; try exact Hi.
  now apply stable_heap.
Qed.

Lemma inv_queue_put x : inv I (queue_put x).
Proof. intros st Hi. unfold queue_put, modify, final. now apply stable_queue. Qed.

Lemma inv_set_queue x : inv I (modify (set_queue x)).
Proof. intros st Hi. unfold modify, final. now apply stable_queue. Qed.

Lemma inv_set_run_code x : inv I (modify (set_run_code x)).
Proof. intros st Hi. unfold modify, final. now apply stable_run_code. Qed.

Lemma inv_set_socket x : inv I (modify (set_socket x)).
Proof. intros st Hi. unfold modify, final. now apply stable_socket. Qed.

Lemma inv_set_engine_writes x : inv I (modify (set_engine_writes x)).
Proof. intros st Hi. unfold modify, final. now apply stable_engine_writes. Qed.

Lemma inv_set_engine_in x : inv I (modify (set_engine_in x)).
Proof. intros st Hi. unfold modify, final. now apply stable_engine_in. Qed.

End Invariants.

Set Default Proof Using "Type".

(** Takes a computation apart and keeps the invariant through it. *)
Ltac inv_step :=
  first
    [ assumption
    | apply inv_ret | apply inv_raise | apply inv_get_state
    | apply inv_lift_option | apply inv_getitem | apply inv_dict_get_default
    | apply inv_py_int | apply inv_expect_str | apply inv_py_replace_backslash
    | apply inv_py_encode | apply inv_py_json_dumps
    | apply inv_py_json_loads; assumption
    | apply inv_dict_copy; assumption
    | apply inv_setitem; assumption
    | apply inv_queue_put; assumption
    | apply inv_set_queue; assumption
    | apply inv_set_run_code; assumption
    | apply inv_set_socket; assumption
    | apply inv_set_engine_writes; assumption
    | apply inv_set_engine_in; assumption
    | apply inv_emit; solve [auto]
    | apply inv_bind; [|intros ?]
    | apply inv_try_except; [|intros ?]
    | match goal with
      | |- inv _ (if ?b then _ else _) => destruct b
      | |- inv _ (match ?x with _ => _ end) => destruct x
      end ].

Ltac inv_auto :=
  unfold log, interface_send, run_in_new_thread; repeat inv_step.

Section InvariantsOfTheRelay.

Variable I : state -> Prop.
Hypothesis I_stable : stable I.
Set Default Proof Using "Type I_stable".

(** The handler of the debugger's messages keeps a property that the
    events it produces and a new answered sequence number cannot break. *)
Lemma inv_on_receive_from_debugger message :
  (forall parts, emit_ok I (ELog parts)) ->
  (forall text, emit_ok I (ESendDebugger text)) ->
  (forall v, emit_ok I (ESpawn (TAttachToMaya v) None)) ->
  (forall v, answer_ok I v) ->
  inv I (on_receive_from_debugger message).
Proof.
  intros Hlog Hsend Hspawn Hans. unfold on_receive_from_debugger. inv_auto.
  intros st Hi. now apply Hans.
Qed.

Hypothesis I_events : forall e, emit_ok I e.
Set Default Proof Using "Type I_stable I_events".

Lemma inv_send_code_to_maya code : inv I (send_code_to_maya code).
Proof. unfold send_code_to_maya. inv_auto. Qed.

Lemma inv_attach_to_maya contents : inv I (attach_to_maya contents).
Proof.
  unfold attach_to_maya, maya_connect. inv_auto.
Qed.

Lemma inv_on_receive_from_debugpy message : inv I (on_receive_from_debugpy message).
Proof. unfold on_receive_from_debugpy. inv_auto. Qed.

Lemma inv_receive_loop turns : inv I (receive_loop turns).
Proof.
  induction turns as [|turns IH]; cbn [receive_loop]; [apply inv_ret|].
  unfold receive_failed. inv_auto; try apply inv_on_receive_from_debugpy.
Qed.

Lemma inv_start_debugging host port turns : inv I (start_debugging host port turns).
Proof. unfold start_debugging. inv_auto; try apply inv_receive_loop. Qed.

Lemma inv_send_loop_on queue : inv I (send_loop_on queue).
Proof.
  induction queue as [|item queue IH]; cbn [send_loop_on]; [apply inv_ret|].
  unfold engine_send. inv_auto.
Qed.

Lemma inv_debugpy_send_loop : inv I debugpy_send_loop.
Proof. unfold debugpy_send_loop. inv_auto; try apply inv_send_loop_on. Qed.

End InvariantsOfTheRelay.

Set Default Proof Using "Type".

(** ** The frame, there and back *)

(** C1 (amended): a message without carriage returns that
    [debugpy_send_loop] frames comes out of the decoder of
    [start_debugging] as it went in, however the transport cuts it up,
    provided it is not empty; the frame of the empty message is read as
    "no message".  For a message of ASCII characters the length written
    into the header is the number of bytes of the encoded message.  (The
    reader on the socket is taken to decode the bytes as they were
    encoded and to apply universal newlines, the default of
    [socket.makefile()].) *)
Theorem framing_roundtrip (B rest : pystr) (e : bool) (cp : list nat) :
  header_token_ok CONTENT_HEADER = true ->
  cr_free B = true ->
  (B <> [] ->
   exists cp',
     read_frame (Stream (universal_newlines (framed B) ++ rest) e cp)
     = FrameMessage B (Stream rest e cp'))
  /\ (B = [] ->
      read_frame (Stream (universal_newlines (framed B) ++ rest) e cp)
      = FrameNone (Stream rest e cp))
  /\ (is_ascii B ->
      exists bs, utf8_encode B = Some bs
        /\ frame_header B
           = CONTENT_HEADER ++ str_of_nat (length bs) ++ [CR; LF; CR; LF]).
Proof.
  intros Hok HB.
  assert (Hd : forall n tail cl0,
             read_headers (S (length (CONTENT_HEADER ++ str_of_nat n ++ LF :: LF :: tail))) cl0
               (Stream (CONTENT_HEADER ++ str_of_nat n ++ LF :: LF :: tail) e cp)
             = HeadersEnd (Z.of_nat n) (Stream tail e cp)).
  { intros n tail cl0.
    assert (exists f, length (CONTENT_HEADER ++ str_of_nat n ++ LF :: LF :: tail) = S f)
      as [f ->].
    { rewrite !length_app. simpl. eexists. rewrite Nat.add_succ_r.
      rewrite Nat.add_succ_r. reflexivity. }
    now apply read_headers_frame. }
  assert (Ht : universal_newlines (framed B) ++ rest
               = CONTENT_HEADER ++ str_of_nat (length B) ++ LF :: LF :: B ++ rest).
  { rewrite universal_newlines_framed by assumption.
    rewrite <- !app_assoc. reflexivity. }
  split; [|split].
  - intros Hne. rewrite Ht. unfold read_frame. cbn [buf]. rewrite Hd.
    assert (Hpos : (Z.of_nat (length B) >? 0)%Z = true).
    { apply Z.gtb_lt. destruct B; [congruence|simpl; lia]. }
    rewrite Hpos, Nat2Z.id.
    destruct (read_body_exact (length B) B [] rest e cp (Nat.le_refl _)) as [cp' E].
    rewrite E. exists cp'. reflexivity.
  - intros ->. rewrite Ht. unfold read_frame. cbn [buf]. rewrite Hd. reflexivity.
  - intros Ha. destruct (utf8_ascii B Ha) as (bs & E & L).
    exists bs. split; [exact E|]. unfold frame_header. now rewrite L.
Qed.

(** ** The receiving loop at the end of the stream *)

Lemma set_engine_in_twice s st :
  set_engine_in s (set_engine_in s st) = set_engine_in s st.
Proof. reflexivity. Qed.

(** C8, at the end of the stream: once debugpy has closed the connection
    and nothing is left to read, a turn of the decoder finds "no message"
    and no error, but the receiving loop does not wait: [readline()]
    returns the empty string at once, and after any number of turns the
    loop is at the start of another one, with the state, the trace and
    the socket as they were.  It neither blocks nor leaves. *)
Theorem receive_loop_spins_at_end_of_stream :
  (forall cp, read_frame (Stream [] true cp) = FrameNone (Stream [] true cp))
  /\ (forall cp, read_frame (Stream [] false cp) = FrameBlocked)
  /\ forall turns cp st,
       receive_loop turns (set_engine_in (Stream [] true cp) st)
       = Ok Running (set_engine_in (Stream [] true cp) st).
Proof.
  split; [reflexivity|]. split; [reflexivity|].
  induction turns as [|turns IH]; intros cp st; [reflexivity|].
  cbn [receive_loop]. unfold bind at 1. unfold get_state at 1.
  cbn [engine_in set_engine_in].
  change (read_frame (Stream [] true cp)) with (FrameNone (Stream [] true cp)).
  cbv iota. unfold bind at 1. unfold modify at 1.
  rewrite set_engine_in_twice. apply IH.
Qed.

Lemma dict_get_set_other {V} k k' (v : V) items :
  k' <> k -> dict_get k' (dict_set k v items) = dict_get k' items.
Proof.
  intros Hne. induction items as [|[k1 v1] items IH]; simpl.
  - destruct (PyStr.eqb k k') eqn:E; [|reflexivity].
    apply eqb_eq in E. congruence.
  - destruct (PyStr.eqb k1 k) eqn:E; simpl.
    + apply eqb_eq in E. subst k1.
      destruct (PyStr.eqb k k') eqn:E'; [|reflexivity].
      apply eqb_eq in E'. congruence.
    + now rewrite IH.
Qed.

(** On a text without double quotes and control characters, doubling the
    backslashes is the JSON escape. *)
Lemma replace_backslash_json_escape s :
  json_plain s = true -> replace_backslash 2 s = json_escape s.
Proof.
  unfold replace_backslash, json_escape.
  induction s as [|c s IH]; [reflexivity|]. cbn [json_plain forallb].
  intros H. apply andb_true_iff in H. destruct H as [Hc Hs].
  apply andb_true_iff in Hc. destruct Hc as [Hq Hl].
  rewrite !bind_cons, (IH Hs). f_equal.
  destruct (c =? BACKSLASH); [reflexivity|].
  apply negb_true_iff in Hq. rewrite Hq.
  apply N.leb_le in Hl. destruct (N.ltb_spec c 32); [lia|reflexivity].
Qed.


(** C10: the handler rebinds ['arguments'] in a copy.  The dict parsed
    from the attach request, which the attach thread was given, and every
    object that was on the heap when that thread was started are in the
    final heap as they were, so that dict still stands for the message as
    the debugger sent it and its ['arguments'] for the original arguments
    (Maya's address, debugpy's address, the program). *)
Theorem attach_rewrite_leaves_original message items config dbg jport P H p new st :
  json_loads message = Some (JObj items) ->
  dict_get (lit "command") items = Some (JStr (lit "attach")) ->
  dict_get (lit "arguments") items = Some config ->
  jget config (lit "program") = Some (JStr P) ->
  jget config (lit "debugpy") = Some dbg ->
  jget dbg (lit "host") = Some (JStr H) ->
  jget dbg (lit "port") = Some jport ->
  json_int jport = Some p ->
  json_loads (ATTACH_ARGS_format (replace_backslash 2 (dirname P)) H p
                                 (replace_backslash 2 P)) = Some new ->
  exists st' contents h1,
    on_receive_from_debugger message st = Ok tt st'
    /\ alloc (JObj items) (py_heap st) = (contents, h1)
    /\ spawned (trace st') = spawned (trace st) ++ [TAttachToMaya contents]
    /\ (forall l o, h1 !! l = Some o -> py_heap st' !! l = Some o)
    /\ reify (length (py_heap st')) (py_heap st') contents = Some (JObj items)
    /\ exists arguments,
         getitem contents (lit "arguments") st' = Ok arguments st'
         /\ reify (length (py_heap st')) (py_heap st') arguments = Some config.
Proof.
  intros L Gc Ga Gp Gd Gh Gpo Ji Ln.
  destruct (on_receive_attach message items config dbg jport P H p new st
              L Gc Ga Gp Gd Gh Gpo Ji Ln) as (l & h1 & its & vn & h3 & A & Hl & An & E).
  eexists. exists (VRef l), h1. split; [exact E|]. split; [exact A|].
  destruct (alloc_spec new _ _ _ An) as (e & E3 & _ & _).
  destruct (alloc_reify _ _ _ _ A) as [_ R].
  destruct (alloc_spec _ _ _ _ A) as (e1 & E1 & Le1 & _).
  set (h4 := <[length h1 := ODict (dict_set (lit "arguments") vn its)]> h3).
  assert (Old : forall i o, h1 !! i = Some o -> h4 !! i = Some o).
  { intros i o Hi. pose proof (lookup_lt_Some _ _ _ Hi). unfold h4.
    rewrite list_lookup_insert_ne by lia. rewrite E3.
    now apply lookup_app_Some, lookup_app_Some. }
  assert (Len : (nodes (JObj items) <= length h4)%nat).
  { unfold h4. rewrite length_insert, E3, E1, !length_app. lia. }
  assert (R4 : reify (length h4) h4 (VRef l) = Some (JObj items))
    by (apply R; assumption).
  split.
  { destruct st. cbn [trace set_queue set_trace set_heap]. unfold spawned.
    rewrite omap_app. reflexivity. }
  split; [destruct st; exact Old|].
  split; [destruct st; exact R4|].
  destruct st. cbn [py_heap set_queue set_trace set_heap].
  match goal with |- context [getitem _ _ ?s] => set (st' := s) end.
  change h4 with (py_heap st') in R4.
  destruct (getitem_tree _ st' _ _ (lit "arguments") config R4 Ga) as (x & Gx & Rx).
  exists x. split; assumption.
Qed.

(** ** When Maya's command port cannot be reached *)

Lemma inv_bind_raises (I : state -> Prop) {A B} (c : M A) (k : A -> M B) :
  (forall st, I st -> exists e st', c st = Raise e st' /\ I st') ->
  inv I (bind c k).
Proof.
  intros Hc st Hi. destruct (Hc st Hi) as (e & st' & E & Hi').
  unfold bind. now rewrite E.
Qed.

Lemma engine_untouched_stable : stable engine_untouched.
Proof. split; intros x [] H; exact H. Qed.

Lemma engine_untouched_emit e : quiet e = true -> emit_ok engine_untouched e.
Proof.
  intros Q [] [Hm Ht]. split; [exact Hm|]. cbn [trace set_trace] in *.
  rewrite forallb_app, Ht. simpl. now rewrite Q.
Qed.

Lemma engine_untouched_answer v : answer_ok engine_untouched v.
Proof. intros [] H. exact H. Qed.

Lemma engine_untouched_on_receive_from_debugger message :
  inv engine_untouched (on_receive_from_debugger message).
Proof.
  apply inv_on_receive_from_debugger.
  - apply engine_untouched_stable.
  - intros. now apply engine_untouched_emit.
  - intros. now apply engine_untouched_emit.
  - intros. now apply engine_untouched_emit.
  - apply engine_untouched_answer.
Qed.

(** The [try] around the connection always ends in the [except] branch
    when Maya refuses, and that branch raises. *)
Lemma connect_refused host port st :
  engine_untouched st ->
  exists e,
    try_except
      (emit (EMayaSetTimeout 3) ;;; maya_connect host port)
      (fun _ =>
         run_in_new_thread (TExit 0) (Some 1%Z) ;;;
         st <- get_state ;;
         raise (Exception (remediation (str_of_value (py_heap st) host) port))) st
    = Raise e
        (set_trace (trace st ++ [EMayaSetTimeout 3; EMayaConnect host port;
                                 ESpawn (TExit 0) (Some 1%Z)]) st)
    /\ e = Exception (remediation (str_of_value (py_heap st) host) port).
Proof.
  intros [Hm Ht]. destruct st. cbn [maya_accepts] in Hm. subst.
  eexists. split; [|reflexivity].
  unfold maya_connect. destruct host; run_done.
Qed.

Lemma engine_untouched_attach_to_maya contents :
  inv engine_untouched (attach_to_maya contents).
Proof.
  pose proof engine_untouched_stable as S.
  assert (L : forall parts, emit_ok engine_untouched (ELog parts))
    by (intros; now apply engine_untouched_emit).
  unfold attach_to_maya.
  repeat match goal with
         | |- inv _ (bind (try_except _ _) _) => fail 1
         | |- inv _ (bind _ _) => apply inv_bind; [solve [inv_auto]|intros ?]
         end.
  apply inv_bind_raises. intros st Hi.
  match goal with
  | |- context [maya_connect ?h ?p] =>
      destruct (connect_refused h p st Hi) as (e & E & _)
  end.
  exists e. eexists. split; [exact E|].
  destruct Hi as [Hm Ht]. destruct st. split; [exact Hm|].
  cbn [trace set_trace] in *. rewrite forallb_app, Ht. reflexivity.
Qed.

(** Nothing that can happen afterwards connects to debugpy. *)
Lemma engine_untouched_reachable accepted st0 st :
  engine_untouched st0 -> reachable accepted st0 st -> engine_untouched st.
Proof.
  intros H0 R. induction R as [|st st' _ IH Hstep]; [exact H0|].
  destruct Hstep as [message st _|contents delay st _|host port delay turns st Hin|delay st Hin].
  - now apply engine_untouched_on_receive_from_debugger.
  - now apply engine_untouched_attach_to_maya.
  - exfalso. destruct IH as [_ Ht]. rewrite forallb_forall in Ht.
    specialize (Ht _ Hin). discriminate.
  - exfalso. destruct IH as [_ Ht]. rewrite forallb_forall in Ht.
    specialize (Ht _ Hin). discriminate.
Qed.

Lemma quiet_no_connects tr : forallb quiet tr = true -> engine_connects tr = [].
Proof.
  induction tr as [|e tr IH]; [reflexivity|]. simpl. intros H.
  apply andb_true_iff in H. destruct H as [He Ht].
  unfold engine_connects in *. simpl. destruct e; try discriminate; now apply IH.
Qed.

(** Maya's command port refuses connections, nothing has connected to
    debugpy, and the event [e] has happened. *)
Lemma engine_untouched_keeps e accepted st0 st :
  engine_untouched st0 -> In e (trace st0) ->
  reachable accepted st0 st ->
  engine_untouched st /\ In e (trace st).
Proof.
  intros U0 I0 R.
  set (J := fun st => engine_untouched st /\ In e (trace st)).
  assert (JS : stable J).
  { split; intros x [] H; exact H. }
  assert (JE : forall e', quiet e' = true -> emit_ok J e').
  { intros e' Q st1 [U Hin]. split; [now apply engine_untouched_emit|].
    destruct st1. cbn [trace set_trace] in *. apply in_or_app. now left. }
  assert (JA : forall v, answer_ok J v) by (intros v [] H; exact H).
  change (J st). induction R as [|st st' _ IH Hstep]; [split; assumption|].
  destruct Hstep as [message st _|contents delay st _|host port delay turns st Hin
                    |delay st Hin].
  - apply inv_on_receive_from_debugger; auto.
  - revert IH. generalize st. change (inv J (attach_to_maya contents)).
    assert (L : forall parts, emit_ok J (ELog parts)) by (intros; now apply JE).
    unfold attach_to_maya.
    repeat match goal with
           | |- inv _ (bind (try_except _ _) _) => fail 1
           | |- inv _ (bind _ _) => apply inv_bind; [solve [inv_auto]|intros ?]
           end.
    apply inv_bind_raises. intros st1 [U Hin].
    match goal with
    | |- context [maya_connect ?h ?p] =>
        destruct (connect_refused h p st1 U) as (e1 & E & _)
    end.
    exists e1. eexists. split; [exact E|].
    split.
    + destruct U as [Hm Ht]. destruct st1. split; [exact Hm|].
      cbn [trace set_trace] in *. rewrite forallb_app, Ht. reflexivity.
    + destruct st1. cbn [trace set_trace] in *. apply in_or_app. now left.
  - exfalso. destruct IH as [[_ Ht] _]. rewrite forallb_forall in Ht.
    specialize (Ht _ Hin). discriminate.
  - exfalso. destruct IH as [[_ Ht] _]. rewrite forallb_forall in Ht.
    specialize (Ht _ Hin). discriminate.
Qed.

(** What the process reaches, it reaches by steps of its activities; the
    end of the process leaves the state as it is. *)
Lemma process_reaches_reachable accepted st0 l :
  process_reaches accepted (Alive st0) l ->
  reachable accepted st0 (life_state l).
Proof.
  intros R. induction R as [|l l' _ IH Hstep]; [apply reachable_start|].
  destruct Hstep as [st st' Hs|code delay st Hin]; cbn [life_state] in *.
  - now apply reachable_step with st.
  - exact IH.
Qed.

(** The text of the exception: the advice, and the [commandPort] command
    for the address that refused. *)
Lemma remediation_text host port :
  exists lead gap trail,
    remediation host port
    = lead ++ lit "Please run the following command in Maya and try again:"
      ++ gap ++ quoted "cmds.commandPort(name='" ++ host ++ lit ":" ++ str_of_Z port
      ++ quoted "', sourceType='mel')" ++ trail
    /\ blank lead = true /\ blank gap = true /\ blank trail = true.
Proof.
  exists ([LF] ++ replicate 12 32 ++ [LF] ++ replicate 12 32 ++ [LF]
          ++ replicate 12 32 ++ [LF] ++ replicate 16 32),
         ([LF] ++ replicate 16 32), ([LF] ++ replicate 12 32).
  split; [|repeat split; vm_compute; reflexivity].
  unfold remediation. generalize (str_of_Z port). intros digits.
  vm_compute. reflexivity.
Qed.


(** ** The send loop *)

Lemma engine_send_ok data st :
  debugpy_socket st = true ->
  match engine_writes st with false :: _ => False | _ => True end ->
  engine_send data st
  = Ok tt (set_trace (trace st ++ [EEngineSend data])
             (set_engine_writes (tail (engine_writes st)) st)).
Proof.
  intros Hs Hw. destruct st. cbn [debugpy_socket engine_writes] in *. subst.
  unfold engine_send. destruct engine_writes0 as [|[] ?]; try contradiction; run_done.
Qed.

Lemma engine_send_fail data st rest :
  debugpy_socket st = true ->
  engine_writes st = false :: rest ->
  engine_send data st = Raise OSError (set_engine_writes rest st).
Proof.
  intros Hs Hw. destruct st. cbn [debugpy_socket engine_writes] in *. subst.
  unfold engine_send. run_done.
Qed.

Lemma to_engine_app a b : to_engine (a ++ b) = to_engine a ++ to_engine b.
Proof. apply omap_app. Qed.

Lemma wire_length msgs sends :
  wire msgs = Some sends -> length sends = (2 * length msgs)%nat.
Proof.
  revert sends. induction msgs as [|m ms IH]; simpl; intros sends H.
  - now inversion H.
  - unfold frame_bytes in H.
    destruct (utf8_encode (frame_header m)); [|discriminate].
    destruct (utf8_encode m); [|discriminate].
    destruct (wire ms) as [w|]; [|discriminate].
    inversion H; subst. simpl. rewrite (IH w eq_refl). lia.
Qed.

(** One turn of the send loop: both writes go through. *)
Lemma send_turn_ok msg queue header body st :
  debugpy_socket st = true ->
  utf8_encode (frame_header msg) = Some header ->
  utf8_encode msg = Some body ->
  ok_writes 2 (engine_writes st) = 2%nat ->
  send_loop_on (Some msg :: queue) st
  = send_loop_on queue
      (set_trace (trace st ++ [EEngineSend header; EEngineSend body;
                               ELog [lit "Sent to debugpy:"; msg]])
         (set_engine_writes (drop 2 (engine_writes st)) (set_queue queue st))).
Proof.
  intros Hs Hh Hb Hw. cbn [send_loop_on]. unfold py_encode, lift_option.
  rewrite Hh, Hb. unfold engine_send.
  destruct st. cbn [debugpy_socket engine_writes] in *. subst.
  destruct engine_writes0 as [|[] [|[] ?]]; try discriminate;
    cbn [tail drop]; run_done; cbn [tail drop]; run_done.
Qed.

(** One turn of the send loop: the write of the header fails. *)
Lemma send_turn_header_fails msg queue header st rest :
  debugpy_socket st = true ->
  utf8_encode (frame_header msg) = Some header ->
  engine_writes st = false :: rest ->
  send_loop_on (Some msg :: queue) st
  = Ok Returned
      (set_trace (trace st ++ [ELog [lit "Debug socket closed."]])
         (set_engine_writes rest (set_queue queue st))).
Proof.
  intros Hs Hh Hw. cbn [send_loop_on]. unfold py_encode, lift_option.
  rewrite Hh. unfold engine_send.
  destruct st. cbn [debugpy_socket engine_writes] in *. subst. run_done.
Qed.

(** One turn of the send loop: the header is written, the write of the
    message fails. *)
Lemma send_turn_body_fails msg queue header body st rest :
  debugpy_socket st = true ->
  utf8_encode (frame_header msg) = Some header ->
  utf8_encode msg = Some body ->
  engine_writes st = true :: false :: rest ->
  send_loop_on (Some msg :: queue) st
  = Ok Returned
      (set_trace (trace st ++ [EEngineSend header; ELog [lit "Debug socket closed."]])
         (set_engine_writes rest (set_queue queue st))).
Proof.
  intros Hs Hh Hb Hw. cbn [send_loop_on]. unfold py_encode, lift_option.
  rewrite Hh, Hb. unfold engine_send.
  destruct st. cbn [debugpy_socket engine_writes] in *. subst.
  cbn [tail drop]; run_done; cbn [tail drop]; run_done.
Qed.

Lemma ok_writes_two n outcomes :
  ok_writes 2 outcomes = 2%nat ->
  ok_writes (S (S n)) outcomes = S (S (ok_writes n (drop 2 outcomes))).
Proof.
  destruct outcomes as [|[] [|[] ?]]; simpl; try discriminate; intros _;
    try reflexivity; destruct n; reflexivity.
Qed.

Lemma ok_writes_cases outcomes :
  (exists rest, outcomes = false :: rest)
  \/ (exists rest, outcomes = true :: false :: rest)
  \/ ok_writes 2 outcomes = 2%nat.
Proof. destruct outcomes as [|[] [|[] ?]]; simpl; eauto. Qed.

Lemma half_step k : (S (S k) / 2 = S (k / 2))%nat.
Proof. change (S (S k)) with (1 * 2 + k)%nat. now rewrite Nat.div_add_l. Qed.

Lemma send_loop_on_spec msgs : forall rest sends st,
  debugpy_send_queue st = (Some <$> msgs) ++ rest ->
  (rest = [] \/ exists r, rest = None :: r) ->
  wire msgs = Some sends ->
  debugpy_socket st = true ->
  exists status st',
    send_loop_on ((Some <$> msgs) ++ rest) st = Ok status st'
    /\ to_engine (trace st')
       = to_engine (trace st)
         ++ take (ok_writes (length sends) (engine_writes st)) sends
    /\ (status = Returned
        <-> (ok_writes (length sends) (engine_writes st) < length sends)%nat
            \/ rest <> [])
    /\ ((ok_writes (length sends) (engine_writes st) < length sends)%nat ->
        last (trace st') = Some (ELog [lit "Debug socket closed."])
        /\ debugpy_send_queue st'
           = drop (S (ok_writes (length sends) (engine_writes st) / 2))
                  ((Some <$> msgs) ++ rest))
    /\ (ok_writes (length sends) (engine_writes st) = length sends ->
        debugpy_send_queue st' = tail rest).
Proof.
  induction msgs as [|m ms IH]; intros rest sends st Hq Hrest Hwire Hs.
  - simpl in Hwire. inversion Hwire; subst sends. cbn [fmap list_fmap app length ok_writes take].
    rewrite app_nil_r. destruct Hrest as [->|[r ->]].
    + exists WaitingOnQueue, st. cbn [send_loop_on]. split; [reflexivity|].
      split; [reflexivity|]. split.
      { split; [discriminate|]. intros [H|H]; [lia|congruence]. }
      split; [lia|]. intros _. exact Hq.
    + exists Returned. eexists. cbn [send_loop_on]. split; [run_done|].
      destruct st. cbn [trace debugpy_send_queue set_queue tail].
      split; [reflexivity|]. split; [|split; [lia|reflexivity]].
      split; [intros _; right; discriminate|reflexivity].
  - simpl in Hwire. unfold frame_bytes in Hwire.
    destruct (utf8_encode (frame_header m)) as [h|] eqn:Hh; [|discriminate].
    destruct (utf8_encode m) as [b|] eqn:Hb; [|discriminate].
    destruct (wire ms) as [w|] eqn:Hw; [|discriminate].
    inversion Hwire; subst sends. clear Hwire.
    cbn [fmap list_fmap app length].
    change (list_fmap pystr (option pystr) Some ms) with (Some <$> ms).
    destruct (ok_writes_cases (engine_writes st)) as [[wr Ew]|[[wr Ew]|Ew]].
    + rewrite (send_turn_header_fails m _ h st wr Hs Hh Ew). rewrite Ew.
      exists Returned. eexists. split; [reflexivity|].
      destruct st. cbn [trace debugpy_send_queue set_queue set_engine_writes set_trace
                         ok_writes take Nat.div drop].
      rewrite to_engine_app. cbn. rewrite !app_nil_r.
      split; [reflexivity|]. split; [split; [intros _; left; lia|reflexivity]|].
      split; [|lia]. intros _. split; [apply last_snoc|reflexivity].
    + rewrite (send_turn_body_fails m _ h b st wr Hs Hh Hb Ew). rewrite Ew.
      exists Returned. eexists. split; [reflexivity|].
      destruct st. cbn [trace debugpy_send_queue set_queue set_engine_writes set_trace
                         ok_writes take drop].
      rewrite to_engine_app. cbn [to_engine omap list_omap app].
      split; [reflexivity|]. split; [split; [intros _; left; lia|reflexivity]|].
      split; [|lia]. intros _. split; [|reflexivity].
      change [EEngineSend h; ELog [lit "Debug socket closed."]]
        with ([EEngineSend h] ++ [ELog [lit "Debug socket closed."]]).
      rewrite app_assoc. apply last_snoc.
    + rewrite (send_turn_ok m _ h b st Hs Hh Hb Ew).
      rewrite (ok_writes_two (length w) _ Ew).
      match goal with |- context [send_loop_on _ ?s] => set (st2 := s) end.
      assert (Q2 : debugpy_send_queue st2 = (Some <$> ms) ++ rest)
        by (subst st2; destruct st; reflexivity).
      assert (S2 : debugpy_socket st2 = true)
        by (subst st2; destruct st; exact Hs).
      destruct (IH rest w st2 Q2 Hrest eq_refl S2)
        as (status & st' & E & Te & Ist & Fail & Done).
      assert (W2 : engine_writes st2 = drop 2 (engine_writes st))
        by (subst st2; destruct st; reflexivity).
      assert (T2 : to_engine (trace st2) = to_engine (trace st) ++ [h; b]).
      { subst st2. destruct st. cbn [trace set_trace set_engine_writes set_queue].
        rewrite to_engine_app. reflexivity. }
      rewrite W2 in *. rewrite T2 in Te.
      exists status, st'. split; [exact E|].
      split. { rewrite Te, <- app_assoc. reflexivity. }
      split. { rewrite Ist. split; intros [H|H]; auto; left; lia. }
      split.
      * intros Hlt. destruct Fail as [Fl Fq]; [lia|]. split; [exact Fl|].
        rewrite half_step. exact Fq.
      * intros Heq. apply Done. lia.
Qed.

(** Every queue is a run of messages that can be written, followed by
    what ends the run. *)
Lemma queue_run (queue : list (option pystr)) :
  exists msgs rest sends,
    queue = (Some <$> msgs) ++ rest /\ wire msgs = Some sends /\ run_ends rest = true.
Proof.
  induction queue as [|[m|] q (msgs & rest & sends & -> & W & R)].
  - exists [], [], []. auto.
  - destruct (frame_bytes m) as [f|] eqn:Ef.
    + exists (m :: msgs), rest, (f ++ sends). cbn [fmap list_fmap app wire].
      rewrite Ef, W. auto.
    + exists [], (Some m :: (Some <$> msgs) ++ rest), []. cbn [run_ends].
      rewrite Ef. auto.
  - exists [], (None :: (Some <$> msgs) ++ rest), []. auto.
Qed.

(** The send loop on a run of messages that can be written and what
    ends the run. *)
Lemma send_loop_on_outcome msgs : forall rest sends st,
  debugpy_send_queue st = (Some <$> msgs) ++ rest ->
  wire msgs = Some sends ->
  run_ends rest = true ->
  debugpy_socket st = true ->
  exists st',
    to_engine (trace st')
    = to_engine (trace st)
      ++ take (ok_writes (length (sends ++ pending_header rest)) (engine_writes st))
              (sends ++ pending_header rest)
    /\ if (ok_writes (length (sends ++ pending_header rest)) (engine_writes st)
           <? length (sends ++ pending_header rest))%nat
       then send_loop_on ((Some <$> msgs) ++ rest) st = Ok Returned st'
            /\ last (trace st') = Some (ELog [lit "Debug socket closed."])
            /\ debugpy_send_queue st'
               = drop (S (ok_writes (length (sends ++ pending_header rest))
                            (engine_writes st) / 2))
                      ((Some <$> msgs) ++ rest)
       else match rest with
            | [] =>
                send_loop_on ((Some <$> msgs) ++ rest) st = Ok WaitingOnQueue st'
                /\ debugpy_send_queue st' = []
            | None :: r =>
                send_loop_on ((Some <$> msgs) ++ rest) st = Ok Returned st'
                /\ debugpy_send_queue st' = r
            | Some _ :: r =>
                send_loop_on ((Some <$> msgs) ++ rest) st = Raise UnicodeEncodeError st'
                /\ debugpy_send_queue st' = r
            end.
Proof.
  induction msgs as [|m ms IH]; intros rest sends st Hq Hwire Hrest Hs.
  - simpl in Hwire. inversion Hwire; subst sends.
    cbn [fmap list_fmap app] in *.
    destruct rest as [|[bad|] r].
    + exists st. cbn. rewrite app_nil_r. auto.
    + cbn [run_ends pending_header] in *. unfold frame_bytes in Hrest.
      destruct (utf8_encode (frame_header bad)) as [hb|] eqn:Hh.
      * destruct (utf8_encode bad) as [b|] eqn:Hb; [discriminate|].
        cbn [length ok_writes].
        destruct (engine_writes st) as [|[] wr] eqn:Ew.
        -- cbn [send_loop_on]. unfold py_encode, lift_option.
           rewrite Hh, Hb. unfold engine_send.
           destruct st. cbn [debugpy_socket engine_writes] in *. subst.
           cbn [tail]. run_done. eexists. cbn [Nat.ltb Nat.leb take].
           split; cycle 1. { split; reflexivity. }
           cbn [trace]. now rewrite to_engine_app.
        -- cbn [send_loop_on]. unfold py_encode, lift_option.
           rewrite Hh, Hb. unfold engine_send.
           destruct st. cbn [debugpy_socket engine_writes] in *. subst.
           cbn [tail]. run_done. eexists. cbn [Nat.ltb Nat.leb take].
           split; cycle 1. { split; reflexivity. }
           cbn [trace]. now rewrite to_engine_app.
        -- rewrite (send_turn_header_fails bad r hb st wr Hs Hh Ew).
           eexists. cbn [Nat.ltb Nat.leb take Nat.div Nat.divmod fst drop].
           rewrite app_nil_r. split; cycle 1.
           { split; [reflexivity|]. destruct st. split; [apply last_snoc|reflexivity]. }
           destruct st. cbn [trace set_queue set_engine_writes set_trace].
           rewrite to_engine_app. cbn. now rewrite app_nil_r.
      * cbn [length ok_writes Nat.ltb Nat.leb take]. rewrite app_nil_r.
        cbn [send_loop_on]. unfold py_encode, lift_option.
        rewrite Hh. destruct st. run_done. eexists.
        split; cycle 1. { split; reflexivity. }
        reflexivity.
    + exists (set_queue r st). cbn. rewrite app_nil_r.
      destruct st. split; [reflexivity|]. split; [run_done|reflexivity].
  - simpl in Hwire. unfold frame_bytes in Hwire.
    destruct (utf8_encode (frame_header m)) as [h|] eqn:Hh; [|discriminate].
    destruct (utf8_encode m) as [b|] eqn:Hb; [|discriminate].
    destruct (wire ms) as [w|] eqn:Hw; [|discriminate].
    inversion Hwire; subst sends. clear Hwire.
    cbn [fmap list_fmap app length].
    change (list_fmap pystr (option pystr) Some ms) with (Some <$> ms).
    set (ws := w ++ pending_header rest).
    destruct (ok_writes_cases (engine_writes st)) as [[wr Ew]|[[wr Ew]|Ew]].
    + rewrite (send_turn_header_fails m _ h st wr Hs Hh Ew). rewrite Ew.
      eexists. cbn [ok_writes Nat.ltb Nat.leb take Nat.div Nat.divmod fst drop].
      rewrite app_nil_r. split; cycle 1.
      { split; [reflexivity|]. destruct st. split; [apply last_snoc|reflexivity]. }
      destruct st. cbn [trace set_queue set_engine_writes set_trace].
      rewrite to_engine_app. cbn. now rewrite app_nil_r.
    + rewrite (send_turn_body_fails m _ h b st wr Hs Hh Hb Ew). rewrite Ew.
      eexists. cbn [ok_writes Nat.ltb Nat.leb take Nat.div Nat.divmod fst drop].
      split; cycle 1.
      { split; [reflexivity|]. destruct st.
        cbn [trace debugpy_send_queue set_queue set_engine_writes set_trace].
        split; [|reflexivity].
        change [EEngineSend h; ELog [lit "Debug socket closed."]]
          with ([EEngineSend h] ++ [ELog [lit "Debug socket closed."]]).
        rewrite app_assoc. apply last_snoc. }
      destruct st. cbn [trace set_queue set_engine_writes set_trace].
      rewrite to_engine_app. reflexivity.
    + rewrite (send_turn_ok m _ h b st Hs Hh Hb Ew).
      rewrite (ok_writes_two (length ws) _ Ew).
      match goal with |- context [send_loop_on _ ?s] => set (st2 := s) end.
      assert (Q2 : debugpy_send_queue st2 = (Some <$> ms) ++ rest)
        by (subst st2; destruct st; reflexivity).
      assert (S2 : debugpy_socket st2 = true)
        by (subst st2; destruct st; exact Hs).
      destruct (IH rest w st2 Q2 eq_refl Hrest S2) as (st' & Te & Out).
      assert (W2 : engine_writes st2 = drop 2 (engine_writes st))
        by (subst st2; destruct st; reflexivity).
      assert (T2 : to_engine (trace st2) = to_engine (trace st) ++ [h; b]).
      { subst st2. destruct st. cbn [trace set_trace set_engine_writes set_queue].
        rewrite to_engine_app. reflexivity. }
      fold ws in Te, Out. rewrite W2 in *. rewrite T2 in Te.
      exists st'. split. { rewrite Te, <- app_assoc. reflexivity. }
      change (S (S (ok_writes (length ws) (drop 2 (engine_writes st))))
              <? S (S (length ws)))%nat
        with (ok_writes (length ws) (drop 2 (engine_writes st)) <? length ws)%nat.
      destruct (ok_writes (length ws) (drop 2 (engine_writes st)) <? length ws)%nat.
      * destruct Out as (E & Fl & Fq). split; [exact E|]. split; [exact Fl|].
        rewrite half_step. exact Fq.
      * exact Out.
Qed.

(** C7 (amended): [debugpy_send_loop] on a connected socket.  The queue
    holds a run [msgs] of messages that have an encoding, followed by
    [rest]: nothing, the sentinel [None], or a message for which
    [bytes(..., 'UTF-8')] raises (every queue is of this form,
    [queue_run]).  The loop takes the messages off the queue in order and
    writes for each its header and then the message itself; [writes] are
    these writes, and the header of the message that has no encoding when
    the header has one.  The loop ends in three cases only.  A write
    fails: it logs "Debug socket closed." and returns; nothing more is
    written, and the message it had taken stays off the queue.  It takes
    the sentinel off the queue and returns.  It takes the message that
    has no encoding off the queue: [UnicodeEncodeError] leaves the loop,
    after the header of that message was written.  With none of these it
    waits on the empty queue.  What reached the socket is a prefix of
    [writes], in the order of the queue. *)
Theorem send_loop_fifo_until_sentinel_or_failure msgs rest sends st :
  debugpy_send_queue st = (Some <$> msgs) ++ rest ->
  wire msgs = Some sends ->
  run_ends rest = true ->
  debugpy_socket st = true ->
  exists st',
    to_engine (trace st')
    = to_engine (trace st)
      ++ take (ok_writes (length (sends ++ pending_header rest)) (engine_writes st))
              (sends ++ pending_header rest)
    /\ if (ok_writes (length (sends ++ pending_header rest)) (engine_writes st)
           <? length (sends ++ pending_header rest))%nat
       then debugpy_send_loop st = Ok Returned st'
            /\ last (trace st') = Some (ELog [lit "Debug socket closed."])
            /\ debugpy_send_queue st'
               = drop (S (ok_writes (length (sends ++ pending_header rest))
                            (engine_writes st) / 2))
                      (debugpy_send_queue st)
       else match rest with
            | [] =>
                debugpy_send_loop st = Ok WaitingOnQueue st'
                /\ debugpy_send_queue st' = []
            | None :: r =>
                debugpy_send_loop st = Ok Returned st'
                /\ debugpy_send_queue st' = r
            | Some _ :: r =>
                debugpy_send_loop st = Raise UnicodeEncodeError st'
                /\ debugpy_send_queue st' = r
            end.
Proof.
  intros Hq Hwire Hrest Hs.
  unfold debugpy_send_loop, bind, get_state. rewrite Hq.
  apply send_loop_on_outcome; assumption.
Qed.

(** ** The answered sequence numbers stay non-negative *)

Lemma inv2_bind (P Q : state -> Prop) {A B} (c : M A) (k : A -> M B) :
  inv P c -> (forall st, P st -> Q st) -> (forall a, inv2 P Q (k a)) ->
  inv2 P Q (bind c k).
Proof.
  intros Hc Hsub Hk st Hp. unfold bind. specialize (Hc st Hp).
  destruct (c st); simpl in *; [now apply Hk|now apply Hsub].
Qed.

Lemma inv2_bind_after (P Q : state -> Prop) {A B} (c : M A) (k : A -> M B) :
  inv2 P Q c -> (forall a, inv Q (k a)) -> inv2 P Q (bind c k).
Proof.
  intros Hc Hk st Hp. unfold bind. specialize (Hc st Hp).
  destruct (c st); simpl in *; [now apply Hk|assumption].
Qed.

Lemma answered_nonneg_stable : stable answered_nonneg.
Proof. split; intros x [] H; exact H. Qed.

Lemma answered_nonneg_emit e : emit_ok answered_nonneg e.
Proof. intros [] H. exact H. Qed.

Lemma getitem_final v k st : final (getitem v k st) = st.
Proof.
  unfold getitem. destruct v; try reflexivity.
  destruct (py_heap st !! l) as [[?|its]|]; try reflexivity.
  destruct (dict_get k its); reflexivity.
Qed.

Lemma getitem_ok_inv v k st x st' :
  getitem v k st = Ok x st' ->
  st' = st /\ exists l its, v = VRef l /\ py_heap st !! l = Some (ODict its)
                            /\ dict_get k its = Some x.
Proof.
  unfold getitem. destruct v; try discriminate.
  destruct (py_heap st !! l) as [[?|its]|] eqn:Hl; try discriminate.
  destruct (dict_get k its) eqn:D; [|discriminate].
  intros H. inversion H; subst. eauto 6.
Qed.

(** The entries of the dict parsed from a conformant initialize request:
    its [seq], if it has one, is a non-negative integer. *)
Lemma conformant_seq message c v h h0 l its :
  seq_conformant message = true ->
  json_loads message = Some c ->
  alloc c h0 = (v, h) ->
  v = VRef l -> h !! l = Some (ODict its) ->
  dict_get (lit "command") its = Some (VStr (lit "initialize")) ->
  forall x, dict_get (lit "seq") its = Some x -> nonneg_int x = true.
Proof.
  intros C L A -> Hl Dc x Dx.
  destruct (alloc_reify _ _ _ _ A) as [_ R].
  destruct (alloc_spec _ _ _ _ A) as (e & E & Le & _).
  specialize (R h (length h) (fun _ _ H => H)).
  assert (Hn : (nodes c <= length h)%nat) by (rewrite E, length_app; lia).
  specialize (R Hn).
  destruct (length h) as [|m]; [discriminate R|]. cbn [reify] in R.
  rewrite Hl in R.
  destruct (mapM (fun kv => pair kv.1 <$> reify m h kv.2) its) as [items|] eqn:Mits;
    [|discriminate].
  inversion R; subst c. clear R.
  pose proof (mapM_items_get _ _ _ (lit "command") Mits) as Gc.
  pose proof (mapM_items_get _ _ _ (lit "seq") Mits) as Gs.
  unfold seq_conformant in C. rewrite L in C. cbn [jget] in C.
  destruct (dict_get (lit "command") items) as [jc|].
  2:{ rewrite Gc in Dc. discriminate. }
  destruct Gc as (xc & Dxc & Rxc). rewrite Dc in Dxc. inversion Dxc; subst xc.
  destruct m; cbn [reify] in Rxc; inversion Rxc; subst jc;
    rewrite eqb_refl in C;
    (destruct (dict_get (lit "seq") items) as [js|];
     [|rewrite Gs in Dx; discriminate]);
    destruct Gs as (xs & Dxs & Rxs); rewrite Dx in Dxs; inversion Dxs; subst xs;
    apply reify_scalar in Rxs; destruct js; try discriminate; subst x; exact C.
Qed.

Lemma inv_py_json_loads_keeps (I : state -> Prop) l o text :
  (forall x st, I st -> py_heap st !! l = Some o ->
                (forall i p, py_heap st !! i = Some p -> x !! i = Some p) ->
                I (set_heap x st)) ->
  inv (fun st => I st /\ py_heap st !! l = Some o) (py_json_loads text).
Proof.
  intros HI st [Hi Hl]. unfold py_json_loads.
  destruct (json_loads text) as [j|]; [|now split].
  destruct (alloc j (py_heap st)) as [v h] eqn:A.
  destruct (alloc_spec _ _ _ _ A) as (e & E & _ & _). subst h.
  split.
  - apply HI; [assumption..|]. intros i p. apply lookup_app_Some.
  - destruct st. cbn [py_heap set_heap final] in *. now apply lookup_app_Some.
Qed.

Lemma answered_nonneg_on_receive_from_debugger message :
  seq_conformant message = true ->
  inv answered_nonneg (on_receive_from_debugger message).
Proof.
  intros C st Hi.
  pose proof answered_nonneg_stable as S.
  pose proof answered_nonneg_emit as Ev.
  unfold on_receive_from_debugger. unfold bind at 1. unfold py_json_loads.
  destruct (json_loads message) as [c|] eqn:L; [|exact Hi].
  destruct (alloc c (py_heap st)) as [v h] eqn:A.
  unfold bind at 1. unfold log at 1, emit at 1, modify at 1.
  set (st2 := set_trace _ (set_heap h st)).
  assert (Hi2 : answered_nonneg st2) by (destruct st; exact Hi).
  unfold bind at 1.
  destruct (getitem v (lit "command") st2) as [cmd s|e s] eqn:G.
  2:{ pose proof (getitem_final v (lit "command") st2) as Fg. rewrite G in Fg.
      simpl in Fg. subst s. exact Hi2. }
  destruct (getitem_ok_inv _ _ _ _ _ G) as (-> & l & its & Ev' & Hl & Dc).
  destruct (py_eq_str cmd (lit "initialize")) eqn:Ec.
  - destruct cmd; try discriminate. cbn [py_eq_str] in Ec. apply eqb_eq in Ec.
    subst s.
    assert (Hl2 : h !! l = Some (ODict its)) by (destruct st; exact Hl).
    pose proof (conformant_seq message c v h _ l its C L A Ev' Hl2 Dc) as Seq.
    set (J := fun st => answered_nonneg st /\ py_heap st !! l = Some (ODict its)).
    assert (HJ : J st2) by (split; assumption).
    revert HJ. generalize st2. clear G Hl Hi2 st2.
    change (inv2 J answered_nonneg
              (message0 <-
                 (response <- py_json_loads INITIALIZE_RESPONSE ;;
                  text <- py_json_dumps response ;;
                  interface_send text ;;;
                  seq <- getitem v (lit "seq") ;;
                  modify (fun st => set_processed_seqs (processed_seqs st ++ [seq]) st) ;;;
                  ret message) ;;
               queue_put (Some message0))).
    apply inv2_bind_after; [|intros; now apply inv_queue_put].
    apply inv2_bind.
    { apply inv_py_json_loads_keeps. intros x [] H _ _. exact H. }
    { intros s [H _]. exact H. }
    intros response. apply inv2_bind.
    { apply inv_py_json_dumps. }
    { intros s [H _]. exact H. }
    intros text. apply inv2_bind.
    { apply inv_emit. intros [] H. exact H. }
    { intros s [H _]. exact H. }
    intros _. intros s [Hs Hls]. unfold bind at 1. unfold getitem.
    subst v. rewrite Hls.
    destruct (dict_get (lit "seq") its) as [x|] eqn:Dx; [|exact Hs].
    specialize (Seq x eq_refl). destruct s. unfold answered_nonneg in *.
    cbv [bind modify ret final set_processed_seqs processed_seqs] in *.
    rewrite forallb_app, Hs. simpl. now rewrite Seq.
  - revert Hi2. generalize st2. clear G Hl st2.
    change (inv answered_nonneg
              (message0 <-
                 (if py_eq_str cmd (lit "attach") then
                    run_in_new_thread (TAttachToMaya v) None ;;;
                    config <- getitem v (lit "arguments") ;;
                    program <- getitem config (lit "program") ;;
                    program_path <- expect_str program ;;
                    dir <- ret (replace_backslash 2 (dirname program_path)) ;;
                    debugpy <- getitem config (lit "debugpy") ;;
                    host <- getitem debugpy (lit "host") ;;
                    debugpy <- getitem config (lit "debugpy") ;;
                    port <- getitem debugpy (lit "port") ;;
                    port <- py_int port ;;
                    program <- getitem config (lit "program") ;;
                    filepath <- py_replace_backslash 2 program ;;
                    st <- get_state ;;
                    new_args <- ret (ATTACH_ARGS_format dir
                                       (str_of_value (py_heap st) host) port filepath) ;;
                    contents <- dict_copy v ;;
                    args <- py_json_loads new_args ;;
                    setitem contents (lit "arguments") args ;;;
                    message <- py_json_dumps contents ;;
                    log [lit "New attach arguments loaded:"; new_args] ;;;
                    ret message
                  else ret message) ;;
               queue_put (Some message0))).
    inv_auto.
Qed.

(** Whatever the process does, with a debugger that keeps to the
    protocol, the answered sequence numbers stay non-negative integers. *)
Lemma answered_nonneg_reachable st0 st :
  answered_nonneg st0 ->
  reachable (fun message => seq_conformant message = true) st0 st ->
  answered_nonneg st.
Proof.
  intros H0 R. induction R as [|st st' _ IH Hstep]; [exact H0|].
  pose proof answered_nonneg_stable as S.
  pose proof answered_nonneg_emit as Ev.
  destruct Hstep as [message st C|contents delay st _|host port delay turns st _|delay st _].
  - now apply answered_nonneg_on_receive_from_debugger.
  - now apply inv_attach_to_maya.
  - now apply inv_start_debugging.
  - now apply inv_debugpy_send_loop.
Qed.

Lemma py_in_nonneg seqs : forallb nonneg_int seqs = true -> py_in (-1) seqs = false.
Proof.
  unfold py_in. induction seqs as [|v seqs IH]; [reflexivity|].
  cbn [existsb forallb]. intros H.
  apply andb_true_iff in H. destruct H as [Hv Hs]. rewrite (IH Hs).
  destruct v; try discriminate. cbn [py_eq_int nonneg_int] in *.
  apply Z.leb_le in Hv. rewrite orb_false_r. apply Z.eqb_neq. lia.
Qed.

(** C9 (amended): a message of debugpy without [request_seq] is read as
    answering request [-1].  If the debugger keeps to the protocol (the
    [seq] of every initialize request it sends is a non-negative integer),
    the answered sequence numbers are non-negative integers at every
    point of the run, [-1] is not among them, and every such message
    goes to the debugger. *)
Theorem missing_request_seq_is_forwarded st0 st message c data :
  answered_nonneg st0 ->
  reachable (fun message => seq_conformant message = true) st0 st ->
  json_loads message = Some c ->
  is_object c = true ->
  jget c (lit "request_seq") = None ->
  (has_command c (lit "configurationDone") = true ->
   host_channel_ready st data /\ file_encode (run_code st) <> None) ->
  answered_nonneg st
  /\ exists st',
       on_receive_from_debugpy message st = Ok tt st'
       /\ to_debugger (trace st') = to_debugger (trace st) ++ [message].
Proof.
  intros H0 R L O G C.
  pose proof (answered_nonneg_reachable st0 st H0 R) as Hn. split; [exact Hn|].
  assert (S : effective_request_seq c = Some (-1)%Z)
    by (unfold effective_request_seq; now rewrite G).
  destruct (on_receive_from_debugpy_ok message c _ st data L O S C) as [h E].
  eexists. split; [exact E|]. rewrite (py_in_nonneg _ Hn).
  destruct st. cbn [trace set_trace set_heap]. rewrite !to_debugger_app.
  destruct (has_command c _); cbn; rewrite ?app_nil_r; reflexivity.
Qed.

(** ** Messages of the debugger: every other request, and requests that
    lack a field *)

Lemma neq_eqb_false (a b : pystr) : a <> b -> PyStr.eqb a b = false.
Proof. intros H. unfold PyStr.eqb. now apply bool_decide_eq_false. Qed.

(** The handler on a request that is neither "initialize" nor "attach":
    the message is parsed, logged and put on the queue. *)
Lemma on_receive_other message c jc st :
  json_loads message = Some c ->
  jget c (lit "command") = Some jc ->
  jc <> JStr (lit "initialize") -> jc <> JStr (lit "attach") ->
  exists h,
    (forall l o, py_heap st !! l = Some o -> h !! l = Some o)
    /\ on_receive_from_debugger message st
       = Ok tt (set_queue (debugpy_send_queue st ++ [Some message])
                  (set_trace (trace st ++ [ELog [lit "Received from Debugger:"; message]])
                     (set_heap h st))).
Proof.
  intros L Gc Ni Na.
  destruct (py_json_loads_ok message c st L) as (v & h1 & PL & _ & Len1 & Ext & R).
  exists h1. split; [exact Ext|].
  unfold on_receive_from_debugger. rewrite (bind_ok _ _ _ _ _ PL).
  unfold bind at 1. unfold log at 1, emit at 1, modify at 1.
  set (st2 := set_trace _ (set_heap h1 st)).
  assert (R2 : reify (length h1) (py_heap st2) v = Some c)
    by (apply R; [auto|lia]).
  destruct (getitem_tree _ st2 v c _ _ R2 Gc) as (x & Gx & Rx).
  rewrite (bind_ok _ _ _ _ _ Gx).
  rewrite !(py_eq_str_tree _ _ _ _ _ Rx).
  assert (E1 : match jc with JStr s => PyStr.eqb s (lit "initialize") | _ => false end
               = false).
  { destruct jc; try reflexivity. apply neq_eqb_false. congruence. }
  assert (E2 : match jc with JStr s => PyStr.eqb s (lit "attach") | _ => false end
               = false).
  { destruct jc; try reflexivity. apply neq_eqb_false. congruence. }
  rewrite E1, E2. subst st2. destruct st. run_done.
Qed.

(** X1: a request of the debugger whose command is neither "initialize"
    nor "attach" goes on the queue for debugpy as the very text that came
    in (it is not serialized again); the handler logs it and does nothing
    else: nothing goes to the debugger, no activity is started, and the
    answered sequence numbers, the run directive and the socket stay as
    they were. *)
Theorem other_request_queued_verbatim message c jc st :
  json_loads message = Some c ->
  jget c (lit "command") = Some jc ->
  jc <> JStr (lit "initialize") -> jc <> JStr (lit "attach") ->
  exists st',
    on_receive_from_debugger message st = Ok tt st'
    /\ debugpy_send_queue st' = debugpy_send_queue st ++ [Some message]
    /\ trace st' = trace st ++ [ELog [lit "Received from Debugger:"; message]]
    /\ processed_seqs st' = processed_seqs st
    /\ run_code st' = run_code st
    /\ debugpy_socket st' = debugpy_socket st.
Proof.
  intros L Gc Ni Na.
  destruct (on_receive_other message c jc st L Gc Ni Na) as (h & _ & E).
  eexists. split; [exact E|]. destruct st. repeat split.
Qed.

(** X2: an initialize request without ['seq'].  The canned response has
    gone to the debugger when the handler looks for the sequence number;
    the lookup raises [KeyError], so the request is answered but neither
    recorded as answered nor passed on to debugpy. *)
Theorem initialize_without_seq message items resp st :
  json_loads message = Some (JObj items) ->
  dict_get (lit "command") items = Some (JStr (lit "initialize")) ->
  dict_get (lit "seq") items = None ->
  json_loads INITIALIZE_RESPONSE = Some resp ->
  exists st',
    on_receive_from_debugger message st = Raise (KeyError (lit "seq")) st'
    /\ to_debugger (trace st') = to_debugger (trace st) ++ [json_dumps resp]
    /\ processed_seqs st' = processed_seqs st
    /\ debugpy_send_queue st' = debugpy_send_queue st.
Proof.
  intros L Gc Gs Lr.
  destruct (py_json_loads_ok message _ st L) as (v & h1 & PL & _ & Len1 & _ & R).
  unfold on_receive_from_debugger. rewrite (bind_ok _ _ _ _ _ PL).
  unfold bind at 1. unfold log at 1, emit at 1, modify at 1.
  set (st2 := set_trace _ (set_heap h1 st)).
  assert (R2 : reify (length h1) (py_heap st2) v = Some (JObj items))
    by (apply R; [auto|lia]).
  destruct (getitem_tree _ st2 v _ _ _ R2 Gc) as (x & Gx & Rx).
  rewrite (bind_ok _ _ _ _ _ Gx).
  apply reify_scalar in Rx. subst x. cbn [py_eq_str]. rewrite eqb_refl.
  destruct (py_json_loads_ok _ resp st2 Lr) as (v2 & h2 & PL2 & _ & Len2 & Ext2 & Rr).
  unfold bind at 1. unfold bind at 1. rewrite PL2.
  set (st3 := set_heap h2 st2).
  assert (Rd : reify (length (py_heap st3)) (py_heap st3) v2 = Some resp).
  { apply Rr; [auto|]. simpl. lia. }
  rewrite (bind_ok _ _ _ _ _ (py_json_dumps_ok _ _ _ Rd)).
  unfold bind at 1. unfold interface_send at 1, emit at 1, modify at 1.
  set (st4 := set_trace _ st3).
  assert (R4 : reify (length h1) (py_heap st4) v = Some (JObj items))
    by (apply R; [exact Ext2|lia]).
  rewrite (bind_raise _ _ _ _ _ (getitem_missing _ st4 v items _ R4 Gs)).
  eexists. split; [reflexivity|].
  subst st4 st3 st2. destruct st. cbn [trace set_trace set_heap processed_seqs
                                        debugpy_send_queue].
  rewrite <- app_assoc, !to_debugger_app. repeat split.
Qed.

(** X3: an attach request without ['arguments'].  The attach thread is
    started on the parsed request before the handler reads the arguments;
    then the handler raises [KeyError] and puts nothing on the queue, and
    the thread, once it runs, raises the same error at its first line
    without touching Maya. *)
Theorem attach_without_arguments message items st :
  json_loads message = Some (JObj items) ->
  dict_get (lit "command") items = Some (JStr (lit "attach")) ->
  dict_get (lit "arguments") items = None ->
  exists contents st',
    on_receive_from_debugger message st = Raise (KeyError (lit "arguments")) st'
    /\ trace st' = trace st ++ [ELog [lit "Received from Debugger:"; message];
                                ESpawn (TAttachToMaya contents) None]
    /\ debugpy_send_queue st' = debugpy_send_queue st
    /\ attach_to_maya contents st' = Raise (KeyError (lit "arguments")) st'.
Proof.
  intros L Gc Ga.
  destruct (py_json_loads_ok message _ st L) as (v & h1 & PL & _ & Len1 & _ & R).
  specialize (R h1 (length h1) (fun _ _ H => H) ltac:(lia)).
  unfold on_receive_from_debugger. rewrite (bind_ok _ _ _ _ _ PL).
  unfold bind at 1. unfold log at 1, emit at 1, modify at 1.
  set (st2 := set_trace _ (set_heap h1 st)).
  destruct (getitem_tree _ st2 v _ _ _ R Gc) as (x & Gx & Rx).
  rewrite (bind_ok _ _ _ _ _ Gx).
  apply reify_scalar in Rx. subst x. cbn [py_eq_str].
  replace (PyStr.eqb (lit "attach") (lit "initialize")) with false by reflexivity.
  rewrite eqb_refl.
  unfold bind at 1. unfold bind at 1.
  unfold run_in_new_thread at 1, emit at 1, modify at 1.
  set (st3 := set_trace _ st2).
  pose proof (getitem_missing _ st3 v items _ R Ga) as Gm.
  rewrite (bind_raise _ _ _ _ _ Gm).
  exists v, st3. split; [reflexivity|].
  split; [subst st3 st2; destruct st; cbn [trace set_trace set_heap];
          now rewrite <- app_assoc|].
  split; [subst st3 st2; destruct st; reflexivity|].
  unfold attach_to_maya. now rewrite (bind_raise _ _ _ _ _ Gm).
Qed.

(** ** What a step of the relay leaves alone *)

Lemma inv_modify (I : state -> Prop) f :
  (forall st, I st -> I (f st)) -> inv I (modify f).
Proof. intros H st Hi. now apply H. Qed.

Section HeapOnly.

Variable I : state -> Prop.
Hypothesis I_heap : forall x st, I st -> I (set_heap x st).
Set Default Proof Using "Type I_heap".

Lemma invh_py_json_loads text : inv I (py_json_loads text).
Proof.
  intros st Hi. unfold py_json_loads. destruct (json_loads text); [|exact Hi].
  destruct (alloc _ _). now apply I_heap.
Qed.

Lemma invh_dict_copy v : inv I (dict_copy v).
Proof.
  intros st Hi. unfold dict_copy.
  destruct v; try exact Hi. destruct (py_heap st !! l) as [[?|its]|]; try exact Hi.
  now apply I_heap.
Qed.

Lemma invh_setitem v k x : inv I (setitem v k x).
Proof.
  intros st Hi. unfold setitem.
  destruct v; try exact Hi. destruct (py_heap st !! l) as [[?|its]|]; try exact Hi.
  now apply I_heap.
Qed.

End HeapOnly.

Set Default Proof Using "Type".

(** Keeps a property through a computation when only some changes of the
    state keep it: [tac] is tried first on every step. *)
Ltac frame_step tac :=
  first
    [ tac
    | apply invh_py_json_loads; assumption
    | apply invh_dict_copy; assumption
    | apply invh_setitem; assumption
    | apply inv_modify; intros [] ?; assumption
    | inv_step ].

Ltac frame_with tac :=
  unfold log, interface_send, run_in_new_thread; repeat frame_step tac.

Ltac frame_auto := frame_with ltac:(fail).

Lemma bind_post (I : state -> Prop) {A B} (Q : result B -> Prop)
  (c : M A) (k : A -> M B) st :
  inv I c -> I st ->
  (forall e st', I st' -> Q (Raise e st')) ->
  (forall a st', I st' -> Q (k a st')) ->
  Q (bind c k st).
Proof.
  intros Hc Hi Hr Hk. unfold bind. specialize (Hc st Hi).
  destruct (c st); simpl in Hc; auto.
Qed.

(** X4: the handler of the debugger's messages puts exactly one message
    on the queue for debugpy when it returns, at the end of the queue, and
    none when it raises; it never takes anything off the queue and never
    puts the sentinel [None] on it. *)
Theorem request_queued_iff_handled message st :
  match on_receive_from_debugger message st with
  | Ok _ st' =>
      exists forwarded,
        debugpy_send_queue st' = debugpy_send_queue st ++ [Some forwarded]
  | Raise _ st' => debugpy_send_queue st' = debugpy_send_queue st
  end.
Proof.
  set (q := debugpy_send_queue st).
  set (I := fun s : state => debugpy_send_queue s = q).
  set (Q := fun r : result unit =>
              match r with
              | Ok _ st' => exists forwarded, debugpy_send_queue st' = q ++ [Some forwarded]
              | Raise _ st' => debugpy_send_queue st' = q
              end).
  change (Q (on_receive_from_debugger message st)).
  assert (Hh : forall x s, I s -> I (set_heap x s)) by (intros x [] H; exact H).
  assert (He : forall e, emit_ok I e) by (intros e [] H; exact H).
  assert (Hr : forall e s, I s -> Q (Raise e s)) by (intros e s H; exact H).
  unfold on_receive_from_debugger.
  apply (bind_post I); [frame_auto|reflexivity|exact Hr|intros contents s1 H1].
  apply (bind_post I); [frame_auto|exact H1|exact Hr|intros _ s2 H2].
  apply (bind_post I); [frame_auto|exact H2|exact Hr|intros cmd s3 H3].
  apply (bind_post I); [frame_auto|exact H3|exact Hr|intros m s4 H4].
  exists m. destruct s4. unfold I in H4. cbn in H4. subst q. rewrite <- H4.
  reflexivity.
Qed.

(** ** Submitting code to Maya *)

(** X5: the ways out of [send_code_to_maya].  It returns after it has
    written the code to the temporary file and sent the command to Maya,
    in this order.  It raises [OSError] when the temporary file cannot be
    opened (nothing has happened then) or when Maya's socket cannot be
    written, and [UnicodeEncodeError] when the encoding of the file does
    not take the code (the file has been opened, and is left empty;
    nothing has been logged) or when the command has no UTF-8 encoding.
    Whenever it raises, nothing has been sent to Maya. *)
Theorem send_code_to_maya_outcomes code st :
  match send_code_to_maya code st with
  | Ok _ st' =>
      exists data,
        host_channel_ready st data
        /\ file_encode code <> None
        /\ st' = set_trace (trace st ++ submission code data) st
  | Raise e st' =>
      to_maya (trace st') = to_maya (trace st)
      /\ ((e = OSError /\ tempfile_writable st = false /\ st' = st)
          \/ (e = UnicodeEncodeError /\ tempfile_writable st = true
              /\ file_encode code = None
              /\ st' = set_trace (trace st ++ [EFileWrite temp_py []]) st)
          \/ (e = UnicodeEncodeError /\ tempfile_writable st = true
              /\ file_encode code <> None
              /\ utf8_encode exec_command = None)
          \/ (e = OSError /\ tempfile_writable st = true
              /\ file_encode code <> None
              /\ maya_writable st = false))
  end.
Proof.
  destruct st. unfold send_code_to_maya, host_channel_ready, submission, py_encode,
    lift_option, exec_command, temp_py.
  cbn [tempfile_writable maya_writable trace].
  destruct tempfile_writable0; run_done.
  - destruct (file_encode code) as [bs|] eqn:Ec; run_done.
    + destruct (utf8_encode _) as [data|] eqn:E.
      * destruct maya_writable0; run_done.
        -- exists data. repeat split. discriminate.
        -- split; [rewrite to_maya_app; cbn; now rewrite app_nil_r|].
           right. right. right. repeat split. discriminate.
      * split; [rewrite to_maya_app; cbn; now rewrite app_nil_r|].
        right. right. left. repeat split. discriminate.
    + split; [rewrite to_maya_app; cbn; now rewrite app_nil_r|].
      right. left. repeat split.
  - split; [reflexivity|]. left. repeat split.
Qed.

(** ** What holds all along a run *)

Lemma py_in_app n a b : py_in n (a ++ b) = py_in n a || py_in n b.
Proof. apply existsb_app. Qed.

(** X6: the answered sequence numbers only grow.  Whatever the process
    does (messages of the debugger, the attach thread, the loops), a
    number once recorded stays recorded, so a response of debugpy that is
    suppressed now is suppressed for the rest of the run. *)
Theorem answered_stays_answered accepted st0 st :
  reachable accepted st0 st ->
  (exists more, processed_seqs st = processed_seqs st0 ++ more)
  /\ forall seq, py_in seq (processed_seqs st0) = true ->
                 py_in seq (processed_seqs st) = true.
Proof.
  intros R.
  assert (G : exists more, processed_seqs st = processed_seqs st0 ++ more).
  { set (I := fun s : state => exists more, processed_seqs s = processed_seqs st0 ++ more).
    assert (S : stable I) by (split; intros x [] H; exact H).
    assert (Ev : forall e, emit_ok I e) by (intros e [] H; exact H).
    assert (An : forall v, answer_ok I v).
    { intros v [] [more H]. exists (more ++ [v]). cbn in *. now rewrite H, app_assoc. }
    change (I st). induction R as [|st st' _ IH Hstep].
    { exists []. now rewrite app_nil_r. }
    destruct Hstep as [message st _|contents delay st _|host port delay turns st _|delay st _].
    - apply inv_on_receive_from_debugger; auto.
    - now apply inv_attach_to_maya.
    - now apply inv_start_debugging.
    - now apply inv_debugpy_send_loop. }
  split; [exact G|]. destruct G as [more ->]. intros seq H. now rewrite py_in_app, H.
Qed.

(** *** The sentinel *)

Lemma no_sentinel_app a b : no_sentinel (a ++ b) = no_sentinel a && no_sentinel b.
Proof. apply forallb_app. Qed.

Lemma bind_ok_inv {A B} (c : M A) (k : A -> M B) st b st' :
  bind c k st = Ok b st' -> exists a s, c st = Ok a s /\ k a s = Ok b st'.
Proof. unfold bind. destruct (c st) as [a s|e s]; [eauto|discriminate]. Qed.

Lemma send_frame_false msg st b st' : send_frame msg st = Ok b st' -> b = false.
Proof.
  unfold send_frame. intros H.
  repeat (apply bind_ok_inv in H; destruct H as (? & ? & _ & H)).
  now inversion H.
Qed.

(** One turn of the send loop, by the outcome of its [try] block. *)
Lemma send_loop_on_step msg queue st :
  send_loop_on (Some msg :: queue) st
  = match send_frame msg (set_queue queue st) with
    | Ok false st' => send_loop_on queue st'
    | Ok true st' => Ok Returned st'
    | Raise OSError st' =>
        Ok Returned (set_trace (trace st' ++ [ELog [lit "Debug socket closed."]]) st')
    | Raise e st' => Raise e st'
    end.
Proof.
  cbn [send_loop_on]. unfold bind at 1. unfold modify at 1.
  unfold bind at 1. unfold try_except.
  change (header <- py_encode (frame_header msg) ;;
          engine_send header ;;;
          body <- py_encode msg ;;
          engine_send body ;;;
          log [lit "Sent to debugpy:"; msg] ;;;
          ret false) with (send_frame msg).
  destruct (send_frame msg (set_queue queue st)) as [[] s|[] s]; reflexivity.
Qed.

Lemma send_loop_on_returned queue :
  no_sentinel queue = true -> forall st status st',
  send_loop_on queue st = Ok status st' -> status = Returned ->
  last (trace st') = Some (ELog [lit "Debug socket closed."]).
Proof.
  induction queue as [|[msg|] queue IH]; intros Hn st status st' E Hs.
  - cbn in E. inversion E; subst. discriminate.
  - rewrite send_loop_on_step in E. cbn in Hn.
    destruct (send_frame msg (set_queue queue st)) as [b s|e s] eqn:Ef.
    + pose proof (send_frame_false _ _ _ _ Ef). subst b. now apply (IH Hn s status st').
    + destruct e; try discriminate. inversion E; subst. destruct s; cbn.
      apply last_snoc.
  - discriminate.
Qed.

Lemma sentinel_free_on_receive_from_debugger message :
  inv sentinel_free (on_receive_from_debugger message).
Proof.
  assert (Hh : forall x s, sentinel_free s -> sentinel_free (set_heap x s))
    by (intros x [] H; exact H).
  assert (He : forall e, emit_ok sentinel_free e) by (intros e [] H; exact H).
  unfold on_receive_from_debugger, queue_put.
  frame_with ltac:(apply inv_modify; intros [] H; unfold sentinel_free in *;
                   cbn [debugpy_send_queue set_queue] in *;
                   rewrite no_sentinel_app, H; reflexivity).
Qed.

Lemma sentinel_free_attach_to_maya contents :
  inv sentinel_free (attach_to_maya contents).
Proof.
  assert (He : forall e, emit_ok sentinel_free e) by (intros e [] H; exact H).
  unfold attach_to_maya, maya_connect, send_code_to_maya. frame_auto.
Qed.

Lemma sentinel_free_start_debugging host port turns :
  inv sentinel_free (start_debugging host port turns).
Proof.
  assert (Hh : forall x s, sentinel_free s -> sentinel_free (set_heap x s))
    by (intros x [] H; exact H).
  assert (He : forall e, emit_ok sentinel_free e) by (intros e [] H; exact H).
  assert (Hl : inv sentinel_free (receive_loop turns)).
  { induction turns as [|turns IH]; cbn [receive_loop]; [apply inv_ret|].
    unfold receive_failed, on_receive_from_debugpy, send_code_to_maya. frame_auto. }
  unfold start_debugging. frame_auto.
Qed.

Lemma sentinel_free_send_loop_on queue :
  no_sentinel queue = true -> inv sentinel_free (send_loop_on queue).
Proof.
  assert (He : forall e, emit_ok sentinel_free e) by (intros e [] H; exact H).
  induction queue as [|[msg|] queue IH]; cbn [send_loop_on]; intros Hn.
  - apply inv_ret.
  - cbn in Hn. unfold engine_send.
    frame_with ltac:(first [ apply inv_modify; intros [] _; exact Hn
                           | apply IH; exact Hn ]).
  - discriminate Hn.
Qed.

Lemma sentinel_free_reachable accepted st0 st :
  sentinel_free st0 -> reachable accepted st0 st -> sentinel_free st.
Proof.
  intros H0 R. induction R as [|st st' _ IH Hstep]; [exact H0|].
  destruct Hstep as [message st _|contents delay st _|host port delay turns st _|delay st _].
  - now apply sentinel_free_on_receive_from_debugger.
  - now apply sentinel_free_attach_to_maya.
  - now apply sentinel_free_start_debugging.
  - unfold debugpy_send_loop, bind, get_state.
    now apply sentinel_free_send_loop_on.
Qed.

(** X7: the program never puts the sentinel [None] on the queue.  From
    a queue without it, whatever the process does, the queue stays without
    it; so when [debugpy_send_loop] returns, it is never because it has
    found the sentinel: a write to debugpy's socket has failed, and the
    loop has just logged "Debug socket closed.". *)
Theorem send_loop_returns_only_on_failed_write accepted st0 st :
  no_sentinel (debugpy_send_queue st0) = true ->
  reachable accepted st0 st ->
  no_sentinel (debugpy_send_queue st) = true
  /\ forall st', debugpy_send_loop st = Ok Returned st' ->
                 last (trace st') = Some (ELog [lit "Debug socket closed."]).
Proof.
  intros H0 R. pose proof (sentinel_free_reachable accepted st0 st H0 R) as Hn.
  split; [exact Hn|]. intros st' E.
  unfold debugpy_send_loop, bind, get_state in E.
  now apply (send_loop_on_returned _ Hn st Returned st').
Qed.

(** *** The socket of the send loop *)

Lemma send_loop_started_app a b :
  send_loop_started (a ++ b) = send_loop_started a || send_loop_started b.
Proof. apply existsb_app. Qed.

Lemma started_connected_emit e :
  send_loop_started [e] = false -> emit_ok started_connected e.
Proof.
  intros He [] H S. unfold started_connected in *. cbn [trace set_trace debugpy_socket] in *.
  rewrite send_loop_started_app, He, orb_false_r in S. auto.
Qed.

Ltac started_emit := apply inv_emit, started_connected_emit; reflexivity.

Lemma started_connected_on_receive_from_debugger message :
  inv started_connected (on_receive_from_debugger message).
Proof.
  assert (Hh : forall x s, started_connected s -> started_connected (set_heap x s))
    by (intros x [] H; exact H).
  unfold on_receive_from_debugger, queue_put. frame_with started_emit.
Qed.

Lemma started_connected_attach_to_maya contents :
  inv started_connected (attach_to_maya contents).
Proof.
  unfold attach_to_maya, maya_connect, send_code_to_maya. frame_with started_emit.
Qed.

Lemma connected_receive_loop turns : inv connected (receive_loop turns).
Proof.
  assert (Hh : forall x s, connected s -> connected (set_heap x s))
    by (intros x [] H; exact H).
  assert (He : forall e, emit_ok connected e) by (intros e [] H; exact H).
  induction turns as [|turns IH]; cbn [receive_loop]; [apply inv_ret|].
  unfold receive_failed, on_receive_from_debugpy, send_code_to_maya. frame_auto.
Qed.

Lemma connected_started st : connected st -> started_connected st.
Proof. intros H _. exact H. Qed.

Lemma started_connected_start_debugging host port turns :
  inv started_connected (start_debugging host port turns).
Proof.
  assert (He : forall e, emit_ok connected e) by (intros e [] H; exact H).
  unfold start_debugging.
  apply inv_bind; [frame_auto|intros name].
  apply inv_bind; [frame_with started_emit|intros _].
  apply inv_bind; [frame_with started_emit|intros _].
  intros st Hi. unfold bind at 1. unfold get_state at 1.
  destruct (engine_accepts st).
  - unfold bind at 1. unfold modify at 1. apply connected_started.
    assert (Hc : connected (set_socket true st)) by (destruct st; reflexivity).
    revert Hc. generalize (set_socket true st).
    change (inv connected
              (log [lit "Successfully connected to Maya for debugging. Starting..."] ;;;
               run_in_new_thread TSendLoop None ;;;
               receive_loop turns)).
    pose proof (connected_receive_loop turns). frame_auto.
  - exact Hi.
Qed.

Lemma started_connected_send_loop_on queue :
  inv started_connected (send_loop_on queue).
Proof.
  induction queue as [|item queue IH]; cbn [send_loop_on]; [apply inv_ret|].
  unfold engine_send. frame_with started_emit.
Qed.

Lemma started_connected_reachable accepted st0 st :
  started_connected st0 -> reachable accepted st0 st -> started_connected st.
Proof.
  intros H0 R. induction R as [|st st' _ IH Hstep]; [exact H0|].
  destruct Hstep as [message st _|contents delay st _|host port delay turns st _|delay st _].
  - now apply started_connected_on_receive_from_debugger.
  - now apply started_connected_attach_to_maya.
  - now apply started_connected_start_debugging.
  - unfold debugpy_send_loop, bind, get_state.
    now apply started_connected_send_loop_on.
Qed.

(** With the socket in place, the [try] block of the send loop keeps it
    and raises nothing but [OSError] and [UnicodeEncodeError]. *)
Lemma send_frame_connected msg st :
  connected st ->
  match send_frame msg st with
  | Ok _ st' => connected st'
  | Raise e st' => connected st' /\ (e = OSError \/ e = UnicodeEncodeError)
  end.
Proof.
  intros Hs. destruct st. unfold connected in *. cbn [debugpy_socket] in Hs. subst.
  unfold send_frame, py_encode, lift_option, engine_send.
  destruct (utf8_encode (frame_header msg)); [|run_done; auto].
  destruct (utf8_encode msg);
    destruct engine_writes0 as [|[] [|[] ?]];
    cbn [tail]; run_done; cbn [tail]; run_done; auto.
Qed.

Lemma send_loop_on_raises queue : forall st e st',
  connected st -> send_loop_on queue st = Raise e st' -> e = UnicodeEncodeError.
Proof.
  induction queue as [|[msg|] queue IH]; intros st e st' Hs E; try discriminate.
  rewrite send_loop_on_step in E.
  assert (Hq : connected (set_queue queue st)) by (destruct st; exact Hs).
  pose proof (send_frame_connected msg _ Hq) as Ho.
  destruct (send_frame msg (set_queue queue st)) as [[] s|e0 s].
  - discriminate.
  - now apply (IH s e st').
  - destruct Ho as [_ [->| ->]]; [discriminate|]. now inversion E.
Qed.

(** X8: [debugpy_send_loop] is started only after [start_debugging] has
    set the global [debugpy_socket].  From a state where this holds (the
    start of the process, where no send loop runs), it holds all along
    the run; so the send loop never uses the socket while it is still
    [None], and the only exception that can leave it is
    [UnicodeEncodeError], for a message that has no encoding. *)
Theorem send_loop_runs_connected accepted st0 st :
  started_connected st0 ->
  reachable accepted st0 st ->
  send_loop_started (trace st) = true ->
  debugpy_socket st = true
  /\ forall e st', debugpy_send_loop st = Raise e st' -> e = UnicodeEncodeError.
Proof.
  intros H0 R S.
  pose proof (started_connected_reachable accepted st0 st H0 R S) as Hs.
  split; [exact Hs|]. intros e st' E.
  unfold debugpy_send_loop, bind, get_state in E.
  exact (send_loop_on_raises _ st e st' Hs E).
Qed.

(** ** The attach sequence when Maya answers *)

Lemma connect_accepted host port st :
  maya_accepts st = true ->
  try_except
    (emit (EMayaSetTimeout 3) ;;; maya_connect (VStr host) port)
    (fun _ =>
       run_in_new_thread (TExit 0) (Some 1%Z) ;;;
       st <- get_state ;;
       raise (Exception (remediation (str_of_value (py_heap st) (VStr host)) port))) st
  = Ok tt (set_trace (trace st ++ [EMayaSetTimeout 3; EMayaConnect (VStr host) port]) st).
Proof.
  intros Hm. destruct st. cbn [maya_accepts] in Hm. subst.
  unfold maya_connect. run_done.
Qed.

(** [attach_to_maya] on a request that has all its fields, with Maya's
    command port open, the host channel writable and the attach code one
    that the temporary file takes, step by step. *)
Lemma attach_to_maya_ok contents n c config dbg H jport p P maya Hm jmp pm st data :
  reify n (py_heap st) contents = Some c ->
  jget c (lit "arguments") = Some config ->
  jget config (lit "debugpy") = Some dbg ->
  jget dbg (lit "host") = Some (JStr H) ->
  jget dbg (lit "port") = Some jport ->
  json_int jport = Some p ->
  jget config (lit "program") = Some (JStr P) ->
  jget config (lit "maya") = Some maya ->
  jget maya (lit "host") = Some (JStr Hm) ->
  jget maya (lit "port") = Some jmp ->
  json_int jmp = Some pm ->
  maya_accepts st = true ->
  host_channel_ready st data ->
  file_encode (ATTACH_TEMPLATE_format debugpy_path H p) <> None ->
  attach_to_maya contents st
  = Ok tt
      (set_trace
         (trace st
          ++ [ELog [lit "RUN: " ++ [LF] ++ run_directive P];
              EMayaSetTimeout 3; EMayaConnect (VStr Hm) pm;
              ELog [lit "Sending attach code to Maya"]]
          ++ submission (ATTACH_TEMPLATE_format debugpy_path H p) data
          ++ [ELog [lit "Successfully attached to Maya"];
              ESpawn (TStartDebugging (VStr H) p) None])
         (set_run_code (run_directive P) st)).
Proof.
  intros R Ga Gd Gh Gpo Ji Gp Gm Gmh Gmp Jm Up Rdy Enc.
  unfold attach_to_maya.
  destruct (getitem_tree _ st _ _ _ _ R Ga) as (xa & Gxa & Rxa).
  rewrite (bind_ok _ _ _ _ _ Gxa).
  destruct (getitem_tree _ st _ _ _ _ Rxa Gd) as (xd & Gxd & Rxd).
  rewrite (bind_ok _ _ _ _ _ Gxd).
  destruct (getitem_tree _ st _ _ _ _ Rxd Gh) as (xh & Gxh & Rxh).
  apply reify_scalar in Rxh. subst xh.
  rewrite (bind_ok _ _ _ _ _ Gxh).
  rewrite (bind_ok _ _ _ _ _ Gxd).
  destruct (getitem_tree _ st _ _ _ _ Rxd Gpo) as (xo & Gxo & Rxo).
  rewrite (bind_ok _ _ _ _ _ Gxo).
  rewrite (bind_ok _ _ _ _ _ (py_int_tree _ _ _ _ _ Rxo Ji)).
  unfold bind at 1. unfold get_state at 1.
  unfold bind at 1. unfold ret at 1. cbn [str_of_value].
  destruct (getitem_tree _ st _ _ _ _ Rxa Gp) as (xp & Gxp & Rxp).
  apply reify_scalar in Rxp. subst xp.
  rewrite (bind_ok _ _ _ _ _ Gxp).
  unfold bind at 1. cbn [expect_str]. unfold ret at 1.
  unfold bind at 1. unfold ret at 1.
  rewrite (bind_ok _ _ _ _ _ Gxp).
  unfold bind at 1. cbn [expect_str]. unfold ret at 1.
  unfold bind at 1. unfold ret at 1.
  assert (Fn : forall k : pystr -> M unit,
             bind (if truthy (drop_last3 (split P).2) then ret (drop_last3 (split P).2)
                   else program <- getitem xa (lit "program") ;;
                        program <- expect_str program ;;
                        ret (drop_last3 (basename (split program).1))) k st
             = k (if truthy (drop_last3 (split P).2) then drop_last3 (split P).2
                  else drop_last3 (basename (split P).1)) st).
  { intros k. destruct (truthy (drop_last3 (split P).2)); [reflexivity|].
    unfold bind at 1. rewrite (bind_ok _ _ _ _ _ Gxp). reflexivity. }
  rewrite Fn. clear Fn. fold (run_directive P).
  unfold bind at 1. unfold modify at 1.
  unfold bind at 1. unfold get_state at 1.
  unfold bind at 1. unfold log at 1, emit at 1, modify at 1.
  match goal with |- context [bind (getitem xa (lit "maya")) _ ?s] => set (st2 := s) end.
  destruct (getitem_tree _ st2 _ _ _ _ Rxa Gm) as (xm & Gxm & Rxm).
  rewrite (bind_ok _ _ _ _ _ Gxm).
  destruct (getitem_tree _ st2 _ _ _ _ Rxm Gmh) as (xmh & Gxmh & Rxmh).
  apply reify_scalar in Rxmh. subst xmh.
  rewrite (bind_ok _ _ _ _ _ Gxmh).
  rewrite (bind_ok _ _ _ _ _ Gxm).
  destruct (getitem_tree _ st2 _ _ _ _ Rxm Gmp) as (xmp & Gxmp & Rxmp).
  rewrite (bind_ok _ _ _ _ _ Gxmp).
  rewrite (bind_ok _ _ _ _ _ (py_int_tree _ _ _ _ _ Rxmp Jm)).
  assert (Up2 : maya_accepts st2 = true) by (destruct st; exact Up).
  rewrite (bind_ok _ _ _ _ _ (connect_accepted Hm pm st2 Up2)).
  unfold bind at 1. unfold log at 1, emit at 1, modify at 1.
  match goal with |- context [bind (send_code_to_maya _) _ ?s] => set (st3 := s) end.
  assert (Rdy3 : host_channel_ready st3 data) by (destruct st; exact Rdy).
  rewrite (bind_ok _ _ _ _ _ (send_code_to_maya_ok _ data st3 Rdy3 Enc)).
  unfold bind at 1. unfold log at 1, emit at 1, modify at 1.
  match goal with |- context [bind (getitem xa (lit "debugpy")) _ ?s] => set (st4 := s) end.
  pose proof (getitem_tree _ st4 _ _ _ _ Rxa Gd) as (xd' & Gxd' & Rxd').
  rewrite (bind_ok _ _ _ _ _ Gxd').
  pose proof (getitem_tree _ st4 _ _ _ _ Rxd' Gh) as (xh' & Gxh' & Rxh').
  apply reify_scalar in Rxh'. subst xh'.
  rewrite (bind_ok _ _ _ _ _ Gxh').
  rewrite (bind_ok _ _ _ _ _ Gxd').
  pose proof (getitem_tree _ st4 _ _ _ _ Rxd' Gpo) as (xo' & Gxo' & Rxo').
  rewrite (bind_ok _ _ _ _ _ Gxo').
  rewrite (bind_ok _ _ _ _ _ (py_int_tree _ _ _ _ _ Rxo' Ji)).
  subst st4 st3 st2. destruct st. unfold submission. run_done.
Qed.

(** X9: with Maya's command port open, the host channel writable and
    the attach code one that the temporary file takes, [attach_to_maya]
    stores the run directive for the program, connects
    to Maya at the address of the request (with a timeout of 3 seconds),
    submits the code that starts debugpy at the requested address, once,
    and last of all starts [start_debugging] for that address.  Nothing
    asks for the end of the process. *)
Theorem attach_to_maya_attaches
  contents n c config dbg H jport p P maya Hm jmp pm st data :
  reify n (py_heap st) contents = Some c ->
  jget c (lit "arguments") = Some config ->
  jget config (lit "debugpy") = Some dbg ->
  jget dbg (lit "host") = Some (JStr H) ->
  jget dbg (lit "port") = Some jport ->
  json_int jport = Some p ->
  jget config (lit "program") = Some (JStr P) ->
  jget config (lit "maya") = Some maya ->
  jget maya (lit "host") = Some (JStr Hm) ->
  jget maya (lit "port") = Some jmp ->
  json_int jmp = Some pm ->
  maya_accepts st = true ->
  host_channel_ready st data ->
  file_encode (ATTACH_TEMPLATE_format debugpy_path H p) <> None ->
  exists st',
    attach_to_maya contents st = Ok tt st'
    /\ run_code st' = run_directive P
    /\ trace st'
       = trace st
         ++ [ELog [lit "RUN: " ++ [LF] ++ run_directive P];
             EMayaSetTimeout 3; EMayaConnect (VStr Hm) pm;
             ELog [lit "Sending attach code to Maya"]]
         ++ submission (ATTACH_TEMPLATE_format debugpy_path H p) data
         ++ [ELog [lit "Successfully attached to Maya"];
             ESpawn (TStartDebugging (VStr H) p) None]
    /\ to_maya (trace st') = to_maya (trace st) ++ [data]
    /\ spawned (trace st') = spawned (trace st) ++ [TStartDebugging (VStr H) p].
Proof.
  intros R Ga Gd Gh Gpo Ji Gp Gm Gmh Gmp Jm Up Rdy Enc.
  eexists. split.
  { exact (attach_to_maya_ok contents n c config dbg H jport p P maya Hm jmp pm st data
             R Ga Gd Gh Gpo Ji Gp Gm Gmh Gmp Jm Up Rdy Enc). }
  destruct st. cbn [run_code trace set_trace set_run_code].
  split; [reflexivity|]. split; [reflexivity|].
  unfold spawned, submission. rewrite !to_maya_app, !omap_app. cbn.
  rewrite ?app_nil_r. split; reflexivity.
Qed.

(** X10: an attach request, from the debugger to Maya, when Maya's
    command port is open, the host channel is writable and the temporary
    file takes the attach code.  The handler
    queues the rewritten request for debugpy and starts the attach
    thread; the thread, run on the state the handler leaves, works with
    the arguments as the debugger sent them: it connects to Maya at the
    address of the request, which the rewritten request no longer holds,
    submits the attach code and starts [start_debugging] at debugpy's
    address. *)
Theorem attach_request_end_to_end
  message items config dbg jport P H p new maya Hm jmp pm st data :
  json_loads message = Some (JObj items) ->
  dict_get (lit "command") items = Some (JStr (lit "attach")) ->
  dict_get (lit "arguments") items = Some config ->
  jget config (lit "program") = Some (JStr P) ->
  jget config (lit "debugpy") = Some dbg ->
  jget dbg (lit "host") = Some (JStr H) ->
  jget dbg (lit "port") = Some jport ->
  json_int jport = Some p ->
  json_loads (attach_args_text P H p) = Some new ->
  jget config (lit "maya") = Some maya ->
  jget maya (lit "host") = Some (JStr Hm) ->
  jget maya (lit "port") = Some jmp ->
  json_int jmp = Some pm ->
  maya_accepts st = true ->
  host_channel_ready st data ->
  file_encode (ATTACH_TEMPLATE_format debugpy_path H p) <> None ->
  exists contents st1 st2,
    on_receive_from_debugger message st = Ok tt st1
    /\ spawned (trace st1) = spawned (trace st) ++ [TAttachToMaya contents]
    /\ attach_to_maya contents st1 = Ok tt st2
    /\ debugpy_send_queue st2
       = debugpy_send_queue st
         ++ [Some (json_dumps (JObj (dict_set (lit "arguments") new items)))]
    /\ In (EMayaConnect (VStr Hm) pm) (trace st2)
    /\ to_maya (trace st2) = to_maya (trace st) ++ [data]
    /\ run_code st2 = run_directive P
    /\ spawned (trace st2)
       = spawned (trace st) ++ [TAttachToMaya contents; TStartDebugging (VStr H) p].
Proof.
  intros L Gc Ga Gp Gd Gh Gpo Ji Ln Gm Gmh Gmp Jm Up Rdy Enc.
  destruct (on_receive_attach message items config dbg jport P H p new st
              L Gc Ga Gp Gd Gh Gpo Ji Ln) as (l & h1 & its & vn & h3 & A & Hl & An & E).
  destruct (alloc_spec new _ _ _ An) as (e & E3 & _ & _).
  destruct (alloc_reify _ _ _ _ A) as [_ R].
  destruct (alloc_spec _ _ _ _ A) as (e1 & E1 & Le1 & _).
  set (h4 := <[length h1 := ODict (dict_set (lit "arguments") vn its)]> h3) in *.
  assert (Old : forall i o, h1 !! i = Some o -> h4 !! i = Some o).
  { intros i o Hi. pose proof (lookup_lt_Some _ _ _ Hi). unfold h4.
    rewrite list_lookup_insert_ne by lia. rewrite E3.
    now apply lookup_app_Some, lookup_app_Some. }
  assert (Len : (nodes (JObj items) <= length h4)%nat).
  { unfold h4. rewrite length_insert, E3, E1, !length_app. lia. }
  assert (R4 : reify (length h4) h4 (VRef l) = Some (JObj items))
    by (apply R; assumption).
  match type of E with _ = Ok tt ?s => set (st1 := s) in * end.
  assert (Up1 : maya_accepts st1 = true) by (destruct st; exact Up).
  assert (Rdy1 : host_channel_ready st1 data) by (destruct st; exact Rdy).
  assert (R1 : reify (length h4) (py_heap st1) (VRef l) = Some (JObj items))
    by (destruct st; exact R4).
  pose proof (attach_to_maya_ok (VRef l) _ (JObj items) config dbg H jport p P maya Hm
                jmp pm st1 data R1 Ga Gd Gh Gpo Ji Gp Gm Gmh Gmp Jm Up1 Rdy1 Enc) as E2.
  exists (VRef l), st1. eexists. split; [exact E|].
  split.
  { subst st1. destruct st. cbn [trace set_queue set_trace set_heap]. unfold spawned.
    rewrite omap_app. reflexivity. }
  split; [exact E2|].
  subst st1. destruct st.
  cbn [trace debugpy_send_queue run_code set_queue set_trace set_heap set_run_code].
  split; [reflexivity|].
  split.
  { apply in_or_app. right. apply in_or_app. left. cbn. auto. }
  unfold spawned, submission. rewrite !to_maya_app, !omap_app. cbn.
  rewrite ?app_nil_r, <- ?app_assoc. repeat split.
Qed.

(** ** More about the decoder *)

Lemma read_headers_frame_ge fuel n rest e cp cl0 :
  header_token_ok CONTENT_HEADER = true -> (2 <= fuel)%nat ->
  read_headers fuel cl0
    (Stream (CONTENT_HEADER ++ str_of_nat n ++ LF :: LF :: rest) e cp)
  = HeadersEnd (Z.of_nat n) (Stream rest e cp).
Proof.
  intros Hok Hf. destruct fuel as [|[|fuel]]; [lia|lia|].
  now apply read_headers_frame.
Qed.

Lemma header_lines_cons line lines :
  header_lines (line :: lines) = line ++ LF :: header_lines lines.
Proof. unfold header_lines. cbn. now rewrite <- app_assoc. Qed.

Lemma header_lines_length lines : (length lines <= length (header_lines lines))%nat.
Proof.
  induction lines as [|line lines IH]; [reflexivity|].
  rewrite header_lines_cons, length_app. cbn [length]. lia.
Qed.

(** Header lines that are neither blank nor the length header are read
    and dropped. *)
Lemma read_headers_foreign lines : forall fuel cl rest e cp,
  forallb foreign_header lines = true ->
  read_headers (length lines + fuel) cl (Stream (header_lines lines ++ rest) e cp)
  = read_headers fuel cl (Stream rest e cp).
Proof.
  induction lines as [|line lines IH]; intros fuel cl rest e cp Hf; [reflexivity|].
  cbn [forallb] in Hf. apply andb_true_iff in Hf. destruct Hf as [Hl Hf].
  unfold foreign_header in Hl. apply andb_true_iff in Hl. destruct Hl as [Hl Hns].
  apply andb_true_iff in Hl. destruct Hl as [Hlf Htr]. apply negb_true_iff in Hns.
  cbn [length Nat.add read_headers]. unfold readline. cbn [buf eof caps].
  rewrite header_lines_cons, <- app_assoc. cbn [app].
  rewrite (split_line_app _ _ Hlf).
  assert (T : truthy (line ++ [LF]) = true) by (destruct line; reflexivity).
  rewrite T, Htr. cbn [negb]. rewrite Hns. now apply IH.
Qed.

(** A frame behind any number of such header lines is read as the
    message it carries. *)
Lemma read_frame_after_headers lines B rest e cp :
  header_token_ok CONTENT_HEADER = true -> cr_free B = true -> B <> [] ->
  forallb foreign_header lines = true ->
  exists cp',
    read_frame (Stream (header_lines lines ++ universal_newlines (framed B) ++ rest) e cp)
    = FrameMessage B (Stream rest e cp').
Proof.
  intros Hok HB Hne Hf.
  assert (Ht : universal_newlines (framed B) ++ rest
               = CONTENT_HEADER ++ str_of_nat (length B) ++ LF :: LF :: B ++ rest).
  { rewrite universal_newlines_framed by assumption.
    rewrite <- !app_assoc. reflexivity. }
  rewrite Ht. unfold read_frame. cbn [buf].
  pose proof (header_lines_length lines) as Hl.
  assert (Hfu : exists f, S (length (header_lines lines ++ CONTENT_HEADER
                                     ++ str_of_nat (length B) ++ LF :: LF :: B ++ rest))
                          = (length lines + S (S f))%nat).
  { exists (S (length (header_lines lines ++ CONTENT_HEADER
                       ++ str_of_nat (length B) ++ LF :: LF :: B ++ rest))
            - length lines - 2)%nat.
    rewrite !length_app. cbn [length]. rewrite !length_app. lia. }
  destruct Hfu as [f ->].
  rewrite (read_headers_foreign lines _ _ _ _ _ Hf).
  rewrite read_headers_frame by assumption.
  assert (Hpos : (Z.of_nat (length B) >? 0)%Z = true).
  { apply Z.gtb_lt. destruct B; [congruence|simpl; lia]. }
  rewrite Hpos, Nat2Z.id.
  destruct (read_body_exact (length B) B [] rest e cp (Nat.le_refl _)) as [cp' E].
  rewrite E. exists cp'. reflexivity.
Qed.

(** X11: header lines other than the length header do not matter.  A
    frame that comes behind any number of lines that are neither blank
    nor start with the length header ("Content-Type: ..." and the like)
    is read as the message it carries, as if they were not there. *)
Theorem foreign_headers_are_skipped lines B rest e cp :
  header_token_ok CONTENT_HEADER = true -> cr_free B = true -> B <> [] ->
  forallb foreign_header lines = true ->
  exists cp',
    read_frame (Stream (header_lines lines ++ universal_newlines (framed B) ++ rest) e cp)
    = FrameMessage B (Stream rest e cp').
Proof. apply read_frame_after_headers. Qed.

Lemma read_frame_framed B rest e cp :
  header_token_ok CONTENT_HEADER = true -> cr_free B = true -> B <> [] ->
  exists cp',
    read_frame (Stream (universal_newlines (framed B) ++ rest) e cp)
    = FrameMessage B (Stream rest e cp').
Proof.
  intros Hok HB Hne.
  exact (read_frame_after_headers [] B rest e cp Hok HB Hne eq_refl).
Qed.

(** With fewer characters in the stream than the header announced, the
    body loop cannot end: it waits for more, or, at the end of the stream,
    turns for ever. *)
Lemma read_body_short fuel : forall n B total e cp,
  (length B < n)%nat -> (n <= fuel)%nat ->
  read_body fuel (Z.of_nat n) total (Stream B e cp)
  = if e then BodySpin else BodyBlocked.
Proof.
  induction fuel as [|fuel IH]; intros n B total e cp Hlt Hle; [lia|].
  cbn [read_body].
  replace (Z.of_nat n >? 0)%Z with true by (symmetry; apply Z.gtb_lt; lia).
  rewrite Nat2Z.id. unfold read. cbn [buf eof caps].
  destruct B as [|c B].
  - destruct e; reflexivity.
  - set (k := match cp with [] => n | c0 :: _ => Nat.min n (S c0) end).
    assert (Hk : exists k', k = S k' /\ (S k' <= n)%nat).
    { subst k. destruct cp as [|c0 cp].
      - exists (n - 1)%nat. lia.
      - exists (Nat.min (n - 1) c0). lia. }
    destruct Hk as (k' & Ek & Hk'). clearbody k. subst k.
    cbn [take drop]. cbn [length] in Hlt.
    replace (Z.of_nat n - Z.of_nat (length (c :: take k' B)))%Z
      with (Z.of_nat (n - S (length (take k' B)))).
    2:{ cbn [length]. rewrite length_take. lia. }
    apply IH.
    + rewrite length_drop, length_take. lia.
    + rewrite length_take. lia.
Qed.

(** X12: a frame whose body is cut short.  When fewer characters follow
    the header than it announces, the loop does not hand the part that
    has arrived to the handler.  If more may come it waits; if debugpy has
    closed the connection, [read()] keeps returning the empty string and
    the body loop turns for ever: nothing is logged, the socket is not
    closed, the loop is not left. *)
Theorem truncated_body_is_never_delivered n B e cp st turns :
  header_token_ok CONTENT_HEADER = true ->
  (length B < n)%nat ->
  engine_in st = Stream (CONTENT_HEADER ++ str_of_nat n ++ LF :: LF :: B) e cp ->
  read_frame (engine_in st) = (if e then FrameSpin else FrameBlocked)
  /\ receive_loop (S turns) st = Ok (if e then Spinning else Waiting) st.
Proof.
  intros Hok Hlt Hin.
  assert (E : read_frame (engine_in st) = if e then FrameSpin else FrameBlocked).
  { rewrite Hin. unfold read_frame. cbn [buf].
    rewrite read_headers_frame_ge; [|assumption|].
    2:{ rewrite !length_app. cbn [length]. lia. }
    replace (Z.of_nat n >? 0)%Z with true by (symmetry; apply Z.gtb_lt; lia).
    rewrite Nat2Z.id, read_body_short by lia. destruct e; reflexivity. }
  split; [exact E|].
  cbn [receive_loop]. unfold bind at 1. unfold get_state at 1. rewrite E.
  destruct e; reflexivity.
Qed.

(** *** The receiving loop, turn by turn *)

Lemma receive_loop_message turns st message s st2 :
  read_frame (engine_in st) = FrameMessage message s ->
  on_receive_from_debugpy message (set_engine_in s st) = Ok tt st2 ->
  receive_loop (S turns) st = receive_loop turns st2.
Proof.
  intros Ef Eh. cbn [receive_loop]. unfold bind at 1. unfold get_state at 1.
  rewrite Ef. unfold bind at 1. unfold modify at 1.
  unfold bind at 1. unfold try_except. unfold bind at 1. rewrite Eh. reflexivity.
Qed.

Lemma receive_loop_raise turns st message s e st2 :
  read_frame (engine_in st) = FrameMessage message s ->
  on_receive_from_debugpy message (set_engine_in s st) = Raise e st2 ->
  receive_loop (S turns) st
  = Ok Stopped
      (set_trace
         (trace st2
          ++ [ELog [lit "Failure reading maya's debugpy output: " ++ [LF] ++ str_of_exn e];
              EEngineClose]) st2).
Proof.
  intros Ef Eh. cbn [receive_loop]. unfold bind at 1. unfold get_state at 1.
  rewrite Ef. unfold bind at 1. unfold modify at 1.
  unfold bind at 1. unfold try_except. unfold bind at 1. rewrite Eh.
  unfold receive_failed. destruct st2. run_done.
Qed.

(** X13: a frame whose body is not JSON ends the receiving loop.  The
    handler's [JSONDecodeError] is caught by the loop, which logs the
    failure, closes debugpy's socket and leaves; nothing goes to the
    debugger, and what follows in the stream is never read, however many
    turns the loop is given. *)
Theorem receive_loop_stops_on_invalid_json B rest e cp st turns :
  header_token_ok CONTENT_HEADER = true -> cr_free B = true -> B <> [] ->
  json_loads B = None ->
  engine_in st = Stream (universal_newlines (framed B) ++ rest) e cp ->
  exists cp',
    receive_loop (S turns) st
    = Ok Stopped
        (set_trace
           (trace st
            ++ [ELog [lit "Failure reading maya's debugpy output: " ++ [LF]
                      ++ str_of_exn JSONDecodeError];
                EEngineClose])
           (set_engine_in (Stream rest e cp') st)).
Proof.
  intros Hok HB Hne Hn Hin.
  destruct (read_frame_framed B rest e cp Hok HB Hne) as [cp' Ef].
  rewrite <- Hin in Ef. exists cp'.
  rewrite (receive_loop_raise turns st B _ JSONDecodeError
             (set_engine_in (Stream rest e cp') st) Ef).
  - destruct st. reflexivity.
  - unfold on_receive_from_debugpy, bind, py_json_loads. now rewrite Hn.
Qed.

Lemma wire_text_cons msg msgs :
  wire_text (msg :: msgs) = universal_newlines (framed msg) ++ wire_text msgs.
Proof. reflexivity. Qed.

(** X14: frames that arrive back to back are handled one by one, in
    the order of the stream.  For messages the handler takes (objects
    with a usable [request_seq], not "configurationDone"), the debugger
    receives, in this order, those that do not answer a request the relay
    has answered itself; then the loop waits for more.  The answered
    sequence numbers stay as they were. *)
Theorem frames_are_relayed_in_order msgs : forall st cp,
  header_token_ok CONTENT_HEADER = true ->
  forallb relayable msgs = true ->
  engine_in st = Stream (wire_text msgs) false cp ->
  exists st',
    receive_loop (S (length msgs)) st = Ok Waiting st'
    /\ to_debugger (trace st')
       = to_debugger (trace st)
         ++ List.filter (fun msg => negb (suppressed (processed_seqs st) msg)) msgs
    /\ processed_seqs st' = processed_seqs st.
Proof.
  induction msgs as [|m ms IH]; intros st cp Hok Hr Hin.
  - exists st. cbn [receive_loop length]. unfold bind, get_state. rewrite Hin.
    split; [reflexivity|]. cbn [List.filter]. now rewrite app_nil_r.
  - cbn [forallb] in Hr. apply andb_true_iff in Hr. destruct Hr as [Hm Hms].
    unfold relayable in Hm.
    apply andb_true_iff in Hm. destruct Hm as [Hm Hj].
    apply andb_true_iff in Hm. destruct Hm as [Ht Hcr].
    destruct (json_loads m) as [c|] eqn:L; [|discriminate].
    apply andb_true_iff in Hj. destruct Hj as [Hj Hc].
    apply andb_true_iff in Hj. destruct Hj as [Ho Hs].
    destruct (effective_request_seq c) as [seq|] eqn:S; [|discriminate].
    apply negb_true_iff in Hc.
    assert (Hne : m <> []) by (destruct m; [discriminate|congruence]).
    rewrite wire_text_cons in Hin.
    destruct (read_frame_framed m (wire_text ms) false cp Hok Hcr Hne) as [cp' Ef].
    rewrite <- Hin in Ef.
    set (st1 := set_engine_in (Stream (wire_text ms) false cp') st).
    assert (C : has_command c (lit "configurationDone") = true ->
                host_channel_ready st1 [] /\ file_encode (run_code st1) <> None)
    by (rewrite Hc; discriminate).
    destruct (on_receive_from_debugpy_ok m c seq st1 [] L Ho S C) as [h Eh].
    rewrite Hc in Eh. cbn [app] in Eh.
    match type of Eh with _ = Ok tt ?s => set (st2 := s) in * end.
    assert (Hin2 : engine_in st2 = Stream (wire_text ms) false cp')
      by (destruct st; reflexivity).
    destruct (IH st2 cp' Hok Hms Hin2) as (st' & El & Td & Ps).
    exists st'. cbn [length].
    rewrite (receive_loop_message _ st m _ st2 Ef Eh).
    split; [exact El|].
    assert (P2 : processed_seqs st2 = processed_seqs st) by (destruct st; reflexivity).
    rewrite P2 in *. split; [|exact Ps].
    rewrite Td. cbn [List.filter]. unfold suppressed at 2. rewrite L, S.
    assert (T2 : to_debugger (trace st2)
                 = to_debugger (trace st)
                   ++ (if py_in seq (processed_seqs st) then [] else [m])).
    { subst st2 st1. destruct st.
      cbn [trace set_trace set_heap set_engine_in processed_seqs].
      rewrite to_debugger_app. destruct (py_in seq processed_seqs0); cbn;
        rewrite ?app_nil_r; reflexivity. }
    rewrite T2, <- app_assoc. destruct (py_in seq (processed_seqs st)); reflexivity.
Qed.

(** ** When debugpy refuses the connection *)

Lemma engine_down_emit e :
  send_loop_started [e] = false -> to_engine [e] = [] -> emit_ok engine_down e.
Proof.
  intros Hs Ht [] (Ha & Hl & He & Hk). unfold engine_down in *.
  cbn [trace set_trace engine_accepts debugpy_socket] in *.
  rewrite send_loop_started_app, to_engine_app, Hl, He, Hs, Ht. auto.
Qed.

Ltac down_emit := apply inv_emit, engine_down_emit; reflexivity.

Lemma engine_down_on_receive_from_debugger message :
  inv engine_down (on_receive_from_debugger message).
Proof.
  assert (Hh : forall x s, engine_down s -> engine_down (set_heap x s))
    by (intros x [] H; exact H).
  unfold on_receive_from_debugger, queue_put. frame_with down_emit.
Qed.

Lemma engine_down_attach_to_maya contents :
  inv engine_down (attach_to_maya contents).
Proof.
  unfold attach_to_maya, maya_connect, send_code_to_maya. frame_with down_emit.
Qed.

Lemma engine_down_start_debugging host port turns :
  inv engine_down (start_debugging host port turns).
Proof.
  unfold start_debugging.
  apply inv_bind; [frame_auto|intros name].
  apply inv_bind; [frame_with down_emit|intros _].
  apply inv_bind; [frame_with down_emit|intros _].
  intros st Hi. unfold bind at 1. unfold get_state at 1.
  destruct Hi as (Ha & Hl & He & Hk). rewrite Ha.
  unfold bind, raise. cbn [final]. repeat split; assumption.
Qed.

Lemma engine_down_reachable accepted st0 st :
  engine_down st0 -> reachable accepted st0 st -> engine_down st.
Proof.
  intros H0 R. induction R as [|st st' _ IH Hstep]; [exact H0|].
  destruct Hstep as [message st _|contents delay st _|host port delay turns st _|delay st Hin].
  - now apply engine_down_on_receive_from_debugger.
  - now apply engine_down_attach_to_maya.
  - now apply engine_down_start_debugging.
  - exfalso. destruct IH as (_ & Hl & _). unfold send_loop_started in Hl.
    assert (Ht : existsb (fun e => match e with ESpawn TSendLoop _ => true | _ => false end)
                         (trace st) = true)
      by (apply existsb_exists; eexists; split; [exact Hin|reflexivity]).
    congruence.
Qed.

(** X15: when debugpy refuses the connection, [start_debugging] raises
    before it sets the socket or starts the send loop.  From then on,
    whatever the debugger sends and whichever thread runs, nothing is
    ever written to debugpy: the requests stay on the queue. *)
Theorem nothing_reaches_debugpy_when_refused accepted st0 st :
  engine_accepts st0 = false ->
  send_loop_started (trace st0) = false ->
  to_engine (trace st0) = [] ->
  debugpy_socket st0 = false ->
  reachable accepted st0 st ->
  to_engine (trace st) = []
  /\ send_loop_started (trace st) = false
  /\ debugpy_socket st = false.
Proof.
  intros Ha Hl He Hk R.
  destruct (engine_down_reachable accepted st0 st (conj Ha (conj Hl (conj He Hk))) R)
    as (_ & Hl' & He' & Hk').
  auto.
Qed.

(** ** From the debugger to debugpy, in order *)

Lemma ok_writes_nil n : ok_writes n [] = n.
Proof. induction n as [|n IH]; [reflexivity|]. cbn. now rewrite IH. Qed.

Lemma handle_all_cons message messages st :
  handle_all (message :: messages) st
  = handle_all messages (final (on_receive_from_debugger message st)).
Proof. reflexivity. Qed.

(** A run of requests that the handler passes on: they are on the queue
    in their order, and nothing has been written to debugpy. *)
Lemma handle_all_passed_on msgs : forall st,
  forallb passed_on msgs = true ->
  exists h tr,
    handle_all msgs st
    = set_queue (debugpy_send_queue st ++ (Some <$> msgs))
        (set_trace (trace st ++ tr) (set_heap h st))
    /\ to_engine tr = [].
Proof.
  induction msgs as [|m ms IH]; intros st Hp.
  - exists (py_heap st), []. split; [|reflexivity].
    destruct st. cbn. now rewrite !app_nil_r.
  - cbn [forallb] in Hp. apply andb_true_iff in Hp. destruct Hp as [Hm Hms].
    unfold passed_on in Hm.
    destruct (json_loads m) as [c|] eqn:L; [|discriminate].
    destruct (jget c (lit "command")) as [jc|] eqn:G; [|discriminate].
    assert (Ni : jc <> JStr (lit "initialize")).
    { intros ->. rewrite eqb_refl in Hm. discriminate. }
    assert (Na : jc <> JStr (lit "attach")).
    { intros ->. rewrite eqb_refl, andb_false_r in Hm. discriminate. }
    destruct (on_receive_other m c jc st L G Ni Na) as (h & _ & E).
    rewrite handle_all_cons, E. cbn [final].
    match goal with |- context [handle_all ms ?s] =>
      destruct (IH s Hms) as (h' & tr & E' & Te)
    end.
    rewrite E'. exists h', (ELog [lit "Received from Debugger:"; m] :: tr).
    split.
    + destruct st. cbn [debugpy_send_queue trace set_queue set_trace set_heap].
      cbn [fmap list_fmap]. rewrite <- !app_assoc. reflexivity.
    + cbn. exact Te.
Qed.

(** X16: requests reach debugpy in the order the debugger sent them.
    After the handler has taken a run of requests that it passes on as
    they are, a send loop whose writes succeed writes the frames of these
    requests, header then message for each, in the order of arrival, and
    then waits on the empty queue. *)
Theorem requests_reach_debugpy_in_order msgs sends st :
  forallb passed_on msgs = true ->
  debugpy_send_queue st = [] ->
  debugpy_socket st = true ->
  engine_writes st = [] ->
  wire msgs = Some sends ->
  exists st',
    debugpy_send_loop (handle_all msgs st) = Ok WaitingOnQueue st'
    /\ to_engine (trace st') = to_engine (trace st) ++ sends
    /\ debugpy_send_queue st' = [].
Proof.
  intros Hp Hq Hs Hw Hwire.
  destruct (handle_all_passed_on msgs st Hp) as (h & tr & E & Te).
  rewrite E. clear E.
  match goal with |- context [debugpy_send_loop ?s] => set (st1 := s) end.
  assert (Q1 : debugpy_send_queue st1 = (Some <$> msgs) ++ [])
    by (subst st1; destruct st; cbn in *; subst; now rewrite app_nil_r).
  assert (S1 : debugpy_socket st1 = true) by (subst st1; destruct st; exact Hs).
  assert (W1 : engine_writes st1 = []) by (subst st1; destruct st; exact Hw).
  destruct (send_loop_on_spec msgs [] sends st1 Q1 (or_introl eq_refl) Hwire S1)
    as (status & st' & El & Tw & Ist & _ & Done).
  rewrite W1, ok_writes_nil, firstn_all in *.
  exists st'. unfold debugpy_send_loop, bind, get_state. rewrite Q1.
  assert (status = WaitingOnQueue) as ->.
  { destruct status; [|reflexivity]. destruct Ist as [Ist _].
    destruct (Ist eq_refl) as [H|H]; [lia|congruence]. }
  split; [exact El|]. split; [|now apply Done].
  rewrite Tw. subst st1. destruct st. cbn [trace set_queue set_trace set_heap].
  now rewrite to_engine_app, Te, app_nil_r.
Qed.

(** ** The length in the header *)

Lemma utf8_char_length c bs :
  utf8_char c = Some bs -> (1 <= length bs)%nat /\ (length bs = 1%nat -> c < 128).
Proof.
  unfold utf8_char. destruct (c <? 128) eqn:E1.
  { intros H. inversion H; subst. apply N.ltb_lt in E1. cbn. auto. }
  destruct (c <? 2048).
  { intros H. inversion H; subst. cbn. split; [lia|discriminate]. }
  destruct (c <? 65536).
  { destruct ((55296 <=? c) && (c <=? 57343)); [discriminate|].
    intros H. inversion H; subst. cbn. split; [lia|discriminate]. }
  destruct (c <? 1114112); [|discriminate].
  intros H. inversion H; subst. cbn. split; [lia|discriminate].
Qed.

Lemma utf8_same_length s : forall bs,
  utf8_encode s = Some bs -> length bs = length s -> is_ascii s.
Proof.
  induction s as [|c s IH]; intros bs E L; [constructor|].
  cbn [utf8_encode] in E.
  destruct (utf8_char c) as [b|] eqn:Ec; [|discriminate].
  destruct (utf8_encode s) as [r|] eqn:Er; [|discriminate].
  inversion E; subst bs. rewrite length_app in L. cbn [length] in L.
  destruct (utf8_char_length c b Ec) as [H1 H2].
  pose proof (utf8_length s r Er) as H3.
  constructor; [apply H2; lia|]. apply (IH r eq_refl). lia.
Qed.

Lemma str_of_nat_inj a b : str_of_nat a = str_of_nat b -> a = b.
Proof.
  intros H. pose proof (int_of_str_of_nat a) as Ea. rewrite H, int_of_str_of_nat in Ea.
  inversion Ea. lia.
Qed.

(** X17: the length [debugpy_send_loop] writes into the header counts
    characters ([len(msg)]), while what follows on the socket is the
    UTF-8 encoding of the message.  The announced length is never more
    than the number of bytes that follow, and it is that number exactly
    when the message is pure ASCII; any other message announces too
    little. *)
Theorem header_announces_characters msg body :
  utf8_encode msg = Some body ->
  (length msg <= length body)%nat
  /\ (frame_header msg = CONTENT_HEADER ++ str_of_nat (length body) ++ [CR; LF; CR; LF]
      <-> is_ascii msg).
Proof.
  intros E. split; [now apply utf8_length|]. split.
  - unfold frame_header. intros H. apply app_inv_head, app_inv_tail in H.
    apply str_of_nat_inj in H. now apply (utf8_same_length msg body).
  - intros Ha. destruct (utf8_ascii msg Ha) as (bs & E' & L).
    rewrite E in E'. inversion E'; subst bs. unfold frame_header. now rewrite L.
Qed.

(** X18: a message that has no UTF-8 encoding (a lone surrogate, which
    [json.loads] can produce).  The send loop has written the header when
    [bytes(msg, 'UTF-8')] raises; the error is not an [OSError], so it
    leaves the loop: the header stays on the socket without a body, the
    message is off the queue, and what was queued behind it is not
    sent. *)
Theorem unencodable_message_ends_send_loop msg queue header st :
  debugpy_send_queue st = Some msg :: queue ->
  debugpy_socket st = true ->
  match engine_writes st with false :: _ => False | _ => True end ->
  utf8_encode (frame_header msg) = Some header ->
  utf8_encode msg = None ->
  exists st',
    debugpy_send_loop st = Raise UnicodeEncodeError st'
    /\ to_engine (trace st') = to_engine (trace st) ++ [header]
    /\ debugpy_send_queue st' = queue.
Proof.
  intros Hq Hs Hw Hh Hb.
  unfold debugpy_send_loop, bind at 1, get_state at 1. rewrite Hq.
  rewrite send_loop_on_step. unfold send_frame, py_encode, lift_option.
  rewrite Hh, Hb. unfold engine_send.
  destruct st. cbn [debugpy_socket engine_writes debugpy_send_queue] in *. subst.
  destruct engine_writes0 as [|[] ?]; try contradiction;
    cbn [tail]; run_done; (eexists; split; [reflexivity|]);
    cbn [trace debugpy_send_queue]; rewrite to_engine_app; auto.
Qed.

(** ** "configurationDone" when Maya cannot be reached *)

(** X19: [on_receive_from_debugpy] submits the run directive before it
    forwards the message.  When the submission fails (the temporary file
    or Maya's socket cannot be written), the handler raises: nothing has
    been sent to Maya, and the "configurationDone" response never reaches
    the debugger. *)
Theorem configuration_done_lost_when_submission_fails message c seq st :
  json_loads message = Some c ->
  is_object c = true ->
  effective_request_seq c = Some seq ->
  has_command c (lit "configurationDone") = true ->
  tempfile_writable st = false \/ maya_writable st = false ->
  exists e st',
    on_receive_from_debugpy message st = Raise e st'
    /\ (e = OSError \/ e = UnicodeEncodeError)
    /\ to_debugger (trace st') = to_debugger (trace st)
    /\ to_maya (trace st') = to_maya (trace st).
Proof.
  intros L O S C Hf.
  assert (Hs : submits st (run_code st) = false).
  { unfold submits. destruct Hf as [-> | ->]; [reflexivity|].
    now rewrite andb_false_r. }
  destruct (on_receive_from_debugpy_fails message c seq st L O S C Hs)
    as (e & h & tr & E & He & Tm & Td).
  exists e. eexists. split; [exact E|]. split; [exact He|].
  destruct st. cbn [trace set_trace set_heap].
  now rewrite to_maya_app, to_debugger_app, Tm, Td, !app_nil_r.
Qed.

(** ** A carriage return in a message *)

(** X20: the framing does not survive a line break written as carriage
    return and line feed inside a message.  The header announces the
    characters of the message as it was sent; the text reader on the
    socket hands the pair over as a single newline, so the body loop
    comes up one character short: the decoder waits for a character that
    belongs to whatever comes next (at the end of the stream it turns for
    ever) and does not deliver the message. *)
Theorem carriage_return_breaks_the_frame B1 B2 e cp :
  header_token_ok CONTENT_HEADER = true ->
  cr_free B1 = true -> cr_free B2 = true ->
  read_frame (Stream (universal_newlines (framed (B1 ++ CR :: LF :: B2))) e cp)
  = if e then FrameSpin else FrameBlocked.
Proof.
  intros Hok H1 H2. destruct (header_token_ok_spec Hok) as [Hnb _].
  destruct (no_break_split _ Hnb) as [_ HCR].
  destruct (no_break_split _ (digits_no_break (length (B1 ++ CR :: LF :: B2)))) as [_ DCR].
  assert (Ht : universal_newlines (framed (B1 ++ CR :: LF :: B2))
               = CONTENT_HEADER ++ str_of_nat (length (B1 ++ CR :: LF :: B2))
                 ++ LF :: LF :: B1 ++ LF :: B2).
  { unfold framed, frame_header. rewrite <- !app_assoc.
    rewrite universal_newlines_app by assumption.
    rewrite universal_newlines_app by assumption.
    cbn [app universal_newlines]. rewrite !N.eqb_refl.
    replace (LF =? CR) with false by reflexivity.
    rewrite universal_newlines_app by assumption.
    cbn [universal_newlines]. rewrite !N.eqb_refl.
    now rewrite universal_newlines_id. }
  rewrite Ht. unfold read_frame. cbn [buf].
  rewrite read_headers_frame_ge; [|assumption|].
  2:{ rewrite !length_app. cbn [length]. lia. }
  replace (Z.of_nat (length (B1 ++ CR :: LF :: B2)) >? 0)%Z with true.
  2:{ symmetry. apply Z.gtb_lt. rewrite length_app. cbn [length]. lia. }
  rewrite Nat2Z.id, read_body_short.
  - destruct e; reflexivity.
  - rewrite !length_app. cbn [length]. lia.
  - lia.
Qed.

(** ** An initialize request and debugpy's answer to it *)

(** The state [on_receive_from_debugger] leaves after an initialize
    request. *)
Lemma on_receive_initialize message c s resp st :
  json_loads message = Some c ->
  jget c (lit "command") = Some (JStr (lit "initialize")) ->
  jget c (lit "seq") = Some (JInt s) ->
  json_loads INITIALIZE_RESPONSE = Some resp ->
  exists h,
    on_receive_from_debugger message st
    = Ok tt
        (set_queue (debugpy_send_queue st ++ [Some message])
           (set_processed_seqs (processed_seqs st ++ [VInt s])
              (set_trace
                 (trace st ++ [ELog [lit "Received from Debugger:"; message];
                               ESendDebugger (json_dumps resp)])
                 (set_heap h st)))).
Proof.
  intros L Gc Gs Lr.
  destruct (py_json_loads_ok message c st L) as (v & h1 & PL & _ & Len1 & _ & R).
  unfold on_receive_from_debugger. rewrite (bind_ok _ _ _ _ _ PL).
  unfold bind at 1. unfold log at 1, emit at 1, modify at 1.
  set (st2 := set_trace _ (set_heap h1 st)).
  assert (R2 : reify (length h1) (py_heap st2) v = Some c)
    by (apply R; [auto|lia]).
  destruct (getitem_tree _ st2 v c _ _ R2 Gc) as (x & Gx & Rx).
  rewrite (bind_ok _ _ _ _ _ Gx).
  apply reify_scalar in Rx. subst x. cbn [py_eq_str]. rewrite eqb_refl.
  destruct (py_json_loads_ok _ resp st2 Lr) as (v2 & h2 & PL2 & _ & Len2 & Ext2 & Rr).
  exists h2.
  unfold bind at 1. unfold bind at 1. rewrite PL2.
  set (st3 := set_heap h2 st2).
  assert (Rd : reify (length (py_heap st3)) (py_heap st3) v2 = Some resp).
  { apply Rr; [auto|]. simpl. lia. }
  rewrite (bind_ok _ _ _ _ _ (py_json_dumps_ok _ _ _ Rd)).
  unfold bind at 1. unfold interface_send at 1, emit at 1, modify at 1.
  set (st4 := set_trace _ st3).
  assert (R4 : reify (length h1) (py_heap st4) v = Some c)
    by (apply R; [exact Ext2|lia]).
  destruct (getitem_tree _ st4 v c _ _ R4 Gs) as (y & Gy & Ry).
  rewrite (bind_ok _ _ _ _ _ Gy).
  apply reify_scalar in Ry. subst y.
  subst st4 st3 st2. destruct st. run_done.
Qed.

Lemma py_in_last s seqs : py_in s (seqs ++ [VInt s]) = true.
Proof.
  rewrite py_in_app. unfold py_in at 2. cbn [existsb py_eq_int].
  rewrite Z.eqb_refl. now rewrite orb_true_r.
Qed.

(** X21: the debugger gets one answer to its initialize request.  The
    handler answers the request itself and passes it on; when debugpy's
    own response to it arrives (its [request_seq] is the sequence number
    of the request), it is dropped.  Over the two steps the debugger has
    received the canned response and nothing else. *)
Theorem initialize_is_answered_once message c s resp reply r st :
  json_loads message = Some c ->
  jget c (lit "command") = Some (JStr (lit "initialize")) ->
  jget c (lit "seq") = Some (JInt s) ->
  json_loads INITIALIZE_RESPONSE = Some resp ->
  json_loads reply = Some r ->
  is_object r = true ->
  effective_request_seq r = Some s ->
  has_command r (lit "configurationDone") = false ->
  exists st1 st2,
    on_receive_from_debugger message st = Ok tt st1
    /\ on_receive_from_debugpy reply st1 = Ok tt st2
    /\ to_debugger (trace st2) = to_debugger (trace st) ++ [json_dumps resp]
    /\ debugpy_send_queue st2 = debugpy_send_queue st ++ [Some message].
Proof.
  intros L Gc Gs Lr L2 O S C.
  destruct (on_receive_initialize message c s resp st L Gc Gs Lr) as [h E1].
  match type of E1 with _ = Ok tt ?x => set (st1 := x) in * end.
  assert (Cr : has_command r (lit "configurationDone") = true ->
               host_channel_ready st1 [] /\ file_encode (run_code st1) <> None)
    by (rewrite C; discriminate).
  destruct (on_receive_from_debugpy_ok reply r s st1 [] L2 O S Cr) as [h2 E2].
  rewrite C in E2.
  assert (P1 : processed_seqs st1 = processed_seqs st ++ [VInt s])
    by (destruct st; reflexivity).
  rewrite P1, py_in_last in E2.
  exists st1. eexists. split; [exact E1|]. split; [exact E2|].
  subst st1. destruct st.
  cbn [trace debugpy_send_queue set_queue set_processed_seqs set_trace set_heap app].
  rewrite !to_debugger_app. cbn. rewrite app_nil_r. split; reflexivity.
Qed.

End Relay.

Arguments Ok {F A} a st.
Arguments Raise {F A} e st.

(** * The relay on a small session

    The library and [util] are replaced by the stand-ins of [Sample] and
    the parsed texts of the sample session. *)

Abbreviation T := Empty_set (only parsing).
Abbreviation s_loads := (@sample_json_loads Empty_set) (only parsing).
Abbreviation s_dumps := (@sample_json_dumps Empty_set Sample.str_of_float) (only parsing).
Abbreviation s_repr := (@sample_repr_obj Empty_set) (only parsing).
Abbreviation s_on_receive_from_debugger :=
  (@on_receive_from_debugger Empty_set Sample.int_of_float Sample.str_of_float
     s_loads s_dumps s_repr sample_initialize_response sample_attach_args
     Sample.dirname) (only parsing).
Abbreviation s_on_receive_from_debugpy :=
  (@on_receive_from_debugpy Empty_set Sample.int_of_float Sample.float_eqb_int
     s_loads Sample.exec_command Sample.join Sample.gettempdir Sample.file_encode) (only parsing).
Abbreviation s_exec_bytes :=
  (default [] (utf8_encode (exec_command Sample.exec_command Sample.join
                              Sample.gettempdir))) (only parsing).
Abbreviation s_header := Sample.content_header (only parsing).

(** Example for C1: the frame of the message [{}], read one character at
    a time. *)
Lemma framing_roundtrip_witness :
  (lit "{}" <> [] ->
   exists cp',
     read_frame s_header
       (Stream (universal_newlines (framed s_header (lit "{}")) ++ []) false [0%nat])
     = FrameMessage (lit "{}") (Stream [] false cp'))
  /\ (lit "{}" = [] ->
      read_frame s_header
        (Stream (universal_newlines (framed s_header (lit "{}")) ++ []) false [0%nat])
      = FrameNone (Stream [] false [0%nat]))
  /\ (is_ascii (lit "{}") ->
      exists bs, utf8_encode (lit "{}") = Some bs
        /\ frame_header s_header (lit "{}")
           = s_header ++ str_of_nat (length bs) ++ [CR; LF; CR; LF]).
Proof.
  apply (framing_roundtrip s_header (lit "{}") [] false [0%nat]); reflexivity.
Defined.

(** C1, as stated, fails on the empty message, whose frame the decoder
    reads as "no message" and not as the message [''], and on a message
    with a character of more than one byte: for [é] the header says 1 and
    two bytes follow. *)
Lemma framing_roundtrip_counterexample :
  read_frame s_header (Stream (universal_newlines (framed s_header [])) true [])
  = FrameNone (Stream [] true [])
  /\ frame_header s_header [233] = s_header ++ lit "1" ++ [CR; LF; CR; LF]
  /\ utf8_encode [233] = Some [xc3; xa9].
Proof. repeat split; vm_compute; reflexivity. Qed.

Abbreviation s_start := (@start_state Empty_set true true) (only parsing).

(** Example for C2: the initialize request of the session, at the start
    of the process. *)
Lemma initialize_short_circuit_witness :
  exists st',
    s_on_receive_from_debugger sample_initialize s_start = Ok tt st'
    /\ trace st'
       = trace s_start
         ++ [ELog [lit "Received from Debugger:"; sample_initialize];
             ESendDebugger (s_dumps sample_initialize_response_tree)]
    /\ processed_seqs st' = processed_seqs s_start ++ [VInt 1]
    /\ debugpy_send_queue st' = debugpy_send_queue s_start ++ [Some sample_initialize]
    /\ debugpy_socket st' = debugpy_socket s_start.
Proof.
  apply (@initialize_short_circuit Empty_set Sample.int_of_float Sample.str_of_float
           s_loads s_dumps s_repr sample_initialize_response sample_attach_args
           Sample.dirname sample_initialize sample_initialize_tree 1
           sample_initialize_response_tree s_start);
    vm_compute; reflexivity.
Defined.

(** The process once it has answered the initialize request 1 itself. *)
Abbreviation s_answered :=
  (State (F := Empty_set) [VInt 1] (lit "import scene") [] true [] [] true true true
         true [] (Stream [] false [])) (only parsing).

(** The process once it has answered the initialize request 1, with
    Maya's socket closed. *)
Abbreviation s_maya_gone :=
  (State (F := Empty_set) [VInt 1] (lit "import scene") [] true [] [] true true false
         true [] (Stream [] false [])) (only parsing).

(** The process after an initialize request that carried the sequence
    number [-1]. *)
Abbreviation s_answered_minus_one :=
  (final (s_on_receive_from_debugger sample_initialize_minus_one s_start))
  (only parsing).





Abbreviation s_loads3 := (@attach_json_loads Empty_set) (only parsing).
Abbreviation s3_on_receive_from_debugger :=
  (@on_receive_from_debugger Empty_set Sample.int_of_float Sample.str_of_float
     s_loads3 s_dumps s_repr sample_initialize_response sample_attach_args
     Sample.dirname) (only parsing).



(** Example for C10: the same request; the dict given to the attach
    thread still holds the arguments the debugger sent. *)
Lemma attach_rewrite_leaves_original_witness :
  exists st' contents h1,
    s_on_receive_from_debugger sample_attach s_start = Ok tt st'
    /\ alloc (JObj sample_attach_items) (py_heap s_start) = (contents, h1)
    /\ spawned (trace st') = spawned (trace s_start) ++ [TAttachToMaya contents]
    /\ (forall l o, h1 !! l = Some o -> py_heap st' !! l = Some o)
    /\ reify (length (py_heap st')) (py_heap st') contents
       = Some (JObj sample_attach_items)
    /\ exists arguments,
         getitem contents (lit "arguments") st' = Ok arguments st'
         /\ reify (length (py_heap st')) (py_heap st') arguments = Some sample_config.
Proof.
  apply (@attach_rewrite_leaves_original Empty_set Sample.int_of_float
           Sample.str_of_float s_loads s_dumps s_repr sample_initialize_response
           sample_attach_args Sample.dirname sample_attach sample_attach_items
           sample_config
           (JObj [(lit "host", JStr (lit "localhost")); (lit "port", JInt 5678)])
           (JInt 5678) (lit "/home/u/scene.py") (lit "localhost") 5678
           sample_new_arguments s_start);
    vm_compute; reflexivity.
Defined.

(** The process when the attach thread starts and Maya's command port is
    closed: the parsed attach request is on the heap. *)
Abbreviation s_parsed_attach :=
  (alloc (F := Empty_set) (JObj sample_attach_items) []) (only parsing).
Abbreviation s_maya_down :=
  (State (F := Empty_set) [] [] [] false s_parsed_attach.2 [] false true true true []
         (Stream [] false [])) (only parsing).
Abbreviation s_attach_to_maya :=
  (@attach_to_maya Empty_set Sample.int_of_float Sample.str_of_float s_repr
     Sample.debugpy_path Sample.attach_template Sample.run_template
     Sample.exec_command Sample.dirname Sample.basename Sample.split Sample.join
     Sample.gettempdir Sample.file_encode) (only parsing).
Abbreviation s_reachable :=
  (@reachable Empty_set Sample.int_of_float Sample.float_eqb_int Sample.str_of_float
     s_loads s_dumps s_repr sample_initialize_response Sample.content_header
     Sample.debugpy_path sample_attach_args Sample.attach_template Sample.run_template
     Sample.exec_command Sample.dirname Sample.basename Sample.split Sample.join
     Sample.gettempdir sample_str_of_exn Sample.file_encode) (only parsing).
Abbreviation s_process_step :=
  (@process_step Empty_set Sample.int_of_float Sample.float_eqb_int Sample.str_of_float
     s_loads s_dumps s_repr sample_initialize_response Sample.content_header
     Sample.debugpy_path sample_attach_args Sample.attach_template Sample.run_template
     Sample.exec_command Sample.dirname Sample.basename Sample.split Sample.join
     Sample.gettempdir sample_str_of_exn Sample.file_encode) (only parsing).
Abbreviation s_process_reaches :=
  (@process_reaches Empty_set Sample.int_of_float Sample.float_eqb_int
     Sample.str_of_float s_loads s_dumps s_repr sample_initialize_response
     Sample.content_header Sample.debugpy_path sample_attach_args
     Sample.attach_template Sample.run_template Sample.exec_command Sample.dirname
     Sample.basename Sample.split Sample.join Sample.gettempdir sample_str_of_exn
     Sample.file_encode) (only parsing).



(** The send loop with two messages and the sentinel on the queue; the
    fourth write to the socket fails. *)
Abbreviation s_sending :=
  (State (F := Empty_set) [] [] [Some (lit "a"); Some (lit "b"); None] true [] [] true
         true true true [true; true; true; false] (Stream [] false [])) (only parsing).
Abbreviation s_sends :=
  (default [] (wire Sample.content_header [lit "a"; lit "b"])) (only parsing).

(** The send loop with a lone surrogate between two messages on the
    queue, and no sentinel; every write to the socket goes through. *)
Abbreviation s_unencodable :=
  (State (F := Empty_set) [] [] [Some (lit "a"); Some [55296]; Some (lit "b")] true
         [] [] true true true true [] (Stream [] false [])) (only parsing).

(** Examples for C7.  With two messages and the sentinel on the queue,
    the first message is written, the header of the second too; the
    write of the second message fails and ends the loop, with the
    sentinel still on the queue.  With a lone surrogate between two
    messages, the first message and the header of the surrogate are
    written, and [UnicodeEncodeError] leaves the loop. *)
Lemma send_loop_fifo_until_sentinel_or_failure_witness :
  (exists st',
     to_engine (trace st') = to_engine (trace s_sending) ++ take 3 s_sends
     /\ debugpy_send_loop Sample.content_header s_sending = Ok Returned st'
     /\ last (trace st') = Some (ELog [lit "Debug socket closed."])
     /\ debugpy_send_queue st' = [None])
  /\ (exists st',
        to_engine (trace st')
        = to_engine (trace s_unencodable)
          ++ default [] (frame_bytes s_header (lit "a"))
          ++ [default [] (utf8_encode (frame_header s_header [55296]))]
        /\ debugpy_send_loop Sample.content_header s_unencodable
           = Raise UnicodeEncodeError st'
        /\ debugpy_send_queue st' = [Some (lit "b")]).
Proof.
  assert (W1 : wire s_header [lit "a"; lit "b"] = Some s_sends)
    by (vm_compute; reflexivity).
  assert (W2 : wire s_header [lit "a"]
               = Some (default [] (frame_bytes s_header (lit "a"))))
    by (vm_compute; reflexivity).
  pose proof (@send_loop_fifo_until_sentinel_or_failure Empty_set Sample.content_header
                [lit "a"; lit "b"] [None] s_sends s_sending
                eq_refl W1 eq_refl eq_refl) as H1.
  pose proof (@send_loop_fifo_until_sentinel_or_failure Empty_set Sample.content_header
                [lit "a"] [Some [55296]; Some (lit "b")]
                (default [] (frame_bytes s_header (lit "a"))) s_unencodable
                eq_refl W2 eq_refl eq_refl) as H2.
  split; [exact H1|exact H2].
Defined.

(** C7, as stated, fails on a queue that holds a message without a UTF-8
    encoding (a lone surrogate, which [json.loads] can produce): the loop
    ends although there is no sentinel on the queue and no write to the
    socket fails.  [bytes(msg, 'UTF-8')] raises [UnicodeEncodeError],
    which the [except OSError] of the loop does not catch; nothing is
    logged, and the message behind it is never written. *)
Lemma send_loop_ends_without_sentinel_or_failed_write :
  no_sentinel (debugpy_send_queue s_unencodable) = true
  /\ engine_writes s_unencodable = []
  /\ exists st',
       debugpy_send_loop Sample.content_header s_unencodable
       = Raise UnicodeEncodeError st'
       /\ ~ In (ELog [lit "Debug socket closed."]) (trace st')
       /\ to_engine (trace st')
          = default [] (frame_bytes s_header (lit "a"))
            ++ [default [] (utf8_encode (frame_header s_header [55296]))]
       /\ debugpy_send_queue st' = [Some (lit "b")].
Proof.
  split; [reflexivity|]. split; [reflexivity|].
  eexists. split; [vm_compute; reflexivity|].
  split; [|split; vm_compute; reflexivity].
  intros H. vm_compute in H. intuition discriminate.
Qed.

(** Example for C9: after the initialize request 1, an event of debugpy,
    which has no [request_seq], reaches the debugger. *)
Lemma missing_request_seq_is_forwarded_witness :
  answered_nonneg (final (s_on_receive_from_debugger sample_initialize s_start))
  /\ exists st',
       s_on_receive_from_debugpy sample_output_event
         (final (s_on_receive_from_debugger sample_initialize s_start)) = Ok tt st'
       /\ to_debugger (trace st')
          = to_debugger (trace (final (s_on_receive_from_debugger sample_initialize
                                         s_start)))
            ++ [sample_output_event].
Proof.
  apply (@missing_request_seq_is_forwarded Empty_set Sample.int_of_float
           Sample.float_eqb_int Sample.str_of_float s_loads s_dumps s_repr
           sample_initialize_response Sample.content_header Sample.debugpy_path
           sample_attach_args Sample.attach_template Sample.run_template
           Sample.exec_command Sample.dirname Sample.basename Sample.split Sample.join
           Sample.gettempdir sample_str_of_exn Sample.file_encode
           s_start (final (s_on_receive_from_debugger sample_initialize s_start))
           sample_output_event sample_output_event_tree []).
  - reflexivity.
  - eapply reachable_step; [apply reachable_start|].
    apply step_debugger. vm_compute; reflexivity.
  - vm_compute; reflexivity.
  - reflexivity.
  - vm_compute; reflexivity.
  - intros H. vm_compute in H. discriminate H.
Defined.

(** C9, as stated, fails when an initialize request carries the sequence
    number [-1]: it is recorded as answered, and then an event of debugpy,
    which has no [request_seq], is dropped instead of forwarded. *)
Lemma missing_request_seq_suppressed :
  processed_seqs (final (s_on_receive_from_debugger sample_initialize_minus_one s_start))
  = [VInt (-1)]
  /\ to_debugger
       (trace (final (s_on_receive_from_debugpy sample_output_event
                        (final (s_on_receive_from_debugger sample_initialize_minus_one
                                  s_start)))))
     = to_debugger
         (trace (final (s_on_receive_from_debugger sample_initialize_minus_one
                          s_start))).
Proof. split; vm_compute; reflexivity. Qed.

(** * More of the relay on the session *)

Abbreviation s_loads2 := (@session_json_loads Empty_set) (only parsing).
Abbreviation s2_on_receive_from_debugger :=
  (@on_receive_from_debugger Empty_set Sample.int_of_float Sample.str_of_float
     s_loads2 s_dumps s_repr sample_initialize_response sample_attach_args
     Sample.dirname) (only parsing).
Abbreviation s2_reachable :=
  (@reachable Empty_set Sample.int_of_float Sample.float_eqb_int Sample.str_of_float
     s_loads2 s_dumps s_repr sample_initialize_response Sample.content_header
     Sample.debugpy_path sample_attach_args Sample.attach_template Sample.run_template
     Sample.exec_command Sample.dirname Sample.basename Sample.split Sample.join
     Sample.gettempdir sample_str_of_exn Sample.file_encode) (only parsing).
Abbreviation s2_start_debugging :=
  (@start_debugging Empty_set Sample.int_of_float Sample.float_eqb_int s_loads2
     Sample.content_header Sample.exec_command Sample.join Sample.gettempdir
     sample_str_of_exn Sample.file_encode) (only parsing).
Abbreviation s_receive_loop :=
  (@receive_loop Empty_set Sample.int_of_float Sample.float_eqb_int s_loads
     Sample.content_header Sample.exec_command Sample.join Sample.gettempdir
     sample_str_of_exn Sample.file_encode) (only parsing).

(** Example for X1: a "threads" request at the start of the process. *)
Lemma other_request_queued_verbatim_witness :
  exists st',
    s2_on_receive_from_debugger sample_threads s_start = Ok tt st'
    /\ debugpy_send_queue st' = debugpy_send_queue s_start ++ [Some sample_threads]
    /\ trace st' = trace s_start ++ [ELog [lit "Received from Debugger:"; sample_threads]]
    /\ processed_seqs st' = processed_seqs s_start
    /\ run_code st' = run_code s_start
    /\ debugpy_socket st' = debugpy_socket s_start.
Proof.
  apply (@other_request_queued_verbatim Empty_set Sample.int_of_float Sample.str_of_float
           s_loads2 s_dumps s_repr sample_initialize_response sample_attach_args
           Sample.dirname sample_threads sample_threads_tree (JStr (lit "threads"))
           s_start).
  - vm_compute; reflexivity.
  - vm_compute; reflexivity.
  - intros H. vm_compute in H. discriminate H.
  - intros H. vm_compute in H. discriminate H.
Defined.

(** Example for X2: an initialize request that has no sequence number. *)
Lemma initialize_without_seq_witness :
  exists st',
    s2_on_receive_from_debugger sample_initialize_no_seq s_start
    = Raise (KeyError (lit "seq")) st'
    /\ to_debugger (trace st')
       = to_debugger (trace s_start) ++ [s_dumps sample_initialize_response_tree]
    /\ processed_seqs st' = processed_seqs s_start
    /\ debugpy_send_queue st' = debugpy_send_queue s_start.
Proof.
  apply (@initialize_without_seq Empty_set Sample.int_of_float Sample.str_of_float
           s_loads2 s_dumps s_repr sample_initialize_response sample_attach_args
           Sample.dirname sample_initialize_no_seq sample_initialize_no_seq_items
           sample_initialize_response_tree s_start);
    vm_compute; reflexivity.
Defined.

(** Example for X3: an attach request that has no arguments. *)
Lemma attach_without_arguments_witness :
  exists contents st',
    s2_on_receive_from_debugger sample_attach_no_arguments s_start
    = Raise (KeyError (lit "arguments")) st'
    /\ trace st'
       = trace s_start
         ++ [ELog [lit "Received from Debugger:"; sample_attach_no_arguments];
             ESpawn (TAttachToMaya contents) None]
    /\ debugpy_send_queue st' = debugpy_send_queue s_start
    /\ s_attach_to_maya contents st' = Raise (KeyError (lit "arguments")) st'.
Proof.
  apply (@attach_without_arguments Empty_set Sample.int_of_float Sample.str_of_float
           s_loads2 s_dumps s_repr sample_initialize_response Sample.debugpy_path
           sample_attach_args Sample.attach_template Sample.run_template
           Sample.exec_command Sample.dirname Sample.basename Sample.split Sample.join
           Sample.gettempdir Sample.file_encode sample_attach_no_arguments
           sample_attach_no_arguments_items s_start);
    vm_compute; reflexivity.
Defined.

(** Example for X6: after the initialize request 1 was answered, a
    "threads" request is handled; 1 is still answered. *)
Lemma answered_stays_answered_witness :
  (exists more,
     processed_seqs (final (s2_on_receive_from_debugger sample_threads s_answered))
     = processed_seqs s_answered ++ more)
  /\ forall seq,
       py_in Sample.float_eqb_int seq (processed_seqs s_answered) = true ->
       py_in Sample.float_eqb_int seq
         (processed_seqs (final (s2_on_receive_from_debugger sample_threads s_answered)))
       = true.
Proof.
  apply (@answered_stays_answered Empty_set Sample.int_of_float Sample.float_eqb_int
           Sample.str_of_float s_loads2 s_dumps s_repr sample_initialize_response
           Sample.content_header Sample.debugpy_path sample_attach_args
           Sample.attach_template Sample.run_template Sample.exec_command
           Sample.dirname Sample.basename Sample.split Sample.join Sample.gettempdir
           sample_str_of_exn Sample.file_encode (fun _ => True) s_answered
           (final (s2_on_receive_from_debugger sample_threads s_answered))).
  eapply reachable_step; [apply reachable_start|].
  apply step_debugger. exact I.
Defined.

(** Example for X7: after a "threads" request the queue holds the
    request and no sentinel. *)
Lemma send_loop_returns_only_on_failed_write_witness :
  no_sentinel
    (debugpy_send_queue (final (s2_on_receive_from_debugger sample_threads s_start)))
  = true
  /\ forall st',
       debugpy_send_loop Sample.content_header
         (final (s2_on_receive_from_debugger sample_threads s_start))
       = Ok Returned st' ->
       last (trace st') = Some (ELog [lit "Debug socket closed."]).
Proof.
  apply (@send_loop_returns_only_on_failed_write Empty_set Sample.int_of_float
           Sample.float_eqb_int Sample.str_of_float s_loads2 s_dumps s_repr
           sample_initialize_response Sample.content_header Sample.debugpy_path
           sample_attach_args Sample.attach_template Sample.run_template
           Sample.exec_command Sample.dirname Sample.basename Sample.split Sample.join
           Sample.gettempdir sample_str_of_exn Sample.file_encode (fun _ => True) s_start
           (final (s2_on_receive_from_debugger sample_threads s_start))).
  - reflexivity.
  - eapply reachable_step; [apply reachable_start|].
    apply step_debugger. exact I.
Defined.

(** The process when the attach thread has asked for [start_debugging]
    and debugpy listens. *)
Abbreviation s_attached :=
  (State (F := Empty_set) [] [] [] false []
         [ESpawn (TStartDebugging (VStr (lit "localhost")) 5678) None]
         true true true true [] (Stream [] false [])) (only parsing).

(** Example for X8: [start_debugging] connects and starts the send
    loop. *)
Lemma send_loop_runs_connected_witness :
  debugpy_socket (final (s2_start_debugging (VStr (lit "localhost")) 5678 1%nat s_attached))
  = true
  /\ forall e st',
       debugpy_send_loop Sample.content_header
         (final (s2_start_debugging (VStr (lit "localhost")) 5678 1%nat s_attached))
       = Raise e st' ->
       e = UnicodeEncodeError.
Proof.
  apply (@send_loop_runs_connected Empty_set Sample.int_of_float
           Sample.float_eqb_int Sample.str_of_float s_loads2 s_dumps s_repr
           sample_initialize_response Sample.content_header Sample.debugpy_path
           sample_attach_args Sample.attach_template Sample.run_template
           Sample.exec_command Sample.dirname Sample.basename Sample.split Sample.join
           Sample.gettempdir sample_str_of_exn Sample.file_encode (fun _ => True) s_attached
           (final (s2_start_debugging (VStr (lit "localhost")) 5678 1%nat s_attached))).
  - intros H. vm_compute in H. discriminate H.
  - eapply reachable_step; [apply reachable_start|].
    apply step_start_debugging with (delay := None). left. reflexivity.
  - vm_compute; reflexivity.
Defined.
(** The process when the attach thread starts and Maya's command port is
    open. *)
Abbreviation s_maya_up :=
  (State (F := Empty_set) [] [] [] false s_parsed_attach.2 [] true true true true []
         (Stream [] false [])) (only parsing).

(** Example for X9: the attach thread of the session, with Maya up. *)
Lemma attach_to_maya_attaches_witness :
  exists st',
    s_attach_to_maya s_parsed_attach.1 s_maya_up = Ok tt st'
    /\ run_code st'
       = run_directive Sample.run_template Sample.dirname Sample.basename Sample.split
           (lit "/home/u/scene.py")
    /\ trace st'
       = trace s_maya_up
         ++ [ELog [lit "RUN: " ++ [LF]
                   ++ run_directive Sample.run_template Sample.dirname Sample.basename
                        Sample.split (lit "/home/u/scene.py")];
             EMayaSetTimeout 3; EMayaConnect (VStr (lit "localhost")) 7001;
             ELog [lit "Sending attach code to Maya"]]
         ++ submission Sample.exec_command Sample.join Sample.gettempdir
              (Sample.attach_template Sample.debugpy_path (lit "localhost") 5678)
              s_exec_bytes
         ++ [ELog [lit "Successfully attached to Maya"];
             ESpawn (TStartDebugging (VStr (lit "localhost")) 5678) None]
    /\ to_maya (trace st') = to_maya (trace s_maya_up) ++ [s_exec_bytes]
    /\ spawned (trace st')
       = spawned (trace s_maya_up) ++ [TStartDebugging (VStr (lit "localhost")) 5678].
Proof.
  apply (@attach_to_maya_attaches Empty_set Sample.int_of_float Sample.str_of_float
           s_repr Sample.debugpy_path Sample.attach_template Sample.run_template
           Sample.exec_command Sample.dirname Sample.basename Sample.split Sample.join
           Sample.gettempdir Sample.file_encode
           s_parsed_attach.1 4%nat (JObj sample_attach_items) sample_config
           (JObj [(lit "host", JStr (lit "localhost")); (lit "port", JInt 5678)])
           (lit "localhost") (JInt 5678) 5678 (lit "/home/u/scene.py")
           (JObj [(lit "host", JStr (lit "localhost")); (lit "port", JInt 7001)])
           (lit "localhost") (JInt 7001) 7001 s_maya_up s_exec_bytes);
    try (vm_compute; reflexivity).
  - repeat split; vm_compute; reflexivity.
  - intros E. vm_compute in E. discriminate E.
Defined.

(** Example for X10: the attach request of the session, handled and
    then carried out. *)
Lemma attach_request_end_to_end_witness :
  exists contents st1 st2,
    s_on_receive_from_debugger sample_attach s_start = Ok tt st1
    /\ spawned (trace st1) = spawned (trace s_start) ++ [TAttachToMaya contents]
    /\ s_attach_to_maya contents st1 = Ok tt st2
    /\ debugpy_send_queue st2
       = debugpy_send_queue s_start
         ++ [Some (s_dumps (JObj (dict_set (lit "arguments") sample_new_arguments
                                    sample_attach_items)))]
    /\ In (EMayaConnect (VStr (lit "localhost")) 7001) (trace st2)
    /\ to_maya (trace st2) = to_maya (trace s_start) ++ [s_exec_bytes]
    /\ run_code st2
       = run_directive Sample.run_template Sample.dirname Sample.basename Sample.split
           (lit "/home/u/scene.py")
    /\ spawned (trace st2)
       = spawned (trace s_start)
         ++ [TAttachToMaya contents; TStartDebugging (VStr (lit "localhost")) 5678].
Proof.
  apply (@attach_request_end_to_end Empty_set Sample.int_of_float Sample.str_of_float
           s_loads s_dumps s_repr sample_initialize_response Sample.debugpy_path
           sample_attach_args Sample.attach_template Sample.run_template
           Sample.exec_command Sample.dirname Sample.basename Sample.split Sample.join
           Sample.gettempdir Sample.file_encode sample_attach sample_attach_items sample_config
           (JObj [(lit "host", JStr (lit "localhost")); (lit "port", JInt 5678)])
           (JInt 5678) (lit "/home/u/scene.py") (lit "localhost") 5678
           sample_new_arguments
           (JObj [(lit "host", JStr (lit "localhost")); (lit "port", JInt 7001)])
           (lit "localhost") (JInt 7001) 7001 s_start s_exec_bytes);
    try (vm_compute; reflexivity).
  - repeat split; vm_compute; reflexivity.
  - intros E. vm_compute in E. discriminate E.
Defined.

(** Example for X11: the frame of [{}] behind a "Content-Type" line. *)
Lemma foreign_headers_are_skipped_witness :
  exists cp',
    read_frame s_header
      (Stream (header_lines [lit "Content-Type: application/json"]
               ++ universal_newlines (framed s_header (lit "{}")) ++ []) false [])
    = FrameMessage (lit "{}") (Stream [] false cp').
Proof.
  apply (foreign_headers_are_skipped s_header [lit "Content-Type: application/json"]
           (lit "{}") [] false []).
  - vm_compute; reflexivity.
  - vm_compute; reflexivity.
  - intros H. vm_compute in H. discriminate H.
  - vm_compute; reflexivity.
Defined.

(** debugpy has announced five characters, sent two and closed the
    connection. *)
Abbreviation s_cut_short :=
  (State (F := Empty_set) [] [] [] true [] [] true true true true []
         (Stream (s_header ++ str_of_nat 5 ++ LF :: LF :: lit "{}") true []))
  (only parsing).

(** Example for X12: the body loop turns for ever. *)
Lemma truncated_body_is_never_delivered_witness :
  read_frame s_header (engine_in s_cut_short) = FrameSpin
  /\ s_receive_loop 1%nat s_cut_short = Ok Spinning s_cut_short.
Proof.
  apply (@truncated_body_is_never_delivered Empty_set Sample.int_of_float
           Sample.float_eqb_int s_loads Sample.content_header Sample.exec_command
           Sample.join Sample.gettempdir sample_str_of_exn Sample.file_encode
           5%nat (lit "{}") true [] s_cut_short 0%nat).
  - vm_compute; reflexivity.
  - vm_compute. lia.
  - reflexivity.
Defined.

(** debugpy has sent a frame whose body is not JSON, and more behind
    it. *)
Abbreviation s_garbled :=
  (State (F := Empty_set) [] [] [] true [] [] true true true true []
         (Stream (universal_newlines (framed s_header (lit "oops")) ++ lit "more")
                 false [])) (only parsing).

(** Example for X13: the loop closes the socket and leaves. *)
Lemma receive_loop_stops_on_invalid_json_witness :
  exists cp',
    s_receive_loop 2%nat s_garbled
    = Ok Stopped
        (set_trace
           (trace s_garbled
            ++ [ELog [lit "Failure reading maya's debugpy output: " ++ [LF]
                      ++ sample_str_of_exn JSONDecodeError];
                EEngineClose])
           (set_engine_in (Stream (lit "more") false cp') s_garbled)).
Proof.
  apply (@receive_loop_stops_on_invalid_json Empty_set Sample.int_of_float
           Sample.float_eqb_int s_loads Sample.content_header Sample.exec_command
           Sample.join Sample.gettempdir sample_str_of_exn Sample.file_encode
           (lit "oops") (lit "more") false [] s_garbled 1%nat).
  - vm_compute; reflexivity.
  - vm_compute; reflexivity.
  - intros H. vm_compute in H. discriminate H.
  - vm_compute; reflexivity.
  - reflexivity.
Defined.

(** The relay has answered the initialize request 1 itself; debugpy has
    sent its own answer to it and an output event, back to back. *)
Abbreviation s_two_frames :=
  (State (F := Empty_set) [VInt 1] (lit "import scene") [] true [] [] true true true
         true []
         (Stream (wire_text s_header [sample_engine_initialized; sample_output_event])
                 false [])) (only parsing).

(** Example for X14: the answer is dropped, the event goes to the
    debugger, and the loop waits. *)
Lemma frames_are_relayed_in_order_witness :
  exists st',
    s_receive_loop (S (length [sample_engine_initialized; sample_output_event]))
      s_two_frames
    = Ok Waiting st'
    /\ to_debugger (trace st')
       = to_debugger (trace s_two_frames)
         ++ List.filter
              (fun msg =>
                 negb (suppressed Sample.int_of_float Sample.float_eqb_int s_loads
                         (processed_seqs s_two_frames) msg))
              [sample_engine_initialized; sample_output_event]
    /\ processed_seqs st' = processed_seqs s_two_frames.
Proof.
  apply (@frames_are_relayed_in_order Empty_set Sample.int_of_float
           Sample.float_eqb_int s_loads Sample.content_header Sample.exec_command
           Sample.join Sample.gettempdir sample_str_of_exn Sample.file_encode
           [sample_engine_initialized; sample_output_event] s_two_frames []).
  - vm_compute; reflexivity.
  - vm_compute; reflexivity.
  - reflexivity.
Defined.

(** Example for X15: debugpy does not listen; an initialize request is
    handled. *)
Lemma nothing_reaches_debugpy_when_refused_witness :
  to_engine
    (trace (final (s2_on_receive_from_debugger sample_initialize
                     (@start_state Empty_set true false))))
  = []
  /\ send_loop_started
       (trace (final (s2_on_receive_from_debugger sample_initialize
                        (@start_state Empty_set true false))))
     = false
  /\ debugpy_socket
       (final (s2_on_receive_from_debugger sample_initialize
                 (@start_state Empty_set true false)))
     = false.
Proof.
  apply (@nothing_reaches_debugpy_when_refused Empty_set Sample.int_of_float
           Sample.float_eqb_int Sample.str_of_float s_loads2 s_dumps s_repr
           sample_initialize_response Sample.content_header Sample.debugpy_path
           sample_attach_args Sample.attach_template Sample.run_template
           Sample.exec_command Sample.dirname Sample.basename Sample.split Sample.join
           Sample.gettempdir sample_str_of_exn Sample.file_encode (fun _ => True)
           (@start_state Empty_set true false)
           (final (s2_on_receive_from_debugger sample_initialize
                     (@start_state Empty_set true false))));
    try reflexivity.
  eapply reachable_step; [apply reachable_start|].
  apply step_debugger. exact I.
Defined.

(** The process with debugpy connected and nothing queued. *)
Abbreviation s_connected :=
  (State (F := Empty_set) [] [] [] true [] [] true true true true []
         (Stream [] false [])) (only parsing).

(** Example for X16: a "threads" and a "disconnect" request. *)
Lemma requests_reach_debugpy_in_order_witness :
  exists st',
    debugpy_send_loop Sample.content_header
      (handle_all Sample.int_of_float Sample.str_of_float s_loads2 s_dumps s_repr
         sample_initialize_response sample_attach_args Sample.dirname
         [sample_threads; sample_disconnect] s_connected)
    = Ok WaitingOnQueue st'
    /\ to_engine (trace st')
       = to_engine (trace s_connected)
         ++ default [] (wire Sample.content_header [sample_threads; sample_disconnect])
    /\ debugpy_send_queue st' = [].
Proof.
  apply (@requests_reach_debugpy_in_order Empty_set Sample.int_of_float
           Sample.str_of_float s_loads2 s_dumps s_repr sample_initialize_response
           Sample.content_header sample_attach_args Sample.dirname
           [sample_threads; sample_disconnect]
           (default [] (wire Sample.content_header [sample_threads; sample_disconnect]))
           s_connected);
    vm_compute; reflexivity.
Defined.

(** Example for X17: the message [é] is one character and two bytes. *)
Lemma header_announces_characters_witness :
  (length [233] <= length [xc3; xa9])%nat
  /\ (frame_header s_header [233]
      = s_header ++ str_of_nat (length [xc3; xa9]) ++ [CR; LF; CR; LF]
      <-> is_ascii [233]).
Proof.
  apply (header_announces_characters s_header [233] [xc3; xa9]).
  vm_compute; reflexivity.
Defined.

(** A lone surrogate is on the queue, and another message behind it. *)
Abbreviation s_surrogate :=
  (State (F := Empty_set) [] [] [Some [55296]; Some (lit "a")] true [] [] true true
         true true [] (Stream [] false [])) (only parsing).

(** Example for X18: the header is written, the message is not. *)
Lemma unencodable_message_ends_send_loop_witness :
  exists st',
    debugpy_send_loop Sample.content_header s_surrogate = Raise UnicodeEncodeError st'
    /\ to_engine (trace st')
       = to_engine (trace s_surrogate)
         ++ [default [] (utf8_encode (frame_header s_header [55296]))]
    /\ debugpy_send_queue st' = [Some (lit "a")].
Proof.
  apply (@unencodable_message_ends_send_loop Empty_set Sample.content_header
           [55296] [Some (lit "a")]
           (default [] (utf8_encode (frame_header s_header [55296]))) s_surrogate).
  - reflexivity.
  - reflexivity.
  - exact I.
  - vm_compute; reflexivity.
  - vm_compute; reflexivity.
Defined.

(** Example for X19: debugpy reports "configurationDone". *)
Lemma configuration_done_lost_when_submission_fails_witness :
  exists e st',
    s_on_receive_from_debugpy sample_configuration_done s_maya_gone = Raise e st'
    /\ (e = OSError \/ e = UnicodeEncodeError)
    /\ to_debugger (trace st') = to_debugger (trace s_maya_gone)
    /\ to_maya (trace st') = to_maya (trace s_maya_gone).
Proof.
  apply (@configuration_done_lost_when_submission_fails Empty_set Sample.int_of_float
           Sample.float_eqb_int s_loads Sample.exec_command Sample.join
           Sample.gettempdir Sample.file_encode sample_configuration_done sample_configuration_done_tree
           4 s_maya_gone).
  - vm_compute; reflexivity.
  - reflexivity.
  - reflexivity.
  - vm_compute; reflexivity.
  - right. reflexivity.
Defined.

(** Example for X20: a message of two lines, at the end of the stream. *)
Lemma carriage_return_breaks_the_frame_witness :
  read_frame s_header
    (Stream (universal_newlines (framed s_header (lit "{" ++ CR :: LF :: lit "}")))
            true [])
  = FrameSpin.
Proof.
  apply (carriage_return_breaks_the_frame s_header (lit "{") (lit "}") true []);
    vm_compute; reflexivity.
Defined.

(** Example for X21: the initialize request of the session and debugpy's
    response to it. *)
Lemma initialize_is_answered_once_witness :
  exists st1 st2,
    s_on_receive_from_debugger sample_initialize s_start = Ok tt st1
    /\ s_on_receive_from_debugpy sample_engine_initialized st1 = Ok tt st2
    /\ to_debugger (trace st2)
       = to_debugger (trace s_start) ++ [s_dumps sample_initialize_response_tree]
    /\ debugpy_send_queue st2 = debugpy_send_queue s_start ++ [Some sample_initialize].
Proof.
  apply (@initialize_is_answered_once Empty_set Sample.int_of_float
           Sample.float_eqb_int Sample.str_of_float s_loads s_dumps s_repr
           sample_initialize_response sample_attach_args Sample.exec_command
           Sample.dirname Sample.join Sample.gettempdir Sample.file_encode
           sample_initialize sample_initialize_tree 1 sample_initialize_response_tree
           sample_engine_initialized sample_engine_initialized_tree s_start);
    vm_compute; reflexivity.
Defined.
